(** * homebridge-coway: session negotiation, token refresh, polling and the
      MARVEL air purifier accessory

    A shallow embedding of [coway.ts], the platform's poll cycle and
    [marvel-air-purifier.ts], with the properties stated in the
    specification proved (or refuted) over it.

    Conventions
    - JavaScript strings are [string]s (sequences of 8-bit code units).
    - JavaScript numbers are [number]s: NaN, the two infinities, or a finite
      value carried as an exact rational.  Binary64 rounding is not modelled:
      every comparison the code makes is against an integer constant, and
      the one product the code divides again is checked in binary64 in
      [binary64_levels_survive].
    - Values of type [any] coming from the vendor are [JsValue]s.
    - Handlers mutate [platformAccessory.context]; here they take the context
      and return the new one together with what they emitted. *)

Set Warnings "-register-all".

From Stdlib Require Import PrimFloat.
From Stdlib Require Import ZArith QArith Qround Qpower Qabs String Ascii List Bool Lia Lqa DecimalString.
From Stdlib Require DecimalPos DecimalZ.
Import ListNotations.

Open Scope string_scope.
Open Scope Z_scope.

(* ================================================================== *)
(** * The JavaScript runtime, as far as the code observes it           *)
(* ================================================================== *)

Module Js.

(** ** Numbers *)

Inductive number : Type :=
| NaN
| Infinity (negative : bool)
| Num (q : Q).

Definition isNaN (n : number) : bool :=
  match n with NaN => true | _ => false end.

Definition ofZ (z : Z) : number := Num (inject_Z z).

(** [a < b] on numbers (false as soon as one side is NaN). *)
Definition lt (a b : number) : bool :=
  match a, b with
  | NaN, _ | _, NaN => false
  | Infinity true, Infinity true => false
  | Infinity true, _ => true
  | _, Infinity true => false
  | Infinity false, _ => false
  | _, Infinity false => true
  | Num x, Num y => negb (Qle_bool y x)
  end.

(** [a <= b] on numbers. *)
Definition le (a b : number) : bool :=
  match a, b with
  | NaN, _ | _, NaN => false
  | Infinity true, _ => true
  | _, Infinity true => false
  | _, Infinity false => true
  | Infinity false, _ => false
  | Num x, Num y => Qle_bool x y
  end.

(** [a === b] on numbers. *)
Definition eqb (a b : number) : bool :=
  match a, b with
  | Infinity x, Infinity y => Bool.eqb x y
  | Num x, Num y => Qeq_bool x y
  | _, _ => false
  end.

Definition isZero (q : Q) : bool := Qeq_bool q 0.
Definition isNeg (q : Q) : bool := negb (Qle_bool 0 q).

(** [a * b] (signed zeros are not distinguished). *)
Definition mul (a b : number) : number :=
  match a, b with
  | NaN, _ | _, NaN => NaN
  | Num x, Num y => Num (x * y)
  | Infinity s, Infinity t => Infinity (xorb s t)
  | Infinity s, Num y | Num y, Infinity s =>
      if isZero y then NaN else Infinity (xorb s (isNeg y))
  end.

(** [a / b] (signed zeros are not distinguished: [x / 0] takes the sign
    of [x]). *)
Definition div (a b : number) : number :=
  match a, b with
  | NaN, _ | _, NaN => NaN
  | Infinity _, Infinity _ => NaN
  | Infinity s, Num y => Infinity (xorb s (isNeg y))
  | Num _, Infinity _ => Num 0
  | Num x, Num y =>
      if isZero y
      then (if isZero x then NaN else Infinity (isNeg x))
      else Num (x / y)
  end.

(** [Math.round]: the nearest integer, ties towards positive infinity. *)
Definition Math_round (a : number) : number :=
  match a with
  | Num x => ofZ (Qfloor (x + (1 # 2)))
  | _ => a
  end.

(** [Math.max(...levels)] for a non-empty array of numbers. *)
Definition max2 (a b : number) : number :=
  match a, b with
  | NaN, _ | _, NaN => NaN
  | _, _ => if lt a b then b else a
  end.

Definition Math_max (levels : list number) : number :=
  fold_left max2 levels (Infinity true).

(** The integer nearest to [x], ties away from zero: the digits
    [Number.prototype.toFixed(0)] prints. *)
Definition roundHalfAway (x : Q) : Z :=
  if isNeg x then - Qfloor (- x + (1 # 2)) else Qfloor (x + (1 # 2)).

(** ** Strings *)

Definition string_of_Z (z : Z) : string :=
  NilZero.string_of_int (Z.to_int z).

(** [x.toFixed(0)], for [|x| < 10^21] (beyond that JavaScript switches to
    exponent notation). A negative value that rounds to zero prints with its
    sign. *)
Definition toFixed0 (a : number) : string :=
  match a with
  | NaN => "NaN"
  | Infinity false => "Infinity"
  | Infinity true => "-Infinity"
  | Num x =>
      let n := roundHalfAway x in
      if isNeg x && (n =? 0) then "-0" else string_of_Z n
  end.

(** [s.split(sep)] for a non-empty separator: [skip] counts the code units
    of a separator still to be passed over, [cur] is the piece being
    collected. *)
Fixpoint split_aux (sep s : string) (skip : nat) (cur : string) : list string :=
  match s with
  | EmptyString => [cur]
  | String c r =>
      match skip with
      | S k => split_aux sep r k cur
      | O =>
          if prefix sep s
          then cur :: split_aux sep r (Nat.pred (String.length sep)) ""
          else split_aux sep r 0 (cur ++ String c "")
      end
  end.

Definition split (sep s : string) : list string := split_aux sep s 0 "".

(** [s.indexOf(needle) === -1] *)
Fixpoint includes (needle s : string) : bool :=
  prefix needle s ||
  match s with
  | EmptyString => false
  | String _ r => includes needle r
  end.

(** [s.replaceAll(pat, by)] for a non-empty pattern. *)
Fixpoint replaceAll_aux (pat by_ s : string) (skip : nat) : string :=
  match s with
  | EmptyString => ""
  | String c r =>
      match skip with
      | S k => replaceAll_aux pat by_ r k
      | O =>
          if prefix pat s
          then by_ ++ replaceAll_aux pat by_ r (Nat.pred (String.length pat))
          else String c (replaceAll_aux pat by_ r 0)
      end
  end.

Definition replaceAll (pat by_ s : string) : string := replaceAll_aux pat by_ s 0.

Fixpoint drop (n : nat) (s : string) : string :=
  match n, s with
  | S k, String _ r => drop k r
  | _, _ => s
  end.

Definition code (c : ascii) : Z := Z.of_N (N_of_ascii c).

(** StrWhiteSpaceChar, restricted to 8-bit code units:
    TAB, LF, VT, FF, CR, SP, NBSP. *)
Definition isWhiteSpace (c : ascii) : bool :=
  let n := code c in
  ((9 <=? n) && (n <=? 13)) || (n =? 32) || (n =? 160).

Definition isDigit (c : ascii) : bool :=
  (48 <=? code c) && (code c <=? 57).

Definition digitValue (c : ascii) : Z := code c - 48.

Fixpoint trimStart (s : string) : string :=
  match s with
  | String c r => if isWhiteSpace c then trimStart r else s
  | EmptyString => EmptyString
  end.

(** The longest prefix of decimal digits, and what follows it. *)
Fixpoint takeDigits (s : string) : list Z * string :=
  match s with
  | String c r =>
      if isDigit c
      then let (ds, rest) := takeDigits r in (digitValue c :: ds, rest)
      else ([], s)
  | EmptyString => ([], EmptyString)
  end.

Definition digitsValue (ds : list Z) : Z :=
  fold_left (fun acc d => 10 * acc + d) ds 0.

(** An optional sign: its factor and the rest of the string. *)
Definition takeSign (s : string) : Z * string :=
  match s with
  | String "-" r => (-1, r)
  | String "+" r => (1, r)
  | _ => (1, s)
  end.

(** The digits of a run in the given radix as a number; NaN when the run
    is empty. *)
Definition numberOfDigits (sign radix : Z) (ds : list Z) : number :=
  match ds with
  | [] => NaN
  | _ => ofZ (sign * fold_left (fun acc d => radix * acc + d) ds 0)
  end.

(** [parseInt(s, 10)]: leading white space, an optional sign, then the
    longest run of decimal digits; NaN when that run is empty. *)
Definition parseInt10 (s : string) : number :=
  let (sign, body) := takeSign (trimStart s) in
  let (ds, _) := takeDigits body in
  numberOfDigits sign 10 ds.

Definition hexDigitValue (c : ascii) : option Z :=
  let n := code c in
  if (48 <=? n) && (n <=? 57) then Some (n - 48)
  else if (65 <=? n) && (n <=? 70) then Some (n - 55)
  else if (97 <=? n) && (n <=? 102) then Some (n - 87)
  else None.

Fixpoint takeHexDigits (s : string) : list Z :=
  match s with
  | String c r =>
      match hexDigitValue c with
      | Some d => d :: takeHexDigits r
      | None => []
      end
  | EmptyString => []
  end.

(** [parseInt(s)], without a radix: as above, except that a [0x] or [0X]
    after the sign switches to hexadecimal. *)
Definition parseInt (s : string) : number :=
  let (sign, body) := takeSign (trimStart s) in
  let decimal := let (ds, _) := takeDigits body in numberOfDigits sign 10 ds in
  match body with
  | String "0" (String x r) =>
      if (x =? "x")%char || (x =? "X")%char
      then numberOfDigits sign 16 (takeHexDigits r)
      else decimal
  | _ => decimal
  end.

(** The exponent part [e|E [+|-] digits] when it is complete, else 0. *)
Definition takeExponent (s : string) : Z :=
  match s with
  | String c r =>
      if (c =? "e")%char || (c =? "E")%char
      then let (sign, body) := takeSign r in
           let (ds, _) := takeDigits body in
           match ds with
           | [] => 0
           | _ => sign * digitsValue ds
           end
      else 0
  | EmptyString => 0
  end.

Definition pow10 (e : Z) : Q := Qpower (10 # 1) e.

(** [parseFloat(s)]: leading white space, then the longest prefix that is
    a StrDecimalLiteral; NaN when there is none. *)
Definition parseFloat (s : string) : number :=
  let (sign, body) := takeSign (trimStart s) in
  if prefix "Infinity" body then Infinity (sign <? 0)
  else
    let (ip, r1) := takeDigits body in
    let (fp, r2) :=
      match r1 with
      | String "." r => takeDigits r
      | _ => ([], r1)
      end in
    match ip, fp with
    | [], [] => NaN
    | _, _ =>
        let mantissa := sign * digitsValue (ip ++ fp) in
        let e := takeExponent r2 - Z.of_nat (length fp) in
        Num (Qred (inject_Z mantissa * pow10 e))
    end.

(** ** Values *)

Inductive JsValue : Type :=
| JUndefined
| JNull
| JBool (b : bool)
| JNumber (n : number)
| JString (s : string)
| JArray (elements : list JsValue)
| JObject (fields : list (string * JsValue)).

(** ToBoolean *)
Definition truthy (v : JsValue) : bool :=
  match v with
  | JUndefined | JNull => false
  | JBool b => b
  | JNumber NaN => false
  | JNumber (Num q) => negb (Qeq_bool q 0)
  | JNumber (Infinity _) => true
  | JString s => negb (s =? "")%string
  | JArray _ | JObject _ => true
  end.

(** [v === s] for a string [s]. *)
Definition strictEqString (v : JsValue) (s : string) : bool :=
  match v with
  | JString t => (t =? s)%string
  | _ => false
  end.

Fixpoint lookup (k : string) (fields : list (string * JsValue)) : JsValue :=
  match fields with
  | [] => JUndefined
  | (k', v) :: rest => if (k' =? k)%string then v else lookup k rest
  end.

(** [v[k]] for a value that is known not to be null or undefined and a key
    that is neither an index nor ["length"]. *)
Definition get (v : JsValue) (k : string) : JsValue :=
  match v with
  | JObject fields => lookup k fields
  | _ => JUndefined
  end.

(** [v?.[k]] *)
Definition getOpt (v : JsValue) (k : string) : JsValue :=
  match v with
  | JUndefined | JNull => JUndefined
  | _ => get v k
  end.

(** ** Completions *)

Inductive JsError : Type :=
| TypeError
| SyntaxError.

Inductive Completion (A : Type) : Type :=
| Normal (a : A)
| Throw (e : JsError).

Arguments Normal {A} a.
Arguments Throw {A} e.

Definition bindC {A B : Type} (c : Completion A) (k : A -> Completion B) : Completion B :=
  match c with
  | Normal a => k a
  | Throw e => Throw e
  end.

Notation "x <- c ;; k" := (bindC c (fun x => k))
  (at level 61, c at next level, right associativity).

Fixpoint mapC {A B : Type} (f : A -> Completion B) (xs : list A) : Completion (list B) :=
  match xs with
  | [] => Normal []
  | x :: rest =>
      y <- f x ;;
      ys <- mapC f rest ;;
      Normal (y :: ys)
  end.

(** [v[k]] where [v] may be null or undefined *)
Definition getProp (v : JsValue) (k : string) : Completion JsValue :=
  match v with
  | JUndefined | JNull => Throw TypeError
  | _ => Normal (get v k)
  end.

(** What the engine and Node supply.
    - [Number_toString]: Number::toString, reached only when the vendor sends
      a JSON number where a string is expected;
    - [StringToNumber]: ToNumber on a string;
    - [Buffer_base64]: [Buffer.from(s, 'base64').toString()];
    - [JSON_parse]: [JSON.parse], which throws a SyntaxError on malformed
      text. *)
Class Runtime : Type := {
  Number_toString : number -> string;
  StringToNumber : string -> number;
  Buffer_base64 : string -> string;
  JSON_parse : string -> Completion JsValue
}.

Section WithRuntime.
Context {RT : Runtime}.

Fixpoint join (parts : list string) : string :=
  match parts with
  | [] => ""
  | [p] => p
  | p :: rest => p ++ "," ++ join rest
  end.

(** ToString *)
Fixpoint ToString (v : JsValue) : string :=
  match v with
  | JUndefined => "undefined"
  | JNull => "null"
  | JBool true => "true"
  | JBool false => "false"
  | JNumber n => Number_toString n
  | JString s => s
  | JArray elements =>
      join (map (fun e => match e with
                          | JUndefined | JNull => ""
                          | _ => ToString e
                          end) elements)
  | JObject _ => "[object Object]"
  end.

(** ToNumber *)
Definition ToNumber (v : JsValue) : number :=
  match v with
  | JUndefined => NaN
  | JNull => ofZ 0
  | JBool true => ofZ 1
  | JBool false => ofZ 0
  | JNumber n => n
  | JString s => StringToNumber s
  | JArray _ | JObject _ => StringToNumber (ToString v)
  end.

End WithRuntime.

(** The double quote character. *)
Definition dquote : string := String (ascii_of_nat 34) EmptyString.

End Js.

Import Js.

(* ================================================================== *)
(** * Constants the sources import                                     *)
(* ================================================================== *)

(** The two [enumerations.ts] modules are not among the sources.  Their
    members are string enums; the code only compares them, sends them and
    uses them as keys, so their wire values are left open. *)
Class Enumerations : Type := {
  Field_POWER : string;
  Field_MODE : string;
  Field_FAN_SPEED : string;
  Field_LIGHT : string;
  Field_LIGHT_BRIGHTNESS : string;
  Field_AIR_QUALITY : string;
  Power_ON : string;
  Power_OFF : string;
  Light_ON : string;
  Light_OFF : string;
  Mode_AUTO_DRIVING : string;
  Mode_SILENT : string;
  Mode_TURBO : string;
  Mode_MY_PET : string;
  FanSpeed_SHUTDOWN : string;
  FanSpeed_WEAK : string;
  FanSpeed_MEDIUM : string;
  FanSpeed_STRONG : string;
  (** [Object.values(FanSpeed)], in declaration order *)
  FanSpeed_values : list string;
  EndpointPath_DEVICES_CONTROL : string;
  EndpointPath_AIR_DEVICES_HOME : string;
  EndpointPath_AIR_DEVICES_FILTER_INFO : string;
  IoCareEndpoint_REFRESH_TOKEN : string;
  IoCareEndpoint_CONTROL_DEVICE : string;
  URL_NEW_IOCARE_API_URL : string;
  URL_NEW_AUTHENTICATE_URL : string
}.

(** hap-nodejs characteristic constants. *)
Module Hap.

Definition AirQuality_UNKNOWN : number := ofZ 0.
Definition AirQuality_EXCELLENT : number := ofZ 1.
Definition AirQuality_GOOD : number := ofZ 2.
Definition AirQuality_FAIR : number := ofZ 3.
Definition AirQuality_INFERIOR : number := ofZ 4.
Definition AirQuality_POOR : number := ofZ 5.

Definition CurrentAirPurifierState_INACTIVE : number := ofZ 0.
Definition CurrentAirPurifierState_IDLE : number := ofZ 1.
Definition CurrentAirPurifierState_PURIFYING_AIR : number := ofZ 2.

Definition Active_INACTIVE : number := ofZ 0.
Definition Active_ACTIVE : number := ofZ 1.

Definition TargetAirPurifierState_MANUAL : number := ofZ 0.
Definition TargetAirPurifierState_AUTO : number := ofZ 1.

Inductive Service : Type :=
| AirPurifier
| AirQualitySensor
| HumiditySensor
| TemperatureSensor
| Lightbulb.

Inductive Characteristic : Type :=
| Active
| CurrentAirPurifierState
| TargetAirPurifierState
| RotationSpeed
| On
| Brightness
| AirQuality
| PM10Density
| PM2_5Density
| VOCDensity
| CurrentRelativeHumidity
| CurrentTemperature.

Inductive CharacteristicValue : Type :=
| CBool (b : bool)
| CNumber (n : number).

(** One [service.setCharacteristic(characteristic, value)]. *)
Record Update : Type := {
  service : Service;
  characteristic : Characteristic;
  newValue : CharacteristicValue
}.

End Hap.

(* ================================================================== *)
(** * coway.ts                                                         *)
(* ================================================================== *)

Module CowayService.

(** [interfaces/device.ts] is not among the sources; these are the two
    fields of a [Device] the service reads. *)
Record Device : Type := {
  barcode : JsValue;
  dvcTypeCd : JsValue
}.

Record AccessToken : Type := {
  accessToken : JsValue;
  refreshToken : JsValue
}.

Record Session : Type := {
  session : string;
  cookies : string
}.

Record PayloadCommand : Type := {
  key : string;
  value : string
}.

(** The two forms [authenticate] posts. *)
Inductive AuthForm : Type :=
| LogInRequest (username password : string)
| PasswordUpdateRequest.

(** What the code reads of an axios response to the login POST. *)
Record AxiosResponse : Type := {
  request_path : string;
  data : string
}.

(** One [wrapPost] of [authenticate]. *)
Record Post : Type := {
  post_url : string;
  post_form : AuthForm;
  post_cookie : string
}.

(** How a negotiation ends: the promise resolves with
    [dicts["code"]], rejects, or is still waiting for a response the
    vendor has not given. *)
Inductive Negotiation : Type :=
| Resolved (code : JsValue)
| Rejected (e : JsError)
| Awaiting.

Inductive HttpMethod : Type := GET | POST.

(** One request of [executeIoCarePayload]. *)
Record Request : Type := {
  urlKey : string;
  httpMethod : HttpMethod;
  url : string;
  trcode : JsValue;
  authorization : option string;
  body : JsValue
}.

(** What a call of the gateway leaves behind. *)
Record Exchange : Type := {
  result : Completion JsValue;
  requests : list Request;
  token : option AccessToken
}.

Section Service.
Context {RT : Runtime} {EN : Enumerations}.

(** ** Session negotiation *)

Definition isLineTerminator (c : ascii) : bool :=
  (code c =? 10) || (code c =? 13).

(** What a run of [.] can cover from the start of [s]. *)
Fixpoint lineRest (s : string) : string :=
  match s with
  | String c r => if isLineTerminator c then "" else String c (lineRest r)
  | EmptyString => ""
  end.

(** The text before the last occurrence of [e] in [s]. *)
Fixpoint beforeLast (e s : string) : option string :=
  match s with
  | EmptyString => if prefix e "" then Some "" else None
  | String c r =>
      match beforeLast e r with
      | Some t => Some (String c t)
      | None => if prefix e s then Some "" else None
      end
  end.

Definition opening : string := "action=" ++ dquote ++ "https://".
Definition closing : string := dquote ++ " ".

(** Group 4 for the rightmost [?session_code=] of [line] that a [closing]
    follows: the first run is greedy. *)
Fixpoint sessionCodeIn (line : string) : option string :=
  match line with
  | EmptyString => None
  | String _ r =>
      match sessionCodeIn r with
      | Some g => Some g
      | None =>
          if prefix "?session_code=" line
          then beforeLast closing (drop 14 line)
          else None
      end
  end.

(** Group 4 of the leftmost match of the pattern in [parseSessionCode]:
    [opening], any run within the line, [?session_code=], any run within the
    line (group 4), [closing]. *)
Fixpoint matchSessionCode (html : string) : option string :=
  match html with
  | EmptyString => None
  | String _ r =>
      let here :=
        if prefix opening html
        then sessionCodeIn (lineRest (drop (String.length opening) html))
        else None in
      match here with
      | Some g => Some g
      | None => matchSessionCode r
      end
  end.

Definition parseSessionCode (response : AxiosResponse) : Completion string :=
  match matchSessionCode (data response) with
  | None => Throw TypeError
  | Some g => Normal (replaceAll "&amp;" "&" g)
  end.

(** The loop over [splits]: [dicts[kv[0]] = kv[1]]. *)
Definition collect (dicts : list (string * JsValue)) (piece : string)
  : list (string * JsValue) :=
  match split "=" piece with
  | k :: v :: _ => (k, JString v) :: dicts
  | k :: [] => (k, JUndefined) :: dicts
  | [] => dicts
  end.

(** The [else] branch: the [code] query parameter of the final redirect. *)
Definition codeOfRedirect (path : string) : Completion JsValue :=
  match split "?" path with
  | _ :: query :: _ =>
      let splits := split "&" query in
      let dicts := fold_left collect splits [] in
      Normal (lookup "code" dicts)
  | _ => Throw TypeError
  end.

(** The POST [authenticate] makes for a form and a session. *)
Definition postOf (request : AuthForm) (session_ : Session) : Post :=
  {| post_url := URL_NEW_AUTHENTICATE_URL ++ "?session_code=" ++ session session_;
     post_form := request;
     post_cookie := cookies session_ |}.

(** [authenticate(request, session)], against the responses the vendor
    gives to the successive POSTs: the POSTs made and how the promise
    ends. *)
Fixpoint authenticate (request : AuthForm) (session_ : Session)
    (responses : list AxiosResponse) : list Post * Negotiation :=
  let post := postOf request session_ in
  match responses with
  | [] => ([post], Awaiting)
  | response :: later =>
      if negb (includes "redirect_bridge.html" (request_path response))
      then
        match parseSessionCode response with
        | Throw e => ([post], Rejected e)
        | Normal fresh =>
            let (posts, outcome) :=
              authenticate PasswordUpdateRequest
                {| session := fresh; cookies := cookies session_ |} later in
            (post :: posts, outcome)
        end
      else
        match codeOfRedirect (request_path response) with
        | Throw e => ([post], Rejected e)
        | Normal c => ([post], Resolved c)
        end
  end.

(** ** The gateway *)

Section Gateway.

(** The vendor: the [data] of its response to a request (of [res] or of
    [error.response]), or [None] when the request fails without one. *)
Variable vendor : Request -> option JsValue.

(** [new Date().getTime()] *)
Variable now : Z.

(** [JSON.parse(Buffer.from(token.split(".")[1], 'base64').toString()).exp] *)
Definition expiryOf (tokenText : JsValue) : Completion JsValue :=
  match tokenText with
  | JString t =>
      match split "." t with
      | _ :: middle :: _ =>
          decoded <- JSON_parse (Buffer_base64 middle) ;;
          getProp decoded "exp"
      | _ => Throw TypeError
      end
  | _ => Throw TypeError
  end.

(** The request built from [const [path, transactionCode] =
    urlKey.split('::')] on: URL, transaction code and bearer (the debug
    logging is left out). *)
Definition requestOf (urlKey_ : string) (httpMethod_ : HttpMethod) (body_ : JsValue)
    (tok : AccessToken) : Request :=
  let parts := split "::" urlKey_ in
  let path := match parts with p :: _ => p | [] => "" end in
  let transactionCode := match parts with _ :: t :: _ => JString t | _ => JUndefined end in
  {| urlKey := urlKey_;
     httpMethod := httpMethod_;
     url := URL_NEW_IOCARE_API_URL ++ path;
     trcode := transactionCode;
     authorization :=
       if truthy (accessToken tok)
       then Some ("Bearer " ++ ToString (accessToken tok))
       else None;
     body := body_ |}.

(** Sending it, failing soft: [res.data], or [error.response.data] when
    the vendor answers with an error; a failure without a response
    throws. *)
Definition send (urlKey_ : string) (httpMethod_ : HttpMethod) (body_ : JsValue)
    (tok : AccessToken) : Completion JsValue * Request :=
  let request := requestOf urlKey_ httpMethod_ body_ tok in
  match vendor request with
  | Some d => (Normal d, request)
  | None => (Throw TypeError, request)
  end.

(** [executeIoCarePayload]; [fuel] bounds the depth of its calls to
    itself, and [None] means the bound was reached. *)
Fixpoint executeIoCarePayload (fuel : nat) (urlKey_ : string) (httpMethod_ : HttpMethod)
    (body_ : JsValue) (accessToken_ : option AccessToken) : option Exchange :=
  match fuel with
  | O => None
  | S fuel' =>
      let tok :=
        match accessToken_ with
        | Some t => t
        | None => {| accessToken := JString ""; refreshToken := JString "" |}
        end in
      let keep (t : AccessToken) : option AccessToken :=
        match accessToken_ with Some _ => Some t | None => None end in
      let finish (sentBefore : list Request) (t : AccessToken) : option Exchange :=
        let (res, request) := send urlKey_ httpMethod_ body_ t in
        Some {| result := res;
                requests := (sentBefore ++ [request])%list;
                token := keep t |} in
      let fail (sentBefore : list Request) (t : AccessToken) (e : JsError) : option Exchange :=
        Some {| result := Throw e; requests := sentBefore; token := keep t |} in
      if truthy (accessToken tok) && negb (urlKey_ =? IoCareEndpoint_REFRESH_TOKEN)%string
      then
        match expiryOf (accessToken tok) with
        | Throw e => fail [] tok e
        | Normal expire =>
            let isExpired := lt (ToNumber expire) (Num (inject_Z now / 1000)) in
            if isExpired
            then
              match executeIoCarePayload fuel' IoCareEndpoint_REFRESH_TOKEN POST
                      (JObject [("refreshToken", refreshToken tok)]) (Some tok) with
              | None => None
              | Some inner =>
                  let tok1 := match token inner with Some t => t | None => tok end in
                  (* .catch(error => error.response) *)
                  let response :=
                    match result inner with
                    | Normal v => v
                    | Throw _ => JUndefined
                    end in
                  match (d <- getProp response "data" ;; getProp d "accessToken") with
                  | Throw e => fail (requests inner) tok1 e
                  | Normal newAccess =>
                      let tok2 := {| accessToken := newAccess;
                                     refreshToken := refreshToken tok1 |} in
                      match (d <- getProp response "data" ;; getProp d "refreshToken") with
                      | Throw e => fail (requests inner) tok2 e
                      | Normal newRefresh =>
                          finish (requests inner)
                            {| accessToken := newAccess; refreshToken := newRefresh |}
                      end
                  end
              end
            else finish [] tok
        end
      else finish [] tok
  end.

(** A request made for the refresh endpoint. *)
Definition isRefreshCall (r : Request) : bool :=
  (urlKey r =? IoCareEndpoint_REFRESH_TOKEN)%string.

Definition executeIoCarePostPayload (fuel : nat) (urlKey_ : string) (body_ : JsValue)
    (accessToken_ : option AccessToken) : option Exchange :=
  executeIoCarePayload fuel urlKey_ POST body_ accessToken_.

Definition executeIoCareGetPayload (fuel : nat) (urlKey_ : string) (body_ : JsValue)
    (accessToken_ : option AccessToken) : option Exchange :=
  executeIoCarePayload fuel urlKey_ GET body_ accessToken_.

(** [executeSetPayloads]: one control call carrying the whole batch; an
    error thrown on the way is caught and gives [error.response], which is
    undefined. *)
Definition executeSetPayloads (fuel : nat) (deviceInfo : Device)
    (inputs : list PayloadCommand) (accessToken_ : option AccessToken) : option Exchange :=
  let functionList :=
    map (fun c => JObject [("funcId", JString (key c)); ("cmdVal", JString (value c))]) inputs in
  match executeIoCarePostPayload fuel IoCareEndpoint_CONTROL_DEVICE
          (JObject [("devId", barcode deviceInfo);
                    ("funcList", JArray functionList);
                    ("dvcTypeCd", dvcTypeCd deviceInfo);
                    ("isMultiControl", JBool false)])
          accessToken_ with
  | None => None
  | Some x =>
      Some {| result := match result x with
                        | Normal v => Normal v
                        | Throw _ => Normal JUndefined
                        end;
              requests := requests x;
              token := token x |}
  end.

(** [getAccessTokens(authenticationCode)]: the pair in the response, the
    requests made on the way. [GET_ACCESS_TOKEN] and [redirectUrl] stand
    for [IoCareEndpoint.GET_ACCESS_TOKEN] and
    [URL.NEW_IOCARE_REDIRECT_URL]. *)
Definition getAccessTokens (fuel : nat) (GET_ACCESS_TOKEN redirectUrl : string)
    (authenticationCode : JsValue) : option (Completion AccessToken * list Request) :=
  match executeIoCarePostPayload fuel GET_ACCESS_TOKEN
          (JObject [("authCode", authenticationCode); ("redirectUrl", JString redirectUrl)])
          None with
  | None => None
  | Some x =>
      (* .catch(error => error.response) *)
      let response := match result x with Normal v => v | Throw _ => JUndefined end in
      Some (d <- getProp response "data" ;;
            a <- getProp d "accessToken" ;;
            r <- getProp d "refreshToken" ;;
            Normal {| accessToken := a; refreshToken := r |},
            requests x)
  end.

End Gateway.

End Service.

End CowayService.

(* ================================================================== *)
(** * accessories/air-purifiers/marvel-air-purifier.ts                 *)
(* ================================================================== *)

Module MarvelAirPurifier.

Import Hap.
Import CowayService.

Section Accessory.
Context {RT : Runtime} {EN : Enumerations}.

(** ** The persisted context *)

Record LightbulbInfo : Type := {
  light_on : bool;
  (** [brightness?: number]; [None] is [undefined] *)
  brightness : option number
}.

Record ControlInfo : Type := {
  on : bool;
  lightbulbInfo : LightbulbInfo;
  airQuality : number;
  mode : JsValue;
  fanSpeed : JsValue
}.

Record IndoorAirQuality : Type := {
  humidity : option number;
  pm25Density : option number;
  pm10Density : option number;
  temperature : option number;
  vocDensity : option number
}.

Record FilterInfo : Type := {
  filterName : JsValue;
  filterCode : JsValue;
  filterPercentage : number
}.

Record MarvelAirPurifierInterface : Type := {
  deviceInfo : Device;
  filterInfos : list FilterInfo;
  indoorAirQuality : IndoorAirQuality;
  controlInfo : ControlInfo
}.

Definition LIGHTBULB_BRIGHTNESS_UNIT : number := Num (100 # 3).
Definition ROTATION_SPEED_UNIT : number := Num (100 # 6).

(** ** Parsing helpers *)

Definition parseNullableInt (str : JsValue) : number :=
  if negb (truthy str) && negb (strictEqString str "0")
  then ofZ 0
  else
    let val := parseInt10 (ToString str) in
    if isNaN val then ofZ 0 else val.

Definition parseNullableFloat (str : JsValue) : number :=
  if negb (truthy str) && negb (strictEqString str "0")
  then ofZ 0
  else
    let val := parseFloat (ToString str) in
    if isNaN val then ofZ 0 else val.

(** [isNotNull] on a [number | undefined] *)
Definition isNotNull (value : option number) : bool :=
  match value with
  | None => false
  | Some n => negb (isNaN n)
  end.

(** ** Vendor payload -> context *)

Definition getControlInfo (controlInfo : JsValue) : ControlInfo :=
  let status := getOpt controlInfo "controlStatus" in
  if negb (truthy status)
  then {| on := false;
          lightbulbInfo := {| light_on := false; brightness := Some (ofZ 0) |};
          airQuality := AirQuality_EXCELLENT;
          mode := JString Mode_AUTO_DRIVING;
          fanSpeed := JString FanSpeed_SHUTDOWN |}
  else {| on := strictEqString (get status Field_POWER) "1";
          lightbulbInfo :=
            {| light_on := strictEqString (get status Field_LIGHT) "0";
               brightness := Some (parseNullableInt (get status Field_LIGHT_BRIGHTNESS)) |};
          airQuality := parseInt (ToString (get status Field_AIR_QUALITY));
          mode := get status Field_MODE;
          fanSpeed := get status Field_FAN_SPEED |}.

Definition getIndoorAirQuality (statusInfo : JsValue) : IndoorAirQuality :=
  let response := getOpt statusInfo "IAQ" in
  if negb (truthy response)
  then {| humidity := Some (ofZ 0);
          pm25Density := Some (ofZ 0);
          pm10Density := Some (ofZ 0);
          temperature := Some (ofZ 0);
          vocDensity := Some (ofZ 0) |}
  else {| humidity := Some (parseNullableFloat (get response "humidity"));
          pm25Density := Some (parseNullableFloat (get response "dustpm25"));
          pm10Density := Some (parseNullableFloat (get response "dustpm10"));
          temperature := Some (parseNullableFloat (get response "temperature"));
          vocDensity := Some (parseNullableFloat (get response "vocs")) |}.

Definition getFilterInfos (filterInfo : JsValue) : Completion (list FilterInfo) :=
  match getOpt filterInfo "filterList" with
  | JArray filters =>
      mapC (fun f =>
              name <- getProp f "filterName" ;;
              code <- getProp f "filterCode" ;;
              per <- getProp f "filterPer" ;;
              Normal {| filterName := name;
                        filterCode := code;
                        filterPercentage := parseNullableInt per |})
           filters
  | _ => Normal []
  end.

(** ** Helpers *)

Definition getPurifierDrivingStrategy (ctx : MarvelAirPurifierInterface) : number :=
  if strictEqString (mode (controlInfo ctx)) Mode_AUTO_DRIVING
  then TargetAirPurifierState_AUTO
  else TargetAirPurifierState_MANUAL.

Definition getCurrentAirPurifierState (ctx : MarvelAirPurifierInterface) : number :=
  if negb (on (controlInfo ctx)) then CurrentAirPurifierState_INACTIVE
  else if strictEqString (mode (controlInfo ctx)) Mode_SILENT then CurrentAirPurifierState_IDLE
  else CurrentAirPurifierState_PURIFYING_AIR.

Definition pm10Level (pm10 : number) : number :=
  if lt pm10 (ofZ 0) then AirQuality_UNKNOWN
  else if le pm10 (ofZ 10) then AirQuality_EXCELLENT
  else if le pm10 (ofZ 30) then AirQuality_GOOD
  else if le pm10 (ofZ 80) then AirQuality_FAIR
  else if le pm10 (ofZ 150) then AirQuality_INFERIOR
  else AirQuality_POOR.

Definition pm25Level (pm25 : number) : number :=
  if lt pm25 (ofZ 0) then AirQuality_UNKNOWN
  else if le pm25 (ofZ 5) then AirQuality_EXCELLENT
  else if le pm25 (ofZ 15) then AirQuality_GOOD
  else if le pm25 (ofZ 35) then AirQuality_FAIR
  else if le pm25 (ofZ 75) then AirQuality_INFERIOR
  else AirQuality_POOR.

Definition getCurrentAirQuality (ctx : MarvelAirPurifierInterface) : number :=
  if negb (on (controlInfo ctx)) then AirQuality_UNKNOWN
  else
    let pm25 := pm25Density (indoorAirQuality ctx) in
    let pm10 := pm10Density (indoorAirQuality ctx) in
    let levels0 : list number := [] in
    let levels1 :=
      match pm10 with
      | Some v => if isNotNull pm10 then (levels0 ++ [pm10Level v])%list else levels0
      | None => levels0
      end in
    let levels2 :=
      match pm25 with
      | Some v => if isNotNull pm25 then (levels1 ++ [pm25Level v])%list else levels1
      | None => levels1
      end in
    match levels2 with
    | [] => AirQuality_UNKNOWN
    | _ => Math_max levels2
    end.

(** [values.indexOf(v)] *)
Fixpoint indexOf (v : JsValue) (values : list string) : Z :=
  match values with
  | [] => -1
  | x :: rest =>
      if strictEqString v x then 0
      else let i := indexOf v rest in
           if i <? 0 then -1 else i + 1
  end.

Definition getRotationSpeed (ctx : MarvelAirPurifierInterface) : number :=
  let fanSpeed := fanSpeed (controlInfo ctx) in
  if strictEqString fanSpeed FanSpeed_SHUTDOWN then ofZ 0
  else ofZ (indexOf fanSpeed FanSpeed_values + 1).

Definition createCommandFromRotationSpeed (rotationSpeed : number) : option PayloadCommand :=
  if eqb rotationSpeed (ofZ 1) then Some {| key := Field_MODE; value := Mode_SILENT |}
  else if eqb rotationSpeed (ofZ 2) then Some {| key := Field_FAN_SPEED; value := FanSpeed_WEAK |}
  else if eqb rotationSpeed (ofZ 3) then Some {| key := Field_FAN_SPEED; value := FanSpeed_MEDIUM |}
  else if eqb rotationSpeed (ofZ 4) then Some {| key := Field_FAN_SPEED; value := FanSpeed_STRONG |}
  else if eqb rotationSpeed (ofZ 5) then Some {| key := Field_MODE; value := Mode_TURBO |}
  else if eqb rotationSpeed (ofZ 6) then Some {| key := Field_MODE; value := Mode_MY_PET |}
  else None.

Definition getLightbulbBrightnessPercentage (ctx : MarvelAirPurifierInterface) : option number :=
  match brightness (lightbulbInfo (controlInfo ctx)) with
  | None => None
  | Some b => Some (mul b LIGHTBULB_BRIGHTNESS_UNIT)
  end.

(** The body of [getRotationSpeedPercentage], on the 1~6 scale. *)
Definition percentageOfRotationSpeed (rotationSpeed : number) : number :=
  mul rotationSpeed ROTATION_SPEED_UNIT.

Definition getRotationSpeedPercentage (ctx : MarvelAirPurifierInterface) : number :=
  percentageOfRotationSpeed (getRotationSpeed ctx).

(** [parseInt((value / ROTATION_SPEED_UNIT).toFixed(0))], the conversion at
    the head of the RotationSpeed SET handler. *)
Definition rotationSpeedOfPercentage (value : number) : number :=
  parseInt (toFixed0 (div value ROTATION_SPEED_UNIT)).

(** [Math.round(value / LIGHTBULB_BRIGHTNESS_UNIT)], the conversion at the
    head of the Brightness SET handler. *)
Definition brightnessOfPercentage (value : number) : number :=
  Math_round (div value LIGHTBULB_BRIGHTNESS_UNIT).

(** ** Updating the context in place *)

Definition with_controlInfo (ctx : MarvelAirPurifierInterface) (c : ControlInfo)
  : MarvelAirPurifierInterface :=
  {| deviceInfo := deviceInfo ctx;
     filterInfos := filterInfos ctx;
     indoorAirQuality := indoorAirQuality ctx;
     controlInfo := c |}.

(** [ctx.controlInfo.on = b] *)
Definition set_on (ctx : MarvelAirPurifierInterface) (b : bool) : MarvelAirPurifierInterface :=
  let c := controlInfo ctx in
  with_controlInfo ctx
    {| on := b; lightbulbInfo := lightbulbInfo c; airQuality := airQuality c;
       mode := mode c; fanSpeed := fanSpeed c |}.

Definition with_lightbulbInfo (ctx : MarvelAirPurifierInterface) (l : LightbulbInfo)
  : MarvelAirPurifierInterface :=
  let c := controlInfo ctx in
  with_controlInfo ctx
    {| on := on c; lightbulbInfo := l; airQuality := airQuality c;
       mode := mode c; fanSpeed := fanSpeed c |}.

(** [ctx.controlInfo.lightbulbInfo.on = b] *)
Definition set_light_on (ctx : MarvelAirPurifierInterface) (b : bool) : MarvelAirPurifierInterface :=
  with_lightbulbInfo ctx
    {| light_on := b; brightness := brightness (lightbulbInfo (controlInfo ctx)) |}.

(** [ctx.controlInfo.lightbulbInfo.brightness = n] *)
Definition set_brightness (ctx : MarvelAirPurifierInterface) (n : number) : MarvelAirPurifierInterface :=
  with_lightbulbInfo ctx
    {| light_on := light_on (lightbulbInfo (controlInfo ctx)); brightness := Some n |}.

(** ** Characteristic SET handlers

    Each handler is the function passed to [wrapSet]. It returns the context
    as it leaves it, the vendor control calls it awaited (one batch of
    commands per call, in order), what it passed to [callback] ([None] for
    [callback(undefined)], [Some m] for [callback(new Error(m))]) and the
    characteristic updates it scheduled with [setTimeout]. *)

Record Outcome : Type := {
  context : MarvelAirPurifierInterface;
  sent : list (list PayloadCommand);
  callback : option string;
  deferred : list Update
}.

Definition done (ctx : MarvelAirPurifierInterface) (calls : list (list PayloadCommand)) : Outcome :=
  {| context := ctx; sent := calls; callback := None; deferred := [] |}.

(** Modelled from the spec: [Accessory.executeSetPayload] (base class, not
    among the sources) issues one vendor control call whose batch is the
    single command [{key, value}]; [Accessory.executeSetPayloads] issues one
    call with the batch it is given. *)
Definition executeSetPayload (k v : string) : list PayloadCommand :=
  [ {| key := k; value := v |} ].

(** Lightbulb / On *)
Definition lightbulbOnSet (ctx : MarvelAirPurifierInterface) (v : JsValue) : Outcome :=
  let enabled := truthy v in
  if Bool.eqb (light_on (lightbulbInfo (controlInfo ctx))) enabled
  then done ctx []
  else if negb (on (controlInfo ctx)) && enabled
  then done ctx [executeSetPayload Field_POWER Power_ON]
  else
    let ctx1 := set_light_on ctx enabled in
    done ctx1 [executeSetPayload Field_LIGHT (if enabled then Light_ON else Light_OFF)].

(** [ctx.controlInfo.lightbulbInfo.brightness === brightness] *)
Definition brightnessIs (ctx : MarvelAirPurifierInterface) (n : number) : bool :=
  match brightness (lightbulbInfo (controlInfo ctx)) with
  | None => false
  | Some b => eqb b n
  end.

(** Lightbulb / Brightness (registered when the brightness is defined) *)
Definition lightbulbBrightnessSet (ctx : MarvelAirPurifierInterface) (v : number) : Outcome :=
  let brightness := brightnessOfPercentage v in
  if brightnessIs ctx brightness
  then done ctx []
  else
    let ctx1 := set_brightness ctx brightness in
    if eqb brightness (ofZ 0)
    then
      let ctx2 := set_light_on ctx1 false in
      done ctx2 [executeSetPayload Field_LIGHT Light_OFF]
    else
      let commands0 : list PayloadCommand := [] in
      let commands1 :=
        if negb (on (controlInfo ctx1))
        then (commands0 ++ [ {| key := Field_POWER; value := Power_ON |} ])%list
        else commands0 in
      let commands2 :=
        (commands1 ++ [ {| key := Field_LIGHT_BRIGHTNESS; value := toFixed0 brightness |} ])%list in
      done ctx1 [commands2].

(** [setOptionalCharacteristic], for a service that has been registered *)
Definition setOptionalCharacteristic (c : Characteristic) (s : Service) (v : option number)
  : list Update :=
  match v with
  | Some n => if isNotNull v
              then [ {| service := s; characteristic := c; newValue := CNumber n |} ]
              else []
  | None => []
  end.

(** AirPurifier / Active *)
Definition activeSet (ctx : MarvelAirPurifierInterface) (v : JsValue) : Outcome :=
  let enabled := truthy v in
  if Bool.eqb enabled (on (controlInfo ctx))
  then done ctx []
  else
    let ctx1 := set_on ctx enabled in
    if negb enabled
    then
      let ctx2 := set_light_on ctx1 false in
      let ctx3 :=
        if isNotNull (brightness (lightbulbInfo (controlInfo ctx2)))
        then set_brightness ctx2 (ofZ 0)
        else ctx2 in
      {| context := ctx3;
         sent := [executeSetPayload Field_POWER Power_OFF];
         callback := None;
         deferred :=
           ({| service := Lightbulb; characteristic := On; newValue := CBool false |}
            :: setOptionalCharacteristic Brightness Lightbulb
                 (getLightbulbBrightnessPercentage ctx3))%list |}
    else
      done ctx1 [executeSetPayload Field_POWER Power_ON].

(** AirPurifier / RotationSpeed; [characteristicRefreshing] is the base
    class's flag. *)
Definition rotationSpeedSet (characteristicRefreshing : bool)
    (ctx : MarvelAirPurifierInterface) (v : number) : Outcome :=
  let oldRotationSpeed := getRotationSpeed ctx in
  let newRotationSpeed := rotationSpeedOfPercentage v in
  if strictEqString (mode (controlInfo ctx)) Mode_AUTO_DRIVING && characteristicRefreshing
  then done ctx []
  else if eqb oldRotationSpeed newRotationSpeed
  then done ctx []
  else
    let commands0 : list PayloadCommand := [] in
    let proceed (commands : list PayloadCommand) : Outcome :=
      match createCommandFromRotationSpeed newRotationSpeed with
      | Some command => done ctx [(commands ++ [command])%list]
      | None => {| context := ctx; sent := [];
                   callback := Some "INVALID ROTATION SPEED"; deferred := [] |}
      end in
    if negb (on (controlInfo ctx))
    then proceed (commands0 ++ [ {| key := Field_POWER; value := Power_ON |} ])%list
    else if eqb newRotationSpeed (ofZ 0)
    then done ctx []
    else proceed commands0.

(** ** Poll results -> context *)

(** The object [zipEndpointResponses] builds: endpoint path -> response. *)
Definition AccessoryResponses : Type := list (string * JsValue).

Record Accessory : Type := {
  platformContext : MarvelAirPurifierInterface;
  isConnected : bool;
  characteristicRefreshing_ : bool
}.

(** The callback [refresh] hands to [refreshCharacteristics] (base class,
    not among the sources; taken to run its callback), with every service
    registered. *)
Definition refreshUpdates (ctx : MarvelAirPurifierInterface) : list Update :=
  ([ {| service := AirPurifier; characteristic := Active;
        newValue := CBool (on (controlInfo ctx)) |};
     {| service := AirPurifier; characteristic := CurrentAirPurifierState;
        newValue := CNumber (getCurrentAirPurifierState ctx) |};
     {| service := AirPurifier; characteristic := TargetAirPurifierState;
        newValue := CNumber (getPurifierDrivingStrategy ctx) |};
     {| service := AirPurifier; characteristic := RotationSpeed;
        newValue := CNumber (getRotationSpeedPercentage ctx) |};
     {| service := Lightbulb; characteristic := On;
        newValue := CBool (on (controlInfo ctx) && light_on (lightbulbInfo (controlInfo ctx))) |} ]
   ++ setOptionalCharacteristic Brightness Lightbulb (getLightbulbBrightnessPercentage ctx)
   ++ [ {| service := AirQualitySensor; characteristic := AirQuality;
           newValue := CNumber (getCurrentAirQuality ctx) |} ]
   ++ setOptionalCharacteristic PM10Density AirQualitySensor (pm10Density (indoorAirQuality ctx))
   ++ setOptionalCharacteristic PM2_5Density AirQualitySensor (pm25Density (indoorAirQuality ctx))
   ++ setOptionalCharacteristic VOCDensity AirQualitySensor (vocDensity (indoorAirQuality ctx))
   ++ setOptionalCharacteristic CurrentRelativeHumidity HumiditySensor
        (humidity (indoorAirQuality ctx))
   ++ setOptionalCharacteristic CurrentTemperature TemperatureSensor
        (temperature (indoorAirQuality ctx)))%list.

Section Refresh.

(** [Accessory.refresh] of the base class is not among the sources; it is
    what sets [isConnected] from the responses. *)
Variable super_refresh : AccessoryResponses -> Accessory -> Accessory.

(** [refresh(responses)]: the accessory afterwards, the characteristic
    updates pushed, and how the call completed. *)
Definition refresh (responses : AccessoryResponses) (this : Accessory)
  : Accessory * list Update * Completion unit :=
  let this1 := super_refresh responses this in
  if negb (isConnected this1)
  then (this1, [], Normal tt)
  else
    let filterInfo := lookup EndpointPath_AIR_DEVICES_FILTER_INFO responses in
    let statusInfo := lookup EndpointPath_AIR_DEVICES_HOME responses in
    let controlInfo_ := lookup EndpointPath_DEVICES_CONTROL responses in
    let ctx := platformContext this1 in
    match getFilterInfos filterInfo with
    | Throw e => (this1, [], Throw e)
    | Normal infos =>
        let ctx1 :=
          {| deviceInfo := deviceInfo ctx;
             filterInfos := infos;
             indoorAirQuality := getIndoorAirQuality statusInfo;
             controlInfo := getControlInfo controlInfo_ |} in
        ({| platformContext := ctx1;
            isConnected := isConnected this1;
            characteristicRefreshing_ := characteristicRefreshing_ this1 |},
         refreshUpdates ctx1,
         Normal tt)
    end.

End Refresh.

(** ** Characteristic GET handlers: the value passed to [callback] *)

(** AirPurifier / Active *)
Definition activeGet (ctx : MarvelAirPurifierInterface) : number :=
  if on (controlInfo ctx) then Active_ACTIVE else Active_INACTIVE.

(** Lightbulb / On *)
Definition lightbulbOnGet (ctx : MarvelAirPurifierInterface) : bool :=
  on (controlInfo ctx) && light_on (lightbulbInfo (controlInfo ctx)).

(** Lightbulb / Brightness *)
Definition lightbulbBrightnessGet (ctx : MarvelAirPurifierInterface) : number :=
  if negb (on (controlInfo ctx)) then ofZ 0
  else
    let brightnessValue :=
      mul (match brightness (lightbulbInfo (controlInfo ctx)) with
           | Some b => b
           | None => ofZ 0
           end) LIGHTBULB_BRIGHTNESS_UNIT in
    brightnessValue.

(** ** Driving mode *)

(** [ctx.controlInfo.mode = m] *)
Definition set_mode (ctx : MarvelAirPurifierInterface) (m : JsValue) : MarvelAirPurifierInterface :=
  let c := controlInfo ctx in
  with_controlInfo ctx
    {| on := on c; lightbulbInfo := lightbulbInfo c; airQuality := airQuality c;
       mode := m; fanSpeed := fanSpeed c |}.

(** [ctx.controlInfo.fanSpeed = f] *)
Definition set_fanSpeed (ctx : MarvelAirPurifierInterface) (f : JsValue) : MarvelAirPurifierInterface :=
  let c := controlInfo ctx in
  with_controlInfo ctx
    {| on := on c; lightbulbInfo := lightbulbInfo c; airQuality := airQuality c;
       mode := mode c; fanSpeed := f |}.

Definition driveAutomatically (ctx : MarvelAirPurifierInterface) : Outcome :=
  let ctx1 := set_mode ctx (JString Mode_AUTO_DRIVING) in
  done ctx1 [executeSetPayload Field_MODE Mode_AUTO_DRIVING].

Definition executeRotationCommand (ctx : MarvelAirPurifierInterface) (command : PayloadCommand)
  : Outcome :=
  let ctx1 :=
    if (key command =? Field_MODE)%string
    then set_mode ctx (JString (value command))
    else if (key command =? Field_FAN_SPEED)%string
    then set_fanSpeed ctx (JString (value command))
    else ctx in
  done ctx1 [[command]].

(** [driveManually]: what it did and the boolean it returns. *)
Definition driveManually (ctx : MarvelAirPurifierInterface) : Outcome * bool :=
  let rotationSpeed := getRotationSpeed ctx in
  match createCommandFromRotationSpeed rotationSpeed with
  | Some command => (executeRotationCommand ctx command, true)
  | None => (done ctx [], false)
  end.

(** AirPurifier / TargetAirPurifierState SET *)
Definition targetAirPurifierStateSet (ctx : MarvelAirPurifierInterface) (v : JsValue) : Outcome :=
  if negb (on (controlInfo ctx)) || strictEqString (fanSpeed (controlInfo ctx)) FanSpeed_SHUTDOWN
  then done ctx []
  else
    let wasAuto := strictEqString (mode (controlInfo ctx)) Mode_AUTO_DRIVING in
    let isAuto :=
      match v with
      | JNumber n => eqb n TargetAirPurifierState_AUTO
      | _ => false
      end in
    if Bool.eqb wasAuto isAuto
    then done ctx []
    else if isAuto
    then driveAutomatically ctx
    else
      let (o, result) := driveManually ctx in
      if negb result
      then {| context := context o; sent := sent o;
              callback := Some "INVALID ROTATION SPEED"; deferred := [] |}
      else o.

(** ** The air-quality service and the object it captures

    [registerAirQualityService] reads [ctx.indoorAirQuality] once, into
    [airQuality], and its density handlers answer from that object. The
    humidity and temperature handlers read [ctx.indoorAirQuality] when they
    are called. [refresh] never writes into an indoor-air-quality object: it
    stores a new one in the context. The store keeps the objects apart:
    [object] gives the object at an address, [next] is the first address
    not yet used, [current] the address the context refers to. *)
Record Store : Type := {
  object : nat -> IndoorAirQuality;
  next : nat;
  current : nat
}.

(** [ctx.indoorAirQuality = value], [value] being a new object *)
Definition assign (s : Store) (value : IndoorAirQuality) : Store :=
  {| object := fun a => if Nat.eqb a (next s) then value else object s a;
     next := S (next s);
     current := next s |}.

(** What [registerAirQualityService] keeps: the address in [airQuality]
    and which of the optional density handlers it installed. *)
Record AirQualityService : Type := {
  airQuality_ : nat;
  hasPM10Density : bool;
  hasPM2_5Density : bool;
  hasVOCDensity : bool
}.

Definition registerAirQualityService (s : Store) : AirQualityService :=
  let airQuality := current s in
  {| airQuality_ := airQuality;
     hasPM10Density := isNotNull (pm10Density (object s airQuality));
     hasPM2_5Density := isNotNull (pm25Density (object s airQuality));
     hasVOCDensity := isNotNull (vocDensity (object s airQuality)) |}.

(** The density GET handlers: [callback(undefined, airQuality.pm10Density)]
    and the like. *)
Definition pm10DensityGet (service : AirQualityService) (s : Store) : option number :=
  pm10Density (object s (airQuality_ service)).

Definition pm25DensityGet (service : AirQualityService) (s : Store) : option number :=
  pm25Density (object s (airQuality_ service)).

Definition vocDensityGet (service : AirQualityService) (s : Store) : option number :=
  vocDensity (object s (airQuality_ service)).

(** The humidity and temperature GET handlers:
    [callback(undefined, ctx.indoorAirQuality.humidity)] and the like. *)
Definition humidityGet (s : Store) : option number :=
  humidity (object s (current s)).

Definition temperatureGet (s : Store) : option number :=
  temperature (object s (current s)).

Section Registered.

Variable super_refresh : AccessoryResponses -> Accessory -> Accessory.

(** What [refresh(responses)] does to the store: the one assignment
    [ctx.indoorAirQuality = this.getIndoorAirQuality(statusInfo)], reached
    when the device is connected and the filter list has been read. *)
Definition refreshStore (responses : AccessoryResponses) (this : Accessory) (s : Store)
  : Store :=
  let this1 := super_refresh responses this in
  if negb (isConnected this1)
  then s
  else
    match getFilterInfos (lookup EndpointPath_AIR_DEVICES_FILTER_INFO responses) with
    | Throw _ => s
    | Normal _ =>
        assign s (getIndoorAirQuality (lookup EndpointPath_AIR_DEVICES_HOME responses))
    end.

(** One poll: the accessory and the store after [refresh(responses)]. *)
Definition poll (state : Accessory * Store) (responses : AccessoryResponses)
  : Accessory * Store :=
  let (this, s) := state in
  (fst (fst (refresh super_refresh responses this)), refreshStore responses this s).

End Registered.

End Accessory.

End MarvelAirPurifier.

(* ================================================================== *)
(** * The platform's poll cycle                                        *)
(* ================================================================== *)

Module CowayPlatform.

(** What the poll cycle uses of an accessory: [getEndpoints()]. *)
Record Accessory : Type := {
  displayName : string;
  getEndpoints : list string
}.

Definition AccessoryResponses : Type := list (string * JsValue).

(** Modelled from the spec: [Accessory.zipEndpointResponses] (base class,
    not among the sources) zips by position, not by key: the i-th response
    of the chunk is stored under the i-th declared endpoint. *)
Fixpoint zipEndpointResponses (endpoints : list string) (responses : list JsValue)
  : AccessoryResponses :=
  match endpoints with
  | [] => []
  | e :: es => (e, hd JUndefined responses) :: zipEndpointResponses es (tl responses)
  end.

(** [responses.splice(0, n)]: what it returns and what it leaves. *)
Definition splice0 (n : nat) (responses : list JsValue) : list JsValue * list JsValue :=
  (firstn n responses, skipn n responses).

(** The position, in issue order, of the first response that belongs to
    the [k]-th accessory: the number of endpoints declared before it. *)
Definition offsetOf (accessories : list Accessory) (k : nat) : nat :=
  list_sum (map (fun a => length (getEndpoints a)) (firstn k accessories)).

Section Poll.

(** What [accessory.retrieveDeviceState(endpoint)] resolves to. *)
Variable retrieveDeviceState : Accessory -> string -> JsValue.

(** How [accessory.refresh(zipped)] completes. *)
Variable refresh : Accessory -> AccessoryResponses -> Completion unit.

(** The first loop: one promise per accessory and endpoint, in issue
    order. *)
Definition queues (accessories : list Accessory) : list (Accessory * string) :=
  flat_map (fun accessory => map (pair accessory) (getEndpoints accessory)) accessories.

(** [await Promise.all(queues)]: the resolved values, in the order of
    [queues] whatever the order of resolution. *)
Definition awaitAll (qs : list (Accessory * string)) : list JsValue :=
  map (fun q => retrieveDeviceState (fst q) (snd q)) qs.

(** The second loop: the calls [accessory.refresh(...)] it makes, with
    their argument; a refresh that throws ends the cycle (the error is
    caught and logged). *)
Fixpoint refreshLoop (accessories : list Accessory) (responses : list JsValue)
  : list (Accessory * AccessoryResponses) :=
  match accessories with
  | [] => []
  | accessory :: rest =>
      let (chunk, remaining) := splice0 (length (getEndpoints accessory)) responses in
      let zipped := zipEndpointResponses (getEndpoints accessory) chunk in
      match refresh accessory zipped with
      | Normal _ => (accessory, zipped) :: refreshLoop rest remaining
      | Throw _ => [(accessory, zipped)]
      end
  end.

Definition refreshDevicesParallel (accessories : list Accessory)
  : list (Accessory * AccessoryResponses) :=
  refreshLoop accessories (awaitAll (queues accessories)).

End Poll.

(** ** Configuration *)

(** [parseCowayConfig(config)]: the config as its own enumerable keys and
    their values; [None] is [undefined]. *)
Fixpoint allConfigured (entries : list (string * JsValue)) : bool :=
  match entries with
  | [] => true
  | (_, value) :: rest =>
      if negb (truthy value) then false else allConfigured rest
  end.

Definition parseCowayConfig (config : list (string * JsValue))
  : option (list (string * JsValue)) :=
  if allConfigured config then Some config else None.

(** ** Connectivity *)

(** What [checkAndRefreshDevicesOnline] reads and writes of a device. *)
Record Device : Type := {
  barcode : JsValue;
  netStatus : JsValue
}.

(** [a === b], for values that come from two different responses (two
    objects or arrays are then never the same one). *)
Definition strictEquals (a b : JsValue) : bool :=
  match a, b with
  | JUndefined, JUndefined => true
  | JNull, JNull => true
  | JBool x, JBool y => Bool.eqb x y
  | JNumber x, JNumber y => Js.eqb x y
  | JString x, JString y => (x =? y)%string
  | _, _ => false
  end.

(** [devices.filter(e => e.barcode === devId).forEach(e => e.netStatus =
    status)] *)
Definition markDevices (devId status : JsValue) (devices : list Device) : list Device :=
  map (fun e => if strictEquals (barcode e) devId
                then {| barcode := barcode e; netStatus := status |}
                else e) devices.

(** The loop [for (const info of response.data)]: the devices when it
    ends, normally or by a TypeError on an element that is null or
    undefined (which the surrounding [catch] logs). *)
Fixpoint mergeInfos (infos : list JsValue) (devices : list Device) : list Device :=
  match infos with
  | [] => devices
  | info :: rest =>
      match info with
      | JUndefined | JNull => devices
      | _ => mergeInfos rest (markDevices (get info "devId") (get info "netStatus") devices)
      end
  end.

Fixpoint characters (s : string) : list JsValue :=
  match s with
  | EmptyString => []
  | String c r => JString (String c EmptyString) :: characters r
  end.

(** [checkAndRefreshDevicesOnline(devices)] from the response of the
    GET_DEVICE_CONNECTIONS call on: nothing happens without [data], an
    array is walked through, a string is walked through character by
    character, anything else is not iterable (a TypeError, caught). *)
Definition mergeConnections (response : JsValue) (devices : list Device) : list Device :=
  let data := getOpt response "data" in
  if negb (truthy data) then devices
  else
    match data with
    | JArray infos => mergeInfos infos devices
    | JString s => mergeInfos (characters s) devices
    | _ => devices
    end.

(** ** Removing the accessories that were never configured *)

(** An accessory object of [this.accessories]: its identity and
    [platformAccessory.context.configured]. *)
Record Entry : Type := {
  identity : nat;
  configured : bool
}.

(** [accessories.indexOf(accessory)] *)
Fixpoint indexOfEntry (accessory : Entry) (accessories : list Entry) : Z :=
  match accessories with
  | [] => -1
  | x :: rest =>
      if Nat.eqb (identity x) (identity accessory) then 0
      else let i := indexOfEntry accessory rest in
           if i <? 0 then -1 else i + 1
  end.

(** [accessories.splice(start, 1)]: what is left. A negative [start]
    counts from the end. *)
Definition spliceOne (start : Z) (accessories : list Entry) : list Entry :=
  let len := Z.of_nat (length accessories) in
  let from := if start <? 0 then Z.max (len + start) 0 else Z.min start len in
  (firstn (Z.to_nat from) accessories ++ skipn (S (Z.to_nat from)) accessories)%list.

(** The end of [configureCowayDevices]: the accessories kept and the ones
    handed to [unregisterPlatformAccessories]. *)
Definition removeUnconfigured (accessories : list Entry) : list Entry * list Entry :=
  let accessoriesToRemove := filter (fun a => negb (configured a)) accessories in
  (fold_left (fun acc accessory => spliceOne (indexOfEntry accessory acc) acc)
     accessoriesToRemove accessories,
   accessoriesToRemove).

End CowayPlatform.

(* ================================================================== *)
(** * Fixtures for the examples                                        *)
(* ================================================================== *)

Module Fixture.

Import CowayService.

(** The sextet a base64 (or base64url) code unit stands for. *)
Definition sextet (c : ascii) : option Z :=
  let n := code c in
  if (65 <=? n) && (n <=? 90) then Some (n - 65)
  else if (97 <=? n) && (n <=? 122) then Some (n - 71)
  else if (48 <=? n) && (n <=? 57) then Some (n + 4)
  else if (n =? 43) || (n =? 45) then Some 62
  else if (n =? 47) || (n =? 95) then Some 63
  else None.

Fixpoint sextets (s : string) : list Z :=
  match s with
  | EmptyString => []
  | String c r =>
      match sextet c with
      | Some v => v :: sextets r
      | None => []
      end
  end.

Definition byte (z : Z) : string :=
  String (ascii_of_N (Z.to_N (z mod 256))) EmptyString.

Fixpoint bytesOf (fuel : nat) (vs : list Z) : string :=
  match fuel with
  | O => ""
  | S fuel' =>
      match vs with
      | a :: b :: c :: d :: rest =>
          byte (a * 4 + b / 16) ++ byte (b * 16 + c / 4) ++ byte (c * 64 + d)
          ++ bytesOf fuel' rest
      | [a; b; c] => byte (a * 4 + b / 16) ++ byte (b * 16 + c / 4)
      | [a; b] => byte (a * 4 + b / 16)
      | _ => ""
      end
  end.

Definition base64 (s : string) : string :=
  let vs := sextets s in bytesOf (length vs) vs.

(** A reader for the one shape of JWT payload the examples use: an object
    with the single member [exp], a non-negative integer. *)
Definition parseExpObject (text : string) : Completion JsValue :=
  let head := "{" ++ dquote ++ "exp" ++ dquote ++ ":" in
  if prefix head text
  then
    match takeDigits (drop (String.length head) text) with
    | (d :: ds, "}") => Normal (JObject [("exp", JNumber (ofZ (digitsValue (d :: ds))))])
    | _ => Throw SyntaxError
    end
  else Throw SyntaxError.

(** Exact on integers and on decimal digit strings, which is all the
    examples feed it. *)
#[export] Instance runtime : Runtime := {
  Number_toString n :=
    match n with
    | NaN => "NaN"
    | Infinity false => "Infinity"
    | Infinity true => "-Infinity"
    | Num q => string_of_Z (Qfloor q)
    end;
  StringToNumber s :=
    match takeDigits s with
    | (d :: ds, "") => ofZ (digitsValue (d :: ds))
    | _ => if (s =? "")%string then ofZ 0 else NaN
    end;
  Buffer_base64 := base64;
  JSON_parse := parseExpObject
}.

(** Wire values for the examples. *)
#[export] Instance enumerations : Enumerations := {
  Field_POWER := "0001";
  Field_MODE := "0002";
  Field_FAN_SPEED := "0003";
  Field_LIGHT := "0007";
  Field_LIGHT_BRIGHTNESS := "0008";
  Field_AIR_QUALITY := "0009";
  Power_ON := "1";
  Power_OFF := "0";
  Light_ON := "0";
  Light_OFF := "3";
  Mode_AUTO_DRIVING := "1";
  Mode_SILENT := "2";
  Mode_TURBO := "5";
  Mode_MY_PET := "6";
  FanSpeed_SHUTDOWN := "0";
  FanSpeed_WEAK := "1";
  FanSpeed_MEDIUM := "2";
  FanSpeed_STRONG := "3";
  FanSpeed_values := ["0"; "1"; "2"; "3"];
  EndpointPath_DEVICES_CONTROL := "/com/devices/control";
  EndpointPath_AIR_DEVICES_HOME := "/air/devices/home";
  EndpointPath_AIR_DEVICES_FILTER_INFO := "/air/devices/filter-info";
  IoCareEndpoint_REFRESH_TOKEN := "/com/refresh-token::CWIL0101";
  IoCareEndpoint_CONTROL_DEVICE := "/com/control-device::CWIG0603";
  URL_NEW_IOCARE_API_URL := "https://iocareapi.example/api/v1";
  URL_NEW_AUTHENTICATE_URL := "https://id.example/auth/authenticate"
}.

(** The vendor's "change your password" page, carrying a fresh session
    code, and the final redirect carrying the authorization code. *)
Definition forcePasswordChange (sessionCode : string) : AxiosResponse :=
  {| request_path := "/auth/realms/cw-account/login-actions/authenticate";
     data := "<form id=kc-form " ++ opening ++ "id.example/auth/authenticate?session_code="
             ++ sessionCode ++ closing ++ "method=post>" |}.

Definition terminalRedirect (authorizationCode : string) : AxiosResponse :=
  {| request_path := "/redirect_bridge.html?code=" ++ authorizationCode ++ "&state=x";
     data := "" |}.

Definition session0 : Session := {| session := "S0"; cookies := "KC=1" |}.

(** A purifier that is switched off, in manual (silent) mode, its light
    off; the same in auto-driving mode; and one whose last reported fan
    speed is [WEAK]. *)
Definition device : Device :=
  {| barcode := JString "15902EUZ2282500520"; dvcTypeCd := JString "004" |}.

Definition readings : MarvelAirPurifier.IndoorAirQuality :=
  {| MarvelAirPurifier.humidity := Some (ofZ 40);
     MarvelAirPurifier.pm25Density := Some (ofZ 7);
     MarvelAirPurifier.pm10Density := Some (ofZ 12);
     MarvelAirPurifier.temperature := Some (ofZ 21);
     MarvelAirPurifier.vocDensity := Some (ofZ 0) |}.

Definition contextWith (power : bool) (mode_ fanSpeed_ : string)
  : MarvelAirPurifier.MarvelAirPurifierInterface :=
  {| MarvelAirPurifier.deviceInfo := device;
     MarvelAirPurifier.filterInfos := [];
     MarvelAirPurifier.indoorAirQuality := readings;
     MarvelAirPurifier.controlInfo :=
       {| MarvelAirPurifier.on := power;
          MarvelAirPurifier.lightbulbInfo :=
            {| MarvelAirPurifier.light_on := false;
               MarvelAirPurifier.brightness := Some (ofZ 0) |};
          MarvelAirPurifier.airQuality := ofZ 1;
          MarvelAirPurifier.mode := JString mode_;
          MarvelAirPurifier.fanSpeed := JString fanSpeed_ |} |}.

Definition offManual := contextWith false Mode_SILENT FanSpeed_SHUTDOWN.
Definition offAuto := contextWith false Mode_AUTO_DRIVING FanSpeed_SHUTDOWN.
Definition offWeak := contextWith false Mode_SILENT FanSpeed_WEAK.
Definition onManual := contextWith true Mode_SILENT FanSpeed_MEDIUM.
Definition onAuto := contextWith true Mode_AUTO_DRIVING FanSpeed_WEAK.

(** A base-class refresh for the examples: the device is connected when
    the control response says so, and nothing else changes. *)
Definition connectivityFromControl (responses : MarvelAirPurifier.AccessoryResponses)
    (this : MarvelAirPurifier.Accessory) : MarvelAirPurifier.Accessory :=
  {| MarvelAirPurifier.platformContext := MarvelAirPurifier.platformContext this;
     MarvelAirPurifier.isConnected :=
       truthy (get (lookup EndpointPath_DEVICES_CONTROL responses) "netStatus");
     MarvelAirPurifier.characteristicRefreshing_ :=
       MarvelAirPurifier.characteristicRefreshing_ this |}.

Definition accessory : MarvelAirPurifier.Accessory :=
  {| MarvelAirPurifier.platformContext := onManual;
     MarvelAirPurifier.isConnected := true;
     MarvelAirPurifier.characteristicRefreshing_ := false |}.

(** A poll result: the device is powered, its light on at brightness 2,
    with one filter at 80%. *)
Definition pollResult (netStatus : bool) : MarvelAirPurifier.AccessoryResponses :=
  [ (EndpointPath_DEVICES_CONTROL,
     JObject [("netStatus", JBool netStatus);
              ("controlStatus",
               JObject [(Field_POWER, JString "1"); (Field_LIGHT, JString "0");
                        (Field_LIGHT_BRIGHTNESS, JString "2");
                        (Field_AIR_QUALITY, JString "1");
                        (Field_MODE, JString Mode_TURBO);
                        (Field_FAN_SPEED, JString FanSpeed_STRONG)])]);
    (EndpointPath_AIR_DEVICES_HOME,
     JObject [("IAQ", JObject [("dustpm10", JString "95"); ("dustpm25", JString "")])]);
    (EndpointPath_AIR_DEVICES_FILTER_INFO,
     JObject [("filterList",
               JArray [JObject [("filterName", JString "Max2"); ("filterCode", JString "3111735");
                                ("filterPer", JString "80")]])]) ].

(** The same poll result with a filter list whose second entry is null,
    and one whose control response carries no status. *)
Definition pollWithNullFilter : MarvelAirPurifier.AccessoryResponses :=
  [ (EndpointPath_DEVICES_CONTROL, lookup EndpointPath_DEVICES_CONTROL (pollResult true));
    (EndpointPath_AIR_DEVICES_HOME, lookup EndpointPath_AIR_DEVICES_HOME (pollResult true));
    (EndpointPath_AIR_DEVICES_FILTER_INFO,
     JObject [("filterList",
               JArray [JObject [("filterName", JString "Max2"); ("filterPer", JString "80")];
                       JNull])]) ].

Definition controlWithoutStatus : JsValue := JObject [("netStatus", JBool true)].

(** The store when the services of [accessory] are registered: one
    indoor-air-quality object, the one its context refers to. *)
Definition storeAtRegistration : MarvelAirPurifier.Store :=
  {| MarvelAirPurifier.object := fun _ => readings;
     MarvelAirPurifier.next := 1;
     MarvelAirPurifier.current := 0 |}.

(** Accessory A declares two endpoints, accessory B one. *)
Definition accessoryA : CowayPlatform.Accessory :=
  {| CowayPlatform.displayName := "A";
     CowayPlatform.getEndpoints := [EndpointPath_DEVICES_CONTROL; EndpointPath_AIR_DEVICES_HOME] |}.

Definition accessoryB : CowayPlatform.Accessory :=
  {| CowayPlatform.displayName := "B";
     CowayPlatform.getEndpoints := [EndpointPath_DEVICES_CONTROL] |}.

Definition refreshes (_ : CowayPlatform.Accessory) (_ : CowayPlatform.AccessoryResponses)
  : Completion unit := Normal tt.

(** A token whose middle segment is the base64 of an object with
    [exp = 1700000000]. *)
Definition jwt : string := "eyJhbGciOiJIUzI1NiJ9.eyJleHAiOjE3MDAwMDAwMDB9.c2ln".

Definition tokens : AccessToken :=
  {| accessToken := JString jwt; refreshToken := JString "refresh-1" |}.

(** A vendor that answers the refresh call with a new pair and any other
    call with an empty result. *)
Definition vendor (r : Request) : option JsValue :=
  if isRefreshCall r
  then Some (JObject [("data", JObject [("accessToken", JString "access-2");
                                        ("refreshToken", JString "refresh-2")])])
  else Some (JObject [("data", JObject [])]).

(** A configuration with one option switched off, and two devices of which
    the vendor reports one. *)
Definition configWithFalse : list (string * JsValue) :=
  [ ("platform", JString "Coway"); ("username", JString "user");
    ("password", JString "secret"); ("debug", JBool false) ].

Definition twoDevices : list CowayPlatform.Device :=
  [ {| CowayPlatform.barcode := JString "A1"; CowayPlatform.netStatus := JUndefined |};
    {| CowayPlatform.barcode := JString "B2"; CowayPlatform.netStatus := JUndefined |} ].

Definition connections : JsValue :=
  JObject [("data", JArray [JObject [("devId", JString "B2"); ("netStatus", JBool true)]])].

(** Three accessories of which the second was never configured. *)
Definition registered : list CowayPlatform.Entry :=
  [ {| CowayPlatform.identity := 1; CowayPlatform.configured := true |};
    {| CowayPlatform.identity := 2; CowayPlatform.configured := false |};
    {| CowayPlatform.identity := 3; CowayPlatform.configured := true |} ].

End Fixture.

(* ================================================================== *)
(** * The specification's own words, for comparison                    *)
(* ================================================================== *)

Module Reference.

(** The five-level ordinal and "unknown", with HomeKit's numbering. *)
Inductive AirQualityClass : Type :=
| Unknown
| Excellent
| Good
| Fair
| Inferior
| Poor.

Definition ordinal (c : AirQualityClass) : Z :=
  match c with
  | Unknown => 0
  | Excellent => 1
  | Good => 2
  | Fair => 3
  | Inferior => 4
  | Poor => 5
  end.

(** A reading against four breakpoints; a negative reading is unknown. *)
Definition classify (b1 b2 b3 b4 : Q) (reading : Q) : AirQualityClass :=
  if Qlt_le_dec reading 0 then Unknown
  else if Qlt_le_dec b1 reading
  then if Qlt_le_dec b2 reading
       then if Qlt_le_dec b3 reading
            then if Qlt_le_dec b4 reading then Poor else Inferior
            else Fair
       else Good
  else Excellent.

Definition classifyPM10 : Q -> AirQualityClass := classify 10 30 80 150.
Definition classifyPM25 : Q -> AirQualityClass := classify 5 15 35 75.

(** The worse (higher ordinal) of two classifications. *)
Definition worse (a b : AirQualityClass) : AirQualityClass :=
  if ordinal a <? ordinal b then b else a.

(** The overall air quality: unknown when the device is off or no reading
    is available, else the worse of the available classifications. *)
Definition airQuality (deviceOn : bool) (pm10 pm25 : option Q) : AirQualityClass :=
  if negb deviceOn then Unknown
  else
    match pm10, pm25 with
    | None, None => Unknown
    | Some x, None => classifyPM10 x
    | None, Some y => classifyPM25 y
    | Some x, Some y => worse (classifyPM10 x) (classifyPM25 y)
    end.





(** The quantization of the fan percentage as the specification states
    it, over exact rationals. *)
Definition level (p : Q) : Z := Qfloor (p / (100 # 6) + (1 # 2)).
Definition percentage (l : Z) : Q := inject_Z l * (100 # 6).

End Reference.

(* ================================================================== *)
(** * Definitions used in the statements and proofs below              *)
(* ================================================================== *)

Module Auxiliary.

(** The digits of a decimal numeral, most significant first. *)
Fixpoint digitsOf (d : Decimal.uint) : list Z :=
  match d with
  | Decimal.Nil => []
  | Decimal.D0 r => 0 :: digitsOf r
  | Decimal.D1 r => 1 :: digitsOf r
  | Decimal.D2 r => 2 :: digitsOf r
  | Decimal.D3 r => 3 :: digitsOf r
  | Decimal.D4 r => 4 :: digitsOf r
  | Decimal.D5 r => 5 :: digitsOf r
  | Decimal.D6 r => 6 :: digitsOf r
  | Decimal.D7 r => 7 :: digitsOf r
  | Decimal.D8 r => 8 :: digitsOf r
  | Decimal.D9 r => 9 :: digitsOf r
  end.

(** No occurrence of the code unit [c] in [s]. *)
Fixpoint free (c : ascii) (s : string) : bool :=
  match s with
  | EmptyString => true
  | String x r => negb (x =? c)%char && free c r
  end.

(** The six values of HomeKit's AirQuality characteristic. *)
Definition isAirQualityValue (n : number) : Prop :=
  n = Hap.AirQuality_UNKNOWN \/ n = Hap.AirQuality_EXCELLENT \/ n = Hap.AirQuality_GOOD \/
  n = Hap.AirQuality_FAIR \/ n = Hap.AirQuality_INFERIOR \/ n = Hap.AirQuality_POOR.

(** An element the code cannot index: null or undefined. *)
Definition isNullish (v : JsValue) : bool :=
  match v with
  | JUndefined | JNull => true
  | _ => false
  end.

(** Free of the three separators of a redirect's query. *)
Definition plain (s : string) : bool :=
  free "?" s && free "&" s && free "=" s.

(** [k1=v1&k2=v2&...] *)
Fixpoint queryString (pairs : list (string * string)) : string :=
  match pairs with
  | [] => ""
  | (k, v) :: rest =>
      match rest with
      | [] => k ++ "=" ++ v
      | _ :: _ => k ++ "=" ++ v ++ "&" ++ queryString rest
      end
  end.

(** The value of the last pair whose key is [k]; undefined without one. *)
Fixpoint lastValue (k : string) (pairs : list (string * string)) : JsValue :=
  match pairs with
  | [] => JUndefined
  | (k', v) :: rest =>
      match lastValue k rest with
      | JUndefined => if (k' =? k)%string then JString v else JUndefined
      | found => found
      end
  end.

(** No line terminator in [s]. *)
Fixpoint oneLine (s : string) : bool :=
  match s with
  | EmptyString => true
  | String c r => negb (CowayService.isLineTerminator c) && oneLine r
  end.

(** Whether [needle] occurs in [before ++ after] at a position within
    [before]. *)
Fixpoint startsWithin (needle before after : string) : bool :=
  match before with
  | EmptyString => false
  | String _ r => prefix needle (before ++ after) || startsWithin needle r after
  end.

(** What the connection infos may do to a device: its barcode stays, and
    its status stays or becomes the status of an info whose [devId] is that
    barcode. *)
Definition updatedBy (infos : list JsValue) (before after : CowayPlatform.Device) : Prop :=
  CowayPlatform.barcode after = CowayPlatform.barcode before /\
  (CowayPlatform.netStatus after = CowayPlatform.netStatus before \/
   exists info,
     In info infos /\
     CowayPlatform.strictEquals (CowayPlatform.barcode before) (get info "devId") = true /\
     CowayPlatform.netStatus after = get info "netStatus").

(** The elements [for ... of] walks through: those of an array, the
    characters of a string. *)
Definition elementsOf (data : JsValue) : list JsValue :=
  match data with
  | JArray infos => infos
  | JString s => CowayPlatform.characters s
  | _ => []
  end.

End Auxiliary.

(* ================================================================== *)
(** * Properties                                                       *)
(* ================================================================== *)

Import CowayService MarvelAirPurifier Hap.

(** ** Text helpers *)

Lemma prefix_split (p s : string) :
  prefix p s = true -> exists r, s = p ++ r.
Proof.
  revert s. induction p as [|a p IH]; intros s H.
  - exists s. reflexivity.
  - destruct s as [|b s]; simpl in H; [discriminate|].
    destruct (ascii_dec a b) as [->|]; [|discriminate].
    destruct (IH s H) as [r ->]. exists r. reflexivity.
Qed.






Lemma parseInt10_integer (s : string) :
  parseInt10 s = NaN \/ exists z, parseInt10 s = ofZ z.
Proof.
  unfold parseInt10, numberOfDigits.
  destruct (takeSign (trimStart s)) as [sign body].
  destruct (takeDigits body) as [[|d ds] rest]; [left|right; eexists]; reflexivity.
Qed.


(** ** Numeric fields of the vendor payload *)

Section Parsers.
Context {RT : Runtime} {EN : Enumerations}.

Lemma parseNullableInt_integer (v : JsValue) :
  exists z, parseNullableInt v = ofZ z.
Proof.
  unfold parseNullableInt.
  destruct (negb (truthy v) && negb (strictEqString v "0")); [exists 0; reflexivity|].
  destruct (parseInt10_integer (ToString v)) as [-> | [z ->]]; [exists 0|exists z]; reflexivity.
Qed.

Lemma parseNullableFloat_number (v : JsValue) :
  parseNullableFloat v <> NaN.
Proof.
  unfold parseNullableFloat.
  destruct (negb (truthy v) && negb (strictEqString v "0")); [discriminate|].
  destruct (parseFloat (ToString v)); simpl; discriminate.
Qed.





End Parsers.



(** Text that starts with a number parses to that number; what follows
    the number is ignored. *)
Example numeric_prefix_is_kept :
  parseNullableInt (RT := Fixture.runtime) (JString "12abc") = ofZ 12 /\
  parseNullableInt (RT := Fixture.runtime) (JString " -7") = ofZ (-7) /\
  parseNullableFloat (RT := Fixture.runtime) (JString "3.5e1x") = ofZ 35 /\
  parseNullableFloat (RT := Fixture.runtime) (JString "0") = ofZ 0 /\
  parseNullableFloat (RT := Fixture.runtime) (JString "-.") = ofZ 0.
Proof. repeat split; reflexivity. Qed.

(** ** Air quality *)

Lemma Qle_bool_true (x y : Q) : (x <= y)%Q -> Qle_bool x y = true.
Proof. apply Qle_bool_iff. Qed.

Lemma Qle_bool_false (x y : Q) : (y < x)%Q -> Qle_bool x y = false.
Proof.
  intros H. destruct (Qle_bool x y) eqn:E; [|reflexivity].
  apply Qle_bool_iff in E. exfalso. exact (Qlt_not_le _ _ H E).
Qed.

Lemma level_classify (b1 b2 b3 b4 : Z) (q : Q) :
  (if lt (Num q) (ofZ 0) then AirQuality_UNKNOWN
   else if le (Num q) (ofZ b1) then AirQuality_EXCELLENT
   else if le (Num q) (ofZ b2) then AirQuality_GOOD
   else if le (Num q) (ofZ b3) then AirQuality_FAIR
   else if le (Num q) (ofZ b4) then AirQuality_INFERIOR
   else AirQuality_POOR)
  = ofZ (Reference.ordinal
           (Reference.classify (inject_Z b1) (inject_Z b2) (inject_Z b3) (inject_Z b4) q)).
Proof.
  unfold Reference.classify, lt, le, ofZ.
  destruct (Qlt_le_dec q 0) as [Hneg|Hpos].
  - rewrite (Qle_bool_false (inject_Z 0) q Hneg). reflexivity.
  - rewrite (Qle_bool_true (inject_Z 0) q Hpos). simpl negb. cbv iota.
    repeat match goal with
           | |- context [Qlt_le_dec ?a q] =>
               let h := fresh "h" in
               destruct (Qlt_le_dec a q) as [h|h];
               [rewrite (Qle_bool_false _ _ h)|rewrite (Qle_bool_true _ _ h)]; clear h
           end; reflexivity.
Qed.

Lemma pm10Level_classify (q : Q) :
  pm10Level (Num q) = ofZ (Reference.ordinal (Reference.classifyPM10 q)).
Proof. exact (level_classify 10 30 80 150 q). Qed.

Lemma pm25Level_classify (q : Q) :
  pm25Level (Num q) = ofZ (Reference.ordinal (Reference.classifyPM25 q)).
Proof. exact (level_classify 5 15 35 75 q). Qed.

Lemma Math_max_pair (a b : Reference.AirQualityClass) :
  Math_max [ofZ (Reference.ordinal a); ofZ (Reference.ordinal b)]
  = ofZ (Reference.ordinal (Reference.worse a b)).
Proof. destruct a, b; reflexivity. Qed.

Lemma Math_max_single (a : Reference.AirQualityClass) :
  Math_max [ofZ (Reference.ordinal a)] = ofZ (Reference.ordinal a).
Proof. destruct a; reflexivity. Qed.

(** C4. The reported air quality is the reference classifier's: each
    density is classified on its own breakpoints, a negative reading is
    unknown, the overall value is the worse of the classifications
    available, and it is unknown when the device is off or no reading is
    available; so PM10 = -1 with no PM2.5 reading on a running device is
    unknown. *)
Theorem air_quality_is_reference_classifier :
  (forall ctx pm10 pm25,
      pm10Density (indoorAirQuality ctx) = option_map Num pm10 ->
      pm25Density (indoorAirQuality ctx) = option_map Num pm25 ->
      getCurrentAirQuality ctx
      = ofZ (Reference.ordinal (Reference.airQuality (on (controlInfo ctx)) pm10 pm25))) /\
  (forall ctx,
      on (controlInfo ctx) = true ->
      pm10Density (indoorAirQuality ctx) = Some (Num (-1)) ->
      pm25Density (indoorAirQuality ctx) = None ->
      getCurrentAirQuality ctx = AirQuality_UNKNOWN) /\
  (forall ctx, on (controlInfo ctx) = false -> getCurrentAirQuality ctx = AirQuality_UNKNOWN).
Proof.
  assert (main : forall ctx pm10 pm25,
      pm10Density (indoorAirQuality ctx) = option_map Num pm10 ->
      pm25Density (indoorAirQuality ctx) = option_map Num pm25 ->
      getCurrentAirQuality ctx
      = ofZ (Reference.ordinal (Reference.airQuality (on (controlInfo ctx)) pm10 pm25))).
  { intros ctx pm10 pm25 H10 H25.
    unfold getCurrentAirQuality, Reference.airQuality.
    destruct (on (controlInfo ctx)); [|reflexivity].
    rewrite H10, H25.
    destruct pm10 as [x|], pm25 as [y|]; simpl;
      rewrite ?pm10Level_classify, ?pm25Level_classify.
    - apply Math_max_pair.
    - apply Math_max_single.
    - apply Math_max_single.
    - reflexivity. }
  split; [exact main|split].
  - intros ctx Hon H10 H25.
    rewrite (main ctx (Some (-1)%Q) None H10 H25), Hon. reflexivity.
  - intros ctx Hoff. unfold getCurrentAirQuality. rewrite Hoff. reflexivity.
Qed.

(** PM10 = 5 and PM2.5 = 40 on a running device: the worse of excellent
    and inferior. *)
Lemma air_quality_is_reference_classifier_witness :
  getCurrentAirQuality
    {| deviceInfo := Fixture.device;
       filterInfos := [];
       indoorAirQuality :=
         {| humidity := None; pm25Density := Some (Num 40); pm10Density := Some (Num 5);
            temperature := None; vocDensity := None |};
       controlInfo := controlInfo Fixture.onManual |}
  = AirQuality_INFERIOR.
Proof.
  match goal with
  | |- getCurrentAirQuality ?ctx = _ =>
      apply (proj1 air_quality_is_reference_classifier ctx (Some 5%Q) (Some 40%Q))
  end; reflexivity.
Defined.

(** A density the vendor omits reaches the context as 0, an available
    reading: with PM10 = -1 and no PM2.5 field in the payload, the context
    built by [getIndoorAirQuality] classifies as excellent. *)
Example omitted_density_reads_as_zero :
  let iaq :=
    getIndoorAirQuality (RT := Fixture.runtime)
      (JObject [("IAQ", JObject [("dustpm10", JString "-1")])]) in
  pm10Density iaq = Some (ofZ (-1)) /\
  pm25Density iaq = Some (ofZ 0) /\
  getCurrentAirQuality
    {| deviceInfo := Fixture.device; filterInfos := []; indoorAirQuality := iaq;
       controlInfo := controlInfo Fixture.onManual |}
  = AirQuality_EXCELLENT.
Proof. repeat split; reflexivity. Qed.

(** ** Fan percentage <-> rotation speed *)

Lemma isNeg_false (x : Q) : (0 <= x)%Q -> isNeg x = false.
Proof. intros H. unfold isNeg. rewrite (Qle_bool_true 0 x H). reflexivity. Qed.

Lemma level_range (p : Q) :
  (0 <= p)%Q -> (p <= 100)%Q -> 0 <= Reference.level p <= 6.
Proof.
  intros H0 H100. unfold Reference.level.
  assert (Hx : (0 <= p / (100 # 6) + (1 # 2))%Q /\ (p / (100 # 6) + (1 # 2) <= 13 # 2)%Q).
  { unfold Qdiv. change (/ (100 # 6))%Q with (6 # 100)%Q. split; lra. }
  destruct Hx as [Hlo Hhi].
  apply Qfloor_resp_le in Hlo. apply Qfloor_resp_le in Hhi.
  change (Qfloor 0) with 0 in Hlo. change (Qfloor (13 # 2)) with 6 in Hhi. lia.
Qed.

Lemma rotationSpeedOfPercentage_level (p : Q) :
  (0 <= p)%Q -> (p <= 100)%Q ->
  rotationSpeedOfPercentage (Num p) = ofZ (Reference.level p).
Proof.
  intros H0 H100.
  pose proof (level_range p H0 H100) as Hl.
  unfold rotationSpeedOfPercentage, ROTATION_SPEED_UNIT, div.
  change (isZero (100 # 6)) with false. cbv iota.
  unfold toFixed0, roundHalfAway.
  assert (Hx : (0 <= p / (100 # 6))%Q).
  { unfold Qdiv. change (/ (100 # 6))%Q with (6 # 100)%Q. lra. }
  rewrite (isNeg_false _ Hx). simpl andb. cbv iota.
  fold (Reference.level p).
  assert (E : Reference.level p = 0 \/ Reference.level p = 1 \/ Reference.level p = 2 \/
              Reference.level p = 3 \/ Reference.level p = 4 \/ Reference.level p = 5 \/
              Reference.level p = 6) by lia.
  destruct E as [-> | [-> | [-> | [-> | [-> | [-> | ->]]]]]]; reflexivity.
Qed.

Lemma percentage_then_level (l : Z) :
  0 <= l <= 6 ->
  rotationSpeedOfPercentage (percentageOfRotationSpeed (ofZ l)) = ofZ l.
Proof.
  intros H.
  assert (E : l = 0 \/ l = 1 \/ l = 2 \/ l = 3 \/ l = 4 \/ l = 5 \/ l = 6) by lia.
  destruct E as [-> | [-> | [-> | [-> | [-> | [-> | ->]]]]]]; reflexivity.
Qed.

(** C7. For a fan percentage between 0 and 100, the handler's conversion
    is the specification's [level], the getter's is its [percentage], and
    going through the 1..6 ordinal a second time changes nothing: the two
    percentages are equal, hence within one quantization step. *)
Theorem fan_percentage_round_trip (p : Q) :
  (0 <= p)%Q -> (p <= 100)%Q ->
  let viaOrdinal (x : number) := percentageOfRotationSpeed (rotationSpeedOfPercentage x) in
  rotationSpeedOfPercentage (Num p) = ofZ (Reference.level p) /\
  0 <= Reference.level p <= 6 /\
  viaOrdinal (Num p) = Num (Reference.percentage (Reference.level p)) /\
  viaOrdinal (viaOrdinal (Num p)) = viaOrdinal (Num p) /\
  exists a b,
    viaOrdinal (Num p) = Num a /\ viaOrdinal (viaOrdinal (Num p)) = Num b /\
    (Qabs (b - a) <= 100 # 6)%Q.
Proof.
  intros H0 H100 viaOrdinal.
  pose proof (level_range p H0 H100) as Hl.
  pose proof (rotationSpeedOfPercentage_level p H0 H100) as Hlevel.
  assert (Hone : viaOrdinal (Num p) = Num (Reference.percentage (Reference.level p))).
  { unfold viaOrdinal. rewrite Hlevel. reflexivity. }
  assert (Htwo : viaOrdinal (viaOrdinal (Num p)) = viaOrdinal (Num p)).
  { unfold viaOrdinal. rewrite Hlevel.
    rewrite (percentage_then_level _ Hl). reflexivity. }
  repeat split; try assumption; try lia.
  exists (Reference.percentage (Reference.level p)),
         (Reference.percentage (Reference.level p)).
  repeat split.
  - exact Hone.
  - rewrite Htwo. exact Hone.
  - setoid_replace (Reference.percentage (Reference.level p)
                    - Reference.percentage (Reference.level p))%Q with 0%Q by ring.
    discriminate.
Qed.

Lemma fan_percentage_round_trip_witness :
  let viaOrdinal (x : number) :=
    percentageOfRotationSpeed (rotationSpeedOfPercentage x) in
  viaOrdinal (viaOrdinal (Num 40)) = viaOrdinal (Num 40).
Proof.
  apply (fan_percentage_round_trip 40).
  - discriminate.
  - discriminate.
Defined.

(** ** Commands *)

Section Commands.
Context {RT : Runtime} {EN : Enumerations}.

Lemma eqb_ofZ (a b : Z) : eqb (ofZ a) (ofZ b) = (a =? b).
Proof.
  unfold eqb, ofZ, Qeq_bool, inject_Z. simpl. rewrite !Z.mul_1_r. reflexivity.
Qed.

Lemma toFixed0_ofZ (b : Z) : 0 <= b -> toFixed0 (ofZ b) = string_of_Z b.
Proof.
  intros Hb. unfold toFixed0, ofZ, roundHalfAway.
  assert (Hq : (0 <= inject_Z b)%Q).
  { change 0%Q with (inject_Z 0). rewrite <- Zle_Qle. exact Hb. }
  rewrite (isNeg_false _ Hq). simpl andb. cbv iota.
  f_equal. unfold Qfloor, Qplus, inject_Z. simpl.
  symmetry. apply Z.div_unique with (r := 1); lia.
Qed.

(** C2, as the code has it. With the device off, outside the auto-driving
    refresh window, a percentage that decodes to a level in 1..6 other than
    the level the device reports emits one batch of exactly two commands,
    power=on then the command for that level (mode commands for 1, 5 and 6,
    fan-speed commands for 2 to 4); a percentage that decodes to the level
    the device reports emits nothing. *)
Theorem rotationSpeedSet_off_two_commands :
  (forall refreshing ctx v l,
      on (controlInfo ctx) = false ->
      strictEqString (mode (controlInfo ctx)) Mode_AUTO_DRIVING && refreshing = false ->
      rotationSpeedOfPercentage v = ofZ l ->
      1 <= l <= 6 ->
      eqb (getRotationSpeed ctx) (ofZ l) = false ->
      exists command,
        sent (rotationSpeedSet refreshing ctx v)
        = [[ {| key := Field_POWER; value := Power_ON |}; command ]] /\
        callback (rotationSpeedSet refreshing ctx v) = None /\
        context (rotationSpeedSet refreshing ctx v) = ctx /\
        ((l = 1 /\ command = {| key := Field_MODE; value := Mode_SILENT |}) \/
         (l = 2 /\ command = {| key := Field_FAN_SPEED; value := FanSpeed_WEAK |}) \/
         (l = 3 /\ command = {| key := Field_FAN_SPEED; value := FanSpeed_MEDIUM |}) \/
         (l = 4 /\ command = {| key := Field_FAN_SPEED; value := FanSpeed_STRONG |}) \/
         (l = 5 /\ command = {| key := Field_MODE; value := Mode_TURBO |}) \/
         (l = 6 /\ command = {| key := Field_MODE; value := Mode_MY_PET |}))) /\
  (forall refreshing ctx v,
      eqb (getRotationSpeed ctx) (rotationSpeedOfPercentage v) = true ->
      sent (rotationSpeedSet refreshing ctx v) = [] /\
      callback (rotationSpeedSet refreshing ctx v) = None).
Proof.
  split.
  - intros refreshing ctx v l Hoff Hgate Hlevel Hl Hold.
    unfold rotationSpeedSet. rewrite Hgate, Hlevel, Hold, Hoff. simpl negb. cbv iota.
    unfold createCommandFromRotationSpeed. rewrite !eqb_ofZ.
    assert (E : l = 1 \/ l = 2 \/ l = 3 \/ l = 4 \/ l = 5 \/ l = 6) by lia.
    destruct E as [-> | [-> | [-> | [-> | [-> | ->]]]]]; simpl;
      eexists; (split; [reflexivity|split; [reflexivity|split; [reflexivity|]]]); tauto.
  - intros refreshing ctx v Hsame. unfold rotationSpeedSet.
    destruct (strictEqString (mode (controlInfo ctx)) Mode_AUTO_DRIVING && refreshing);
      [split; reflexivity|].
    rewrite Hsame. split; reflexivity.
Qed.

(** C5, as the code has it. With the device off, a brightness that decodes
    to a level above 0 other than the stored one goes out as one batch,
    power=on first and the brightness second; switching the light on (its
    stored state being off) sends the power=on command alone and leaves the
    context as it was. *)
Theorem light_commands_while_off :
  (forall ctx v b,
      on (controlInfo ctx) = false ->
      brightnessOfPercentage v = ofZ b ->
      0 < b ->
      brightnessIs ctx (ofZ b) = false ->
      sent (lightbulbBrightnessSet ctx v)
      = [[ {| key := Field_POWER; value := Power_ON |};
           {| key := Field_LIGHT_BRIGHTNESS; value := string_of_Z b |} ]] /\
      context (lightbulbBrightnessSet ctx v) = set_brightness ctx (ofZ b)) /\
  (forall ctx v,
      on (controlInfo ctx) = false ->
      light_on (lightbulbInfo (controlInfo ctx)) = false ->
      truthy v = true ->
      sent (lightbulbOnSet ctx v) = [[ {| key := Field_POWER; value := Power_ON |} ]] /\
      context (lightbulbOnSet ctx v) = ctx).
Proof.
  split.
  - intros ctx v b Hoff Hb Hpos Hstored.
    unfold lightbulbBrightnessSet. rewrite Hb, Hstored, eqb_ofZ.
    destruct (Z.eqb_spec b 0) as [->|_]; [lia|].
    cbv zeta.
    change (on (controlInfo (set_brightness ctx (ofZ b)))) with (on (controlInfo ctx)).
    rewrite Hoff, toFixed0_ofZ by lia. split; reflexivity.
  - intros ctx v Hoff Hlight Hv.
    unfold lightbulbOnSet. rewrite Hv, Hlight, Hoff. simpl. split; reflexivity.
Qed.

(** C10. Switching a running device off clears the stored light state
    (the light is off, and a brightness that is a number becomes 0), sends
    the single command power=off, and the lightbulb updates it schedules
    send nothing when they reach the lightbulb's own handlers. *)
Theorem activeSet_off_clears_light (ctx : MarvelAirPurifierInterface) (v : JsValue) :
  on (controlInfo ctx) = true ->
  truthy v = false ->
  let o := activeSet ctx v in
  on (controlInfo (context o)) = false /\
  light_on (lightbulbInfo (controlInfo (context o))) = false /\
  (forall n, brightness (lightbulbInfo (controlInfo ctx)) = Some n -> n <> NaN ->
             brightness (lightbulbInfo (controlInfo (context o))) = Some (ofZ 0)) /\
  (brightness (lightbulbInfo (controlInfo ctx)) = None ->
   brightness (lightbulbInfo (controlInfo (context o))) = None) /\
  sent o = [[ {| key := Field_POWER; value := Power_OFF |} ]] /\
  callback o = None /\
  sent (lightbulbOnSet (context o) (JBool false)) = [] /\
  (forall pct, In {| service := Lightbulb; characteristic := Brightness;
                     newValue := CNumber pct |} (deferred o) ->
               sent (lightbulbBrightnessSet (context o) pct) = []).
Proof.
  intros Hon Hv o. subst o. unfold activeSet. rewrite Hv, Hon. simpl.
  destruct (brightness (lightbulbInfo (controlInfo ctx))) as [[| |q]|] eqn:Hb; simpl;
    rewrite ?Hb; simpl;
    (repeat split; try reflexivity; try congruence; []);
    (intros pct [H|H]; [discriminate|]);
    unfold getLightbulbBrightnessPercentage in H; simpl in H; rewrite ?Hb in H;
    simpl in H;
    (contradiction || (destruct H as [H|[]]; injection H as <-; reflexivity)).
Qed.

End Commands.

(** C2 as stated fails: with the device off, a percentage that decodes to
    level 3 emits nothing while an auto-driving refresh is in progress, and
    a percentage that decodes to the level the device already reports
    (2, for [WEAK]) emits nothing either. *)
Lemma rotationSpeedSet_off_counterexample :
  (on (controlInfo Fixture.offAuto) = false /\
   rotationSpeedOfPercentage (Num 50) = ofZ 3 /\
   sent (rotationSpeedSet (EN := Fixture.enumerations) true Fixture.offAuto (Num 50)) = []) /\
  (on (controlInfo Fixture.offWeak) = false /\
   rotationSpeedOfPercentage (Num (100 # 3)) = ofZ 2 /\
   getRotationSpeed (EN := Fixture.enumerations) Fixture.offWeak = ofZ 2 /\
   sent (rotationSpeedSet (EN := Fixture.enumerations) false Fixture.offWeak (Num (100 # 3)))
   = []).
Proof. repeat split; reflexivity. Qed.

Lemma rotationSpeedSet_off_two_commands_witness :
  exists command,
    sent (rotationSpeedSet (EN := Fixture.enumerations) false Fixture.offManual (Num 50))
    = [[ {| key := "0001"; value := "1" |}; command ]].
Proof.
  destruct (proj1 (rotationSpeedSet_off_two_commands (EN := Fixture.enumerations))
              false Fixture.offManual (Num 50) 3)
    as [command [Hsent _]]; try reflexivity; try lia.
  exists command. exact Hsent.
Defined.

(** C5 as stated fails: switching the light on while the device is off
    sends the power=on command alone; no batch holds a light command. *)
Lemma lightbulbOnSet_off_counterexample :
  on (controlInfo Fixture.offManual) = false /\
  truthy (JBool true) = true /\
  sent (lightbulbOnSet (EN := Fixture.enumerations) Fixture.offManual (JBool true))
  = [[ {| key := "0001"; value := "1" |} ]] /\
  ~ exists batch command,
      In batch (sent (lightbulbOnSet (EN := Fixture.enumerations)
                        Fixture.offManual (JBool true))) /\
      In command batch /\
      (key command = Field_LIGHT (Enumerations := Fixture.enumerations) \/
       key command = Field_LIGHT_BRIGHTNESS (Enumerations := Fixture.enumerations)).
Proof.
  repeat split.
  intros (batch & command & Hbatch & Hcommand & Hkey).
  destruct Hbatch as [<-|[]]. destruct Hcommand as [<-|[]].
  destruct Hkey as [Hkey|Hkey]; discriminate Hkey.
Qed.

Lemma light_commands_while_off_witness :
  sent (lightbulbBrightnessSet (EN := Fixture.enumerations) Fixture.offManual (Num 100))
  = [[ {| key := "0001"; value := "1" |}; {| key := "0008"; value := "3" |} ]].
Proof.
  apply (proj1 (light_commands_while_off (EN := Fixture.enumerations))
           Fixture.offManual (Num 100) 3); try reflexivity; lia.
Defined.

Lemma activeSet_off_clears_light_witness :
  sent (activeSet (EN := Fixture.enumerations) Fixture.onManual (JBool false))
  = [[ {| key := "0001"; value := "0" |} ]].
Proof.
  apply (activeSet_off_clears_light (EN := Fixture.enumerations)
           Fixture.onManual (JBool false)); reflexivity.
Defined.

(** ** Poll results *)

Section RefreshFrame.
Context {RT : Runtime} {EN : Enumerations}.

(** C9. When the device is not connected after the base class has looked
    at the responses, [refresh] returns there: provided the base class's
    refresh leaves the context alone, the context (its filter infos, indoor
    air quality and control info) is what it was, whatever the responses
    hold, and no characteristic update is pushed. *)
Theorem refresh_disconnected_frame
    (super_refresh : MarvelAirPurifier.AccessoryResponses -> MarvelAirPurifier.Accessory
                     -> MarvelAirPurifier.Accessory)
    (responses : MarvelAirPurifier.AccessoryResponses) (this : MarvelAirPurifier.Accessory) :
  platformContext (super_refresh responses this) = platformContext this ->
  isConnected (super_refresh responses this) = false ->
  let '(after, updates, completion) := refresh super_refresh responses this in
  after = super_refresh responses this /\
  filterInfos (platformContext after) = filterInfos (platformContext this) /\
  indoorAirQuality (platformContext after) = indoorAirQuality (platformContext this) /\
  controlInfo (platformContext after) = controlInfo (platformContext this) /\
  updates = [] /\
  completion = Normal tt.
Proof.
  intros Hframe Hoffline. unfold refresh. rewrite Hoffline. simpl.
  rewrite Hframe. repeat split; reflexivity.
Qed.

End RefreshFrame.

Lemma refresh_disconnected_frame_witness :
  fst (fst (refresh (RT := Fixture.runtime) (EN := Fixture.enumerations)
              Fixture.connectivityFromControl (Fixture.pollResult false) Fixture.accessory))
  = Fixture.connectivityFromControl (Fixture.pollResult false) Fixture.accessory.
Proof.
  pose proof (refresh_disconnected_frame (RT := Fixture.runtime) (EN := Fixture.enumerations)
                Fixture.connectivityFromControl (Fixture.pollResult false) Fixture.accessory
                eq_refl eq_refl) as H.
  destruct (refresh (RT := Fixture.runtime) (EN := Fixture.enumerations)
              Fixture.connectivityFromControl (Fixture.pollResult false) Fixture.accessory)
    as [[after updates] completion].
  exact (proj1 H).
Defined.

(** The same poll result on a connected device replaces the context. *)
Example refresh_connected :
  let '(after, updates, completion) :=
    refresh (RT := Fixture.runtime) (EN := Fixture.enumerations)
      Fixture.connectivityFromControl (Fixture.pollResult true) Fixture.accessory in
  on (controlInfo (platformContext after)) = true /\
  brightness (lightbulbInfo (controlInfo (platformContext after))) = Some (ofZ 2) /\
  pm10Density (indoorAirQuality (platformContext after)) = Some (ofZ 95) /\
  pm25Density (indoorAirQuality (platformContext after)) = Some (ofZ 0) /\
  map filterPercentage (filterInfos (platformContext after)) = [ofZ 80] /\
  getCurrentAirQuality (platformContext after) = AirQuality_INFERIOR /\
  length updates = 12%nat /\
  completion = Normal tt.
Proof. vm_compute. repeat split; reflexivity. Qed.

(** ** The poll cycle *)

Section PollCycle.
Import CowayPlatform.





Variable retrieveDeviceState : Accessory -> string -> JsValue.
Variable refresh : Accessory -> AccessoryResponses -> Completion unit.







End PollCycle.

(** Accessory A with two endpoints and accessory B with one, three
    responses: responses 0 and 1 go to A in its declared order, response 2
    to B. *)
Example poll_two_and_one (r0 r1 r2 : JsValue) :
  CowayPlatform.refreshLoop Fixture.refreshes [Fixture.accessoryA; Fixture.accessoryB]
    [r0; r1; r2]
  = [ (Fixture.accessoryA,
       [ (EndpointPath_DEVICES_CONTROL (Enumerations := Fixture.enumerations), r0);
         (EndpointPath_AIR_DEVICES_HOME (Enumerations := Fixture.enumerations), r1) ]);
      (Fixture.accessoryB,
       [ (EndpointPath_DEVICES_CONTROL (Enumerations := Fixture.enumerations), r2) ]) ].
Proof. reflexivity. Qed.


(** ** Session negotiation *)

Section Negotiation.
Context {EN : Enumerations}.

(** C1, as the code has it. Every response that lacks the terminal
    redirect marker is answered with the skip-password-change form, posted
    with the session code extracted from that response and the same
    cookies, and nothing bounds the number of such rounds: after any run of
    intermediate pages, the terminal redirect still yields its
    authorization code, one POST having been made per response. *)
Theorem authenticate_retries_without_bound
    (pages : list AxiosResponse) (codes : list string) :
  Forall2 (fun page fresh =>
             includes "redirect_bridge.html" (request_path page) = false /\
             parseSessionCode page = Normal fresh) pages codes ->
  forall request session_ final later authorizationCode,
    includes "redirect_bridge.html" (request_path final) = true ->
    codeOfRedirect (request_path final) = Normal authorizationCode ->
    authenticate request session_ (pages ++ final :: later)
    = (postOf request session_
       :: map (fun fresh => postOf PasswordUpdateRequest
                              {| session := fresh; cookies := cookies session_ |}) codes,
       Resolved authorizationCode).
Proof.
  induction 1 as [|page fresh pages codes [Hpage Hfresh] _ IH];
    intros request session_ final later authorizationCode Hfinal Hcode.
  - simpl. rewrite Hfinal, Hcode. reflexivity.
  - simpl. rewrite Hpage, Hfresh. simpl.
    rewrite (IH PasswordUpdateRequest {| session := fresh; cookies := cookies session_ |}
               final later authorizationCode Hfinal Hcode).
    reflexivity.
Qed.

End Negotiation.

(** C1 as stated fails: three consecutive responses without the terminal
    redirect marker do not end the negotiation with an error; a fourth POST
    is made and the authorization code of the redirect that follows is
    returned. *)
Lemma authenticate_three_redirects_counterexample :
  let responses :=
    [ Fixture.forcePasswordChange "S1"; Fixture.forcePasswordChange "S2";
      Fixture.forcePasswordChange "S3"; Fixture.terminalRedirect "XYZ" ] in
  let outcome :=
    authenticate (EN := Fixture.enumerations) (LogInRequest "user" "secret")
      Fixture.session0 responses in
  Forall (fun r => includes "redirect_bridge.html" (request_path r) = false)
         (firstn 3 responses) /\
  snd outcome = Resolved (JString "XYZ") /\
  length (fst outcome) = 4%nat /\
  ~ exists e, snd outcome = Rejected e.
Proof.
  repeat split.
  - repeat constructor.
  - intros [e He]. discriminate He.
Qed.

Lemma authenticate_retries_without_bound_witness :
  snd (authenticate (EN := Fixture.enumerations) (LogInRequest "user" "secret")
         Fixture.session0
         [ Fixture.forcePasswordChange "S1"; Fixture.forcePasswordChange "S2";
           Fixture.forcePasswordChange "S3"; Fixture.terminalRedirect "XYZ" ])
  = Resolved (JString "XYZ").
Proof.
  pose proof (authenticate_retries_without_bound (EN := Fixture.enumerations)
                [ Fixture.forcePasswordChange "S1"; Fixture.forcePasswordChange "S2";
                  Fixture.forcePasswordChange "S3" ]
                [ "S1"; "S2"; "S3" ]
                ltac:(repeat constructor)
                (LogInRequest "user" "secret") Fixture.session0
                (Fixture.terminalRedirect "XYZ") [] (JString "XYZ") eq_refl eq_refl) as H.
  cbn [app] in H. rewrite H. reflexivity.
Defined.

(** ** Token refresh *)

Section TokenRefresh.
Context {RT : Runtime} {EN : Enumerations}.

Variable vendor : Request -> option JsValue.
Variable now : Z.


Lemma send_request (urlKey_ : string) (httpMethod_ : HttpMethod) (body_ : JsValue)
    (tok : AccessToken) :
  snd (send vendor urlKey_ httpMethod_ body_ tok) = requestOf urlKey_ httpMethod_ body_ tok.
Proof. unfold send. destruct (vendor _); reflexivity. Qed.


Lemma refresh_is_refresh (httpMethod_ : HttpMethod) (body_ : JsValue) (tok : AccessToken) :
  isRefreshCall (requestOf IoCareEndpoint_REFRESH_TOKEN httpMethod_ body_ tok) = true.
Proof. unfold isRefreshCall. simpl. apply String.eqb_refl. Qed.


End TokenRefresh.


(** The two cases the specification names: an expiry one second in the
    past gives the refresh call and then the original request under the new
    access token; an expiry one hour in the future gives the original
    request alone. *)
Example expiry_one_second_ago :
  option_map (fun x => (map urlKey (requests x), map authorization (requests x), token x))
    (executeIoCarePayload (RT := Fixture.runtime) (EN := Fixture.enumerations)
       Fixture.vendor 1700000001000 2
       (IoCareEndpoint_CONTROL_DEVICE (Enumerations := Fixture.enumerations)) POST JNull
       (Some Fixture.tokens))
  = Some ([ "/com/refresh-token::CWIL0101"; "/com/control-device::CWIG0603" ],
          [ Some ("Bearer " ++ Fixture.jwt); Some "Bearer access-2" ],
          Some {| accessToken := JString "access-2"; refreshToken := JString "refresh-2" |}).
Proof. vm_compute. reflexivity. Qed.

Example expiry_in_one_hour :
  option_map (fun x => (map urlKey (requests x), token x))
    (executeIoCarePayload (RT := Fixture.runtime) (EN := Fixture.enumerations)
       Fixture.vendor 1699996400000 2
       (IoCareEndpoint_CONTROL_DEVICE (Enumerations := Fixture.enumerations)) POST JNull
       (Some Fixture.tokens))
  = Some ([ "/com/control-device::CWIG0603" ], Some Fixture.tokens).
Proof. vm_compute. reflexivity. Qed.

(** In binary64 arithmetic, as the engine computes it, each level times
    [100 / 6.0] divided by [100 / 6.0] is that level again. *)
Example binary64_levels_survive :
  let u := PrimFloat.div 100%float 6%float in
  map (fun l => PrimFloat.div (PrimFloat.mul l u) u)
      [0; 1; 2; 3; 4; 5; 6]%float
  = [0; 1; 2; 3; 4; 5; 6]%float.
Proof. vm_compute. reflexivity. Qed.

(** A batch of two commands is one control request whose function list
    holds them in the order of the batch. *)
Example batch_is_one_request :
  option_map (fun x => map (fun r => (urlKey r, get (body r) "funcList")) (requests x))
    (executeSetPayloads (RT := Fixture.runtime) (EN := Fixture.enumerations)
       Fixture.vendor 1699996400000 2 Fixture.device
       [ {| key := "0001"; value := "1" |}; {| key := "0003"; value := "2" |} ]
       (Some Fixture.tokens))
  = Some [ ("/com/control-device::CWIG0603",
            JArray [ JObject [("funcId", JString "0001"); ("cmdVal", JString "1")];
                     JObject [("funcId", JString "0003"); ("cmdVal", JString "2")] ]) ].
Proof. vm_compute. reflexivity. Qed.

(* ================================================================== *)
(** * Further properties of the code                                   *)
(* ================================================================== *)

Import Auxiliary.

(** ** Printing an integer and reading it back *)

Lemma takeDigits_printed (d : Decimal.uint) :
  takeDigits (NilEmpty.string_of_uint d) = (digitsOf d, "").
Proof.
  induction d; simpl; try reflexivity; rewrite IHd; reflexivity.
Qed.

Lemma digits_acc (d : Decimal.uint) :
  forall acc : positive,
    fold_left (fun a x => 10 * a + x) (digitsOf d) (Z.pos acc)
    = Z.pos (Pos.of_uint_acc d acc).
Proof.
  induction d; intros acc; cbn [digitsOf fold_left Pos.of_uint_acc];
    [reflexivity | rewrite <- IHd; f_equal; lia ..].
Qed.

Lemma digits_value (d : Decimal.uint) :
  fold_left (fun a x => 10 * a + x) (digitsOf d) 0 = Z.of_uint d.
Proof.
  unfold Z.of_uint.
  induction d; cbn [digitsOf fold_left Pos.of_uint];
    [reflexivity | exact IHd | exact (digits_acc d _) ..].
Qed.

Lemma printed_nonempty (p : positive) : digitsOf (Pos.to_uint p) <> [].
Proof.
  pose proof (DecimalPos.Unsigned.to_uint_nonnil p) as H.
  destruct (Pos.to_uint p); try discriminate. contradiction.
Qed.

Lemma first_of_printed (p : positive) :
  exists c r, NilEmpty.string_of_uint (Pos.to_uint p) = String c r /\ isDigit c = true.
Proof.
  pose proof (DecimalPos.Unsigned.to_uint_nonnil p) as H.
  destruct (Pos.to_uint p); try contradiction; simpl; eexists; eexists; split; reflexivity.
Qed.

Lemma digit_is_plain (c : ascii) :
  isDigit c = true ->
  isWhiteSpace c = false /\ c <> "-"%char /\ c <> "+"%char /\
  (c =? "x")%char = false /\ (c =? "X")%char = false.
Proof.
  destruct c as [[] [] [] [] [] [] [] []]; cbv; intros H; try discriminate H;
    repeat split; congruence.
Qed.

Lemma takeSign_digit (c : ascii) (r : string) :
  isDigit c = true -> takeSign (String c r) = (1, String c r).
Proof.
  intros H. destruct (digit_is_plain c H) as (_ & Hm & Hp & _).
  unfold takeSign.
  destruct c as [[] [] [] [] [] [] [] []]; try reflexivity; congruence.
Qed.

Lemma second_of_printed (d : Decimal.uint) (c x : ascii) (r : string) :
  NilEmpty.string_of_uint d = String c (String x r) -> isDigit x = true.
Proof.
  destruct d as [|d|d|d|d|d|d|d|d|d|d]; simpl; try discriminate;
    intros [= _ H]; destruct d; simpl in H; try discriminate;
    injection H as <- _; reflexivity.
Qed.

(** Reading unsigned digits back, with either [parseInt]. *)
Lemma parse_printed (sign : Z) (d : Decimal.uint) (c : ascii) (r : string) :
  NilEmpty.string_of_uint d = String c r ->
  isDigit c = true ->
  (let (ds, _) := takeDigits (String c r) in numberOfDigits sign 10 ds)
  = ofZ (sign * Z.of_uint d) /\
  match String c r with
  | String "0" (String x r') =>
      if (x =? "x")%char || (x =? "X")%char
      then numberOfDigits sign 16 (takeHexDigits r')
      else (let (ds, _) := takeDigits (String c r) in numberOfDigits sign 10 ds)
  | _ => (let (ds, _) := takeDigits (String c r) in numberOfDigits sign 10 ds)
  end
  = ofZ (sign * Z.of_uint d).
Proof.
  intros Hs Hc.
  assert (Hdec : (let (ds, _) := takeDigits (String c r) in numberOfDigits sign 10 ds)
                 = ofZ (sign * Z.of_uint d)).
  { rewrite <- Hs, takeDigits_printed. unfold numberOfDigits.
    rewrite digits_value.
    destruct (digitsOf d) eqn:E; [|reflexivity].
    destruct d; simpl in Hs; discriminate. }
  split; [exact Hdec|].
  destruct r as [|x r'].
  - destruct c as [[] [] [] [] [] [] [] []]; exact Hdec.
  - pose proof (second_of_printed d c x r' Hs) as Hx.
    destruct (digit_is_plain x Hx) as (_ & _ & _ & Hx1 & Hx2).
    rewrite Hx1, Hx2. simpl orb.
    destruct c as [[] [] [] [] [] [] [] []]; exact Hdec.
Qed.

Lemma string_of_uint_nonnil (d : Decimal.uint) :
  d <> Decimal.Nil -> NilZero.string_of_uint d = NilEmpty.string_of_uint d.
Proof. destruct d; [contradiction|reflexivity ..]. Qed.

Lemma parseInt_printed (z : Z) :
  parseInt (string_of_Z z) = ofZ z /\ parseInt10 (string_of_Z z) = ofZ z.
Proof.
  destruct z as [|p|p].
  - split; reflexivity.
  - unfold string_of_Z. cbn [Z.to_int NilZero.string_of_int].
    rewrite string_of_uint_nonnil by apply DecimalPos.Unsigned.to_uint_nonnil.
    destruct (first_of_printed p) as (c & r & Hs & Hc).
    destruct (parse_printed 1 _ c r Hs Hc) as [H10 H].
    destruct (digit_is_plain c Hc) as (Hw & _).
    unfold Z.of_uint in *. rewrite DecimalPos.Unsigned.of_to in *.
    rewrite Hs. unfold parseInt, parseInt10.
    cbn [trimStart]. rewrite Hw, (takeSign_digit c r Hc).
    split; [exact H|exact H10].
  - unfold string_of_Z. cbn [Z.to_int NilZero.string_of_int].
    rewrite string_of_uint_nonnil by apply DecimalPos.Unsigned.to_uint_nonnil.
    destruct (first_of_printed p) as (c & r & Hs & Hc).
    destruct (parse_printed (-1) _ c r Hs Hc) as [H10 H].
    unfold Z.of_uint in *. rewrite DecimalPos.Unsigned.of_to in *.
    rewrite Hs. unfold parseInt, parseInt10.
    change (trimStart (String "-" (String c r))) with (String "-" (String c r)).
    change (takeSign (String "-" (String c r))) with (-1, String c r).
    split; [exact H|exact H10].
Qed.

(** [parseInt(x.toFixed(0))] is the integer nearest to [x], ties away
    from zero. *)
Lemma parseInt_toFixed0 (x : Q) :
  parseInt (toFixed0 (Num x)) = ofZ (roundHalfAway x).
Proof.
  unfold toFixed0.
  destruct (isNeg x && (roundHalfAway x =? 0)) eqn:E.
  - apply andb_true_iff in E. destruct E as [_ E].
    apply Z.eqb_eq in E. rewrite E. reflexivity.
  - apply parseInt_printed.
Qed.

(** ** Reading a characteristic and writing it back *)

Section WriteBack.
Context {RT : Runtime} {EN : Enumerations}.

Lemma indexOf_range (v : JsValue) (values : list string) :
  -1 <= indexOf v values < Z.of_nat (length values).
Proof.
  induction values as [|x values IH]; simpl length; cbn [indexOf]; [lia|].
  destruct (strictEqString v x); [lia|].
  destruct (Z.ltb_spec (indexOf v values) 0); lia.
Qed.

Lemma getRotationSpeed_level (ctx : MarvelAirPurifierInterface) :
  exists l, getRotationSpeed ctx = ofZ l /\ 0 <= l <= Z.of_nat (length FanSpeed_values).
Proof.
  unfold getRotationSpeed.
  pose proof (indexOf_range (fanSpeed (controlInfo ctx)) FanSpeed_values).
  destruct (strictEqString (fanSpeed (controlInfo ctx)) FanSpeed_SHUTDOWN);
    eexists; (split; [reflexivity|lia]).
Qed.

Lemma roundHalfAway_scaled (l : Z) (u : Q) :
  0 <= l -> (0 < u)%Q -> roundHalfAway (inject_Z l * u / u) = l.
Proof.
  intros Hl Hu.
  assert (E : (inject_Z l * u / u == inject_Z l)%Q).
  { apply Qdiv_mult_l. intros H. rewrite H in Hu. discriminate. }
  assert (Hq : (0 <= inject_Z l)%Q).
  { change 0%Q with (inject_Z 0). rewrite <- Zle_Qle. exact Hl. }
  unfold roundHalfAway.
  rewrite isNeg_false by (rewrite E; exact Hq).
  assert (E2 : (inject_Z l * u / u + (1 # 2) == inject_Z l + (1 # 2))%Q)
    by (rewrite E; reflexivity).
  rewrite (Qfloor_comp _ _ E2).
  unfold Qfloor, Qplus, inject_Z. simpl.
  symmetry. apply Z.div_unique with (r := 1); lia.
Qed.

Lemma level_of_reported_percentage (l : Z) :
  0 <= l -> rotationSpeedOfPercentage (percentageOfRotationSpeed (ofZ l)) = ofZ l.
Proof.
  intros Hl.
  unfold rotationSpeedOfPercentage, percentageOfRotationSpeed, ROTATION_SPEED_UNIT, ofZ.
  cbn [mul div]. change (isZero (100 # 6)) with false. cbv iota.
  rewrite parseInt_toFixed0, roundHalfAway_scaled by (try exact Hl; reflexivity).
  reflexivity.
Qed.

(** X1. Writing back the rotation speed the accessory reports is a no-op:
    whatever the fan speed in the context and whatever the enumeration, the
    percentage [getRotationSpeedPercentage] returns decodes to the level
    [getRotationSpeed] returns, and the RotationSpeed SET handler then
    sends nothing and raises no error. *)
Theorem reported_rotation_speed_writes_back (refreshing : bool)
    (ctx : MarvelAirPurifierInterface) :
  rotationSpeedOfPercentage (getRotationSpeedPercentage ctx) = getRotationSpeed ctx /\
  sent (rotationSpeedSet refreshing ctx (getRotationSpeedPercentage ctx)) = [] /\
  callback (rotationSpeedSet refreshing ctx (getRotationSpeedPercentage ctx)) = None.
Proof.
  destruct (getRotationSpeed_level ctx) as (l & Hl & Hrange).
  assert (Hback : rotationSpeedOfPercentage (getRotationSpeedPercentage ctx)
                  = getRotationSpeed ctx).
  { unfold getRotationSpeedPercentage. rewrite Hl.
    apply level_of_reported_percentage. lia. }
  split; [exact Hback|].
  unfold rotationSpeedSet. rewrite Hback, Hl, eqb_ofZ, Z.eqb_refl.
  destruct (strictEqString (mode (controlInfo ctx)) Mode_AUTO_DRIVING && refreshing);
    split; reflexivity.
Qed.

Lemma brightness_of_reported_percentage (b : Z) :
  0 <= b -> brightnessOfPercentage (mul (ofZ b) LIGHTBULB_BRIGHTNESS_UNIT) = ofZ b.
Proof.
  intros Hb.
  unfold brightnessOfPercentage, LIGHTBULB_BRIGHTNESS_UNIT, ofZ.
  cbn [mul div]. change (isZero (100 # 3)) with false. cbv iota.
  unfold Math_round.
  pose proof (roundHalfAway_scaled b (100 # 3) Hb eq_refl) as H.
  unfold roundHalfAway in H.
  assert (E : (inject_Z b * (100 # 3) / (100 # 3) == inject_Z b)%Q).
  { apply Qdiv_mult_l. discriminate. }
  rewrite isNeg_false in H.
  - rewrite H. reflexivity.
  - rewrite E. change 0%Q with (inject_Z 0). rewrite <- Zle_Qle. exact Hb.
Qed.

(** X2. With the device on and a stored brightness level [b >= 0], the
    Brightness GET handler reports [b * 100/3] and writing that value back
    sends nothing. With the device off the GET handler reports 0 whatever is
    stored, and writing 0 back over a stored level other than 0 does send
    a command (light off) and overwrites the stored level with 0. *)
Theorem reported_brightness_writes_back (ctx : MarvelAirPurifierInterface) (b : Z) :
  0 <= b ->
  brightness (lightbulbInfo (controlInfo ctx)) = Some (ofZ b) ->
  (on (controlInfo ctx) = true ->
   lightbulbBrightnessGet ctx = mul (ofZ b) LIGHTBULB_BRIGHTNESS_UNIT /\
   sent (lightbulbBrightnessSet ctx (lightbulbBrightnessGet ctx)) = []) /\
  (on (controlInfo ctx) = false ->
   b <> 0 ->
   lightbulbBrightnessGet ctx = ofZ 0 /\
   sent (lightbulbBrightnessSet ctx (lightbulbBrightnessGet ctx))
   = [[ {| key := Field_LIGHT; value := Light_OFF |} ]] /\
   brightness (lightbulbInfo (controlInfo
     (context (lightbulbBrightnessSet ctx (lightbulbBrightnessGet ctx))))) = Some (ofZ 0)).
Proof.
  intros Hb Hstored. split.
  - intros Hon.
    assert (Hget : lightbulbBrightnessGet ctx = mul (ofZ b) LIGHTBULB_BRIGHTNESS_UNIT).
    { unfold lightbulbBrightnessGet. rewrite Hon, Hstored. reflexivity. }
    split; [exact Hget|].
    rewrite Hget. unfold lightbulbBrightnessSet, brightnessIs.
    rewrite (brightness_of_reported_percentage b Hb), Hstored, eqb_ofZ, Z.eqb_refl.
    reflexivity.
  - intros Hoff Hnz.
    assert (Hget : lightbulbBrightnessGet ctx = ofZ 0).
    { unfold lightbulbBrightnessGet. rewrite Hoff. reflexivity. }
    rewrite Hget. split; [reflexivity|].
    unfold lightbulbBrightnessSet, brightnessIs.
    change (brightnessOfPercentage (ofZ 0)) with (ofZ 0).
    rewrite Hstored, eqb_ofZ.
    destruct (Z.eqb_spec b 0) as [->|_]; [contradiction|].
    split; reflexivity.
Qed.

End WriteBack.

Lemma reported_brightness_writes_back_witness :
  sent (lightbulbBrightnessSet (EN := Fixture.enumerations) Fixture.onManual
          (lightbulbBrightnessGet Fixture.onManual)) = [].
Proof.
  apply (proj1 (reported_brightness_writes_back (EN := Fixture.enumerations)
                  Fixture.onManual 0 (Z.le_refl 0) eq_refl) eq_refl).
Defined.

(** ** What the SET handlers send *)

Section Handlers.
Context {RT : Runtime} {EN : Enumerations}.

(** X3. A command issued twice is sent once: after the Active handler
    has run for a value, running it again for the same value sends
    nothing; the same holds for the lightbulb's On handler when the device
    is on, and for its Brightness handler for every finite percentage. *)
Theorem repeated_command_is_suppressed :
  (forall ctx v, sent (activeSet (context (activeSet ctx v)) v) = []) /\
  (forall ctx v,
      on (controlInfo ctx) = true ->
      sent (lightbulbOnSet (context (lightbulbOnSet ctx v)) v) = []) /\
  (forall ctx q,
      sent (lightbulbBrightnessSet (context (lightbulbBrightnessSet ctx (Num q))) (Num q))
      = []).
Proof.
  split; [|split].
  - intros ctx v. unfold activeSet at 2.
    destruct (Bool.eqb (truthy v) (on (controlInfo ctx))) eqn:E.
    + cbn [context done]. unfold activeSet. rewrite E. reflexivity.
    + destruct (truthy v) eqn:Hv; cbn [negb context done];
        unfold activeSet; rewrite Hv.
      * reflexivity.
      * destruct (isNotNull _); reflexivity.
  - intros ctx v Hon. unfold lightbulbOnSet at 2.
    destruct (Bool.eqb (light_on (lightbulbInfo (controlInfo ctx))) (truthy v)) eqn:E.
    + cbn [context done]. unfold lightbulbOnSet. rewrite E. reflexivity.
    + rewrite Hon. cbn [negb andb context done]. unfold lightbulbOnSet.
      cbn. rewrite Bool.eqb_reflx. reflexivity.
  - intros ctx q. unfold lightbulbBrightnessSet at 2.
    assert (Hk : exists k, brightnessOfPercentage (Num q) = ofZ k).
    { unfold brightnessOfPercentage, LIGHTBULB_BRIGHTNESS_UNIT. cbn [div].
      change (isZero (100 # 3)) with false. cbv iota. eexists. reflexivity. }
    destruct Hk as [k Hk]. rewrite Hk.
    destruct (brightnessIs ctx (ofZ k)) eqn:E.
    + cbn [context done]. unfold lightbulbBrightnessSet. rewrite Hk, E. reflexivity.
    + destruct (eqb (ofZ k) (ofZ 0)); cbn [context done];
        unfold lightbulbBrightnessSet, brightnessIs; rewrite Hk; cbn;
        rewrite Qeq_bool_refl; reflexivity.
Qed.

(** X4. The RotationSpeed handler never changes the context, never makes
    more than one vendor call, and puts power=on at the head of the batch
    exactly when the device is off: what it sends is nothing, or the
    command of the decoded level alone (device on), or power=on followed
    by that command (device off). It reports an error only when it sends
    nothing, and a request for level 0 on a running device is dropped
    without an error. *)
Theorem rotationSpeedSet_outcomes (refreshing : bool) (ctx : MarvelAirPurifierInterface)
    (v : number) :
  let o := rotationSpeedSet refreshing ctx v in
  context o = ctx /\
  (sent o = [] \/
   exists command,
     createCommandFromRotationSpeed (rotationSpeedOfPercentage v) = Some command /\
     callback o = None /\
     ((on (controlInfo ctx) = true /\ sent o = [[command]]) \/
      (on (controlInfo ctx) = false /\
       sent o = [[ {| key := Field_POWER; value := Power_ON |}; command ]]))) /\
  (forall m, callback o = Some m -> m = "INVALID ROTATION SPEED" /\ sent o = []) /\
  (on (controlInfo ctx) = true ->
   rotationSpeedOfPercentage v = ofZ 0 ->
   sent o = [] /\ callback o = None).
Proof.
  intros o. subst o. unfold rotationSpeedSet.
  destruct (strictEqString (mode (controlInfo ctx)) Mode_AUTO_DRIVING && refreshing);
    [cbn; repeat split; auto; discriminate|].
  destruct (eqb (getRotationSpeed ctx) (rotationSpeedOfPercentage v));
    [cbn; repeat split; auto; discriminate|].
  destruct (on (controlInfo ctx)) eqn:Hon; cbn [negb];
    destruct (eqb (rotationSpeedOfPercentage v) (ofZ 0)) eqn:Hzero;
    destruct (createCommandFromRotationSpeed (rotationSpeedOfPercentage v))
      as [command|] eqn:Hc;
    cbn; (split; [reflexivity|]); (split; [|split]);
    try (left; reflexivity);
    try (right; exists command;
         split; [reflexivity|]; split; [reflexivity|];
         first [left; split; reflexivity | right; split; reflexivity]);
    try (intros m Hm; first [discriminate Hm | injection Hm as <-; split; reflexivity]);
    try (intros Habsurd; discriminate Habsurd);
    try (intros _ Hz; rewrite Hz in Hzero; discriminate Hzero);
    try (intros _ _; split; reflexivity).
Qed.

End Handlers.

Lemma repeated_command_is_suppressed_witness :
  sent (lightbulbOnSet (EN := Fixture.enumerations)
          (context (lightbulbOnSet (EN := Fixture.enumerations) Fixture.onManual (JBool true)))
          (JBool true)) = [].
Proof.
  apply (proj1 (proj2 (repeated_command_is_suppressed (EN := Fixture.enumerations)))
           Fixture.onManual (JBool true) eq_refl).
Defined.

Lemma rotationSpeedSet_outcomes_witness :
  sent (rotationSpeedSet (EN := Fixture.enumerations) false Fixture.onManual (Num 0)) = [] /\
  callback (rotationSpeedSet (EN := Fixture.enumerations) false Fixture.onManual (Num 0)) = None.
Proof.
  apply (rotationSpeedSet_outcomes (EN := Fixture.enumerations) false Fixture.onManual (Num 0));
    reflexivity.
Defined.


(** ** What the accessory reports *)

Section Reports.
Context {RT : Runtime} {EN : Enumerations}.

Lemma level_is_value (b1 b2 b3 b4 : Z) (v : number) :
  isAirQualityValue
    (if lt v (ofZ 0) then AirQuality_UNKNOWN
     else if le v (ofZ b1) then AirQuality_EXCELLENT
     else if le v (ofZ b2) then AirQuality_GOOD
     else if le v (ofZ b3) then AirQuality_FAIR
     else if le v (ofZ b4) then AirQuality_INFERIOR
     else AirQuality_POOR).
Proof.
  unfold isAirQualityValue.
  destruct (lt v (ofZ 0)); [tauto|].
  destruct (le v (ofZ b1)); [tauto|].
  destruct (le v (ofZ b2)); [tauto|].
  destruct (le v (ofZ b3)); [tauto|].
  destruct (le v (ofZ b4)); tauto.
Qed.

Lemma Math_max_values (a b : number) :
  isAirQualityValue a -> isAirQualityValue b ->
  isAirQualityValue (Math_max [a]) /\ isAirQualityValue (Math_max [a; b]).
Proof.
  unfold isAirQualityValue.
  intros [-> | [-> | [-> | [-> | [-> | ->]]]]] [-> | [-> | [-> | [-> | [-> | ->]]]]];
    vm_compute; tauto.
Qed.

Lemma getCurrentAirQuality_value (ctx : MarvelAirPurifierInterface) :
  isAirQualityValue (getCurrentAirQuality ctx).
Proof.
  unfold getCurrentAirQuality.
  destruct (on (controlInfo ctx)); cbn [negb]; [|left; reflexivity].
  assert (H10 : forall v, isAirQualityValue (pm10Level v))
    by (intros v; exact (level_is_value 10 30 80 150 v)).
  assert (H25 : forall v, isAirQualityValue (pm25Level v))
    by (intros v; exact (level_is_value 5 15 35 75 v)).
  destruct (pm10Density (indoorAirQuality ctx)) as [x|];
    destruct (pm25Density (indoorAirQuality ctx)) as [y|]; cbn [isNotNull];
    try destruct (negb (isNaN x)); try destruct (negb (isNaN y)); cbn [app];
    try (left; reflexivity);
    first [ apply (proj2 (Math_max_values _ _ (H10 x) (H25 y)))
          | apply (proj1 (Math_max_values _ _ (H10 x) (H10 x)))
          | apply (proj1 (Math_max_values _ _ (H25 y) (H25 y))) ].
Qed.

(** X5. Whatever the context holds (any density, finite or not, NaN or
    absent), the air quality reported is one of HomeKit's six values, and
    it is UNKNOWN whenever the device is off or both densities are NaN or
    absent. *)
Theorem air_quality_is_a_HomeKit_value (ctx : MarvelAirPurifierInterface) :
  isAirQualityValue (getCurrentAirQuality ctx) /\
  (on (controlInfo ctx) = false -> getCurrentAirQuality ctx = AirQuality_UNKNOWN) /\
  (isNotNull (pm10Density (indoorAirQuality ctx)) = false ->
   isNotNull (pm25Density (indoorAirQuality ctx)) = false ->
   getCurrentAirQuality ctx = AirQuality_UNKNOWN).
Proof.
  split; [apply getCurrentAirQuality_value|]. split.
  - intros Hoff. unfold getCurrentAirQuality. rewrite Hoff. reflexivity.
  - intros H10 H25. unfold getCurrentAirQuality.
    destruct (negb (on (controlInfo ctx))); [reflexivity|].
    destruct (pm10Density (indoorAirQuality ctx)) as [x|];
      destruct (pm25Density (indoorAirQuality ctx)) as [y|];
      try rewrite H10; try rewrite H25; reflexivity.
Qed.

Lemma setOptionalCharacteristic_clean (c : Characteristic) (s : Service) (v : option number) :
  Forall (fun u => newValue u <> CNumber NaN) (setOptionalCharacteristic c s v).
Proof.
  unfold setOptionalCharacteristic.
  destruct v as [[| |q]|]; cbn; repeat constructor; cbn; discriminate.
Qed.

(** X6. Whatever the context holds, the characteristic updates a refresh
    pushes never carry NaN: the six it always pushes are computed values
    that cannot be NaN, and the six optional ones go through
    [setOptionalCharacteristic], which drops undefined and NaN. *)
Theorem refresh_never_pushes_NaN (ctx : MarvelAirPurifierInterface) :
  Forall (fun u => newValue u <> CNumber NaN) (refreshUpdates ctx) /\
  (6 <= length (refreshUpdates ctx) <= 12)%nat.
Proof.
  split.
  - unfold refreshUpdates.
    repeat (apply Forall_app; split);
      try apply setOptionalCharacteristic_clean;
      repeat constructor; cbn [newValue]; try discriminate.
    + unfold getCurrentAirPurifierState.
      destruct (negb _); [discriminate|]. destruct (strictEqString _ _); discriminate.
    + unfold getPurifierDrivingStrategy. destruct (strictEqString _ _); discriminate.
    + destruct (getRotationSpeed_level ctx) as (l & Hl & _).
      unfold getRotationSpeedPercentage, percentageOfRotationSpeed. rewrite Hl. discriminate.
    + destruct (getCurrentAirQuality_value ctx) as [H|[H|[H|[H|[H|H]]]]];
        rewrite H; discriminate.
  - unfold refreshUpdates. rewrite !length_app. cbn [length].
    assert (Hopt : forall c s v, (length (setOptionalCharacteristic c s v) <= 1)%nat).
    { intros c s v. unfold setOptionalCharacteristic.
      destruct v as [[| |q]|]; cbn; lia. }
    pose proof (Hopt Brightness Lightbulb (getLightbulbBrightnessPercentage ctx)).
    pose proof (Hopt PM10Density AirQualitySensor (pm10Density (indoorAirQuality ctx))).
    pose proof (Hopt PM2_5Density AirQualitySensor (pm25Density (indoorAirQuality ctx))).
    pose proof (Hopt VOCDensity AirQualitySensor (vocDensity (indoorAirQuality ctx))).
    pose proof (Hopt CurrentRelativeHumidity HumiditySensor (humidity (indoorAirQuality ctx))).
    pose proof (Hopt CurrentTemperature TemperatureSensor (temperature (indoorAirQuality ctx))).
    lia.
Qed.

End Reports.

(** ** What a poll result does to the accessory *)

Section Polled.
Context {RT : Runtime} {EN : Enumerations}.

Lemma mapC_all {A B : Type} (f : A -> Completion B) (g : A -> B) (bad : A -> bool)
    (xs : list A) :
  (forall x, bad x = false -> f x = Normal (g x)) ->
  (forall x, bad x = true -> f x = Throw TypeError) ->
  mapC f xs = if existsb bad xs then Throw TypeError else Normal (map g xs).
Proof.
  intros Hgood Hbad. induction xs as [|x xs IH]; [reflexivity|].
  cbn [mapC existsb map]. destruct (bad x) eqn:E.
  - rewrite (Hbad x E). reflexivity.
  - rewrite (Hgood x E), IH. cbn. destruct (existsb bad xs); reflexivity.
Qed.

Lemma getFilterInfos_array (filterInfo : JsValue) (filters : list JsValue) :
  getOpt filterInfo "filterList" = JArray filters ->
  getFilterInfos filterInfo =
  if existsb Auxiliary.isNullish filters
  then Throw TypeError
  else Normal (map (fun f => {| filterName := get f "filterName";
                                filterCode := get f "filterCode";
                                filterPercentage := parseNullableInt (get f "filterPer") |})
                   filters).
Proof.
  intros H. unfold getFilterInfos. rewrite H.
  apply mapC_all; intros f Hf; destruct f; try discriminate Hf; reflexivity.
Qed.

(** X7. [getFilterInfos] on any response: a response that is null or
    undefined, or whose [filterList] is not an array, gives the empty list;
    an array gives one entry per element, in order, each read off the
    element's three members (a missing member reads as undefined, a missing
    percentage as 0); and an array holding a null or undefined element
    makes the call throw a TypeError. *)
Theorem filter_list_parse (filterInfo : JsValue) :
  (Auxiliary.isNullish filterInfo = true -> getFilterInfos filterInfo = Normal []) /\
  match getOpt filterInfo "filterList" with
  | JArray filters =>
      getFilterInfos filterInfo =
      if existsb Auxiliary.isNullish filters
      then Throw TypeError
      else Normal (map (fun f => {| filterName := get f "filterName";
                                    filterCode := get f "filterCode";
                                    filterPercentage := parseNullableInt (get f "filterPer") |})
                       filters)
  | _ => getFilterInfos filterInfo = Normal []
  end.
Proof.
  split.
  - destruct filterInfo; try discriminate; reflexivity.
  - destruct (getOpt filterInfo "filterList") as [| | | | |filters|] eqn:E;
      try (unfold getFilterInfos; rewrite E; reflexivity).
    apply getFilterInfos_array, E.
Qed.

(** X8. A connected refresh whose filter list holds a null or undefined
    entry throws a TypeError before anything is stored: the accessory is
    what the base class's refresh left, the indoor air quality and control
    info of the same poll are not taken over, and no characteristic is
    updated. *)
Theorem refresh_null_filter_entry
    (super_refresh : MarvelAirPurifier.AccessoryResponses -> MarvelAirPurifier.Accessory
                     -> MarvelAirPurifier.Accessory)
    (responses : MarvelAirPurifier.AccessoryResponses) (this : MarvelAirPurifier.Accessory)
    (filters : list JsValue) :
  isConnected (super_refresh responses this) = true ->
  getOpt (lookup EndpointPath_AIR_DEVICES_FILTER_INFO responses) "filterList" = JArray filters ->
  existsb Auxiliary.isNullish filters = true ->
  refresh super_refresh responses this
  = (super_refresh responses this, [], Throw TypeError).
Proof.
  intros Hconn Hlist Hnull. unfold refresh. rewrite Hconn. cbn [negb].
  rewrite (getFilterInfos_array _ _ Hlist), Hnull. reflexivity.
Qed.

Lemma setOptionalCharacteristic_number (c : Characteristic) (s : Service) (n : number) :
  n <> NaN ->
  setOptionalCharacteristic c s (Some n)
  = [ {| service := s; characteristic := c; newValue := CNumber n |} ].
Proof.
  intros H. unfold setOptionalCharacteristic, isNotNull.
  destruct n; [contradiction| |]; reflexivity.
Qed.

(** X9. A connected refresh whose filter list parses completes and pushes
    all twelve characteristics, in the order of the source: the optional
    ones (brightness, the three densities, humidity, temperature) are never
    skipped, since the parsers behind them never produce NaN or undefined,
    whatever the control and status responses hold. The device info is
    kept, the filter infos are the parsed ones. *)
Theorem connected_refresh_pushes_all
    (super_refresh : MarvelAirPurifier.AccessoryResponses -> MarvelAirPurifier.Accessory
                     -> MarvelAirPurifier.Accessory)
    (responses : MarvelAirPurifier.AccessoryResponses) (this : MarvelAirPurifier.Accessory)
    (infos : list FilterInfo) :
  isConnected (super_refresh responses this) = true ->
  getFilterInfos (lookup EndpointPath_AIR_DEVICES_FILTER_INFO responses) = Normal infos ->
  let '(after, updates, completion) := refresh super_refresh responses this in
  completion = Normal tt /\
  map (fun u => (service u, characteristic u)) updates
  = [ (AirPurifier, Active); (AirPurifier, CurrentAirPurifierState);
      (AirPurifier, TargetAirPurifierState); (AirPurifier, RotationSpeed);
      (Lightbulb, On); (Lightbulb, Brightness);
      (AirQualitySensor, AirQuality); (AirQualitySensor, PM10Density);
      (AirQualitySensor, PM2_5Density); (AirQualitySensor, VOCDensity);
      (HumiditySensor, CurrentRelativeHumidity); (TemperatureSensor, CurrentTemperature) ] /\
  filterInfos (platformContext after) = infos /\
  deviceInfo (platformContext after) = deviceInfo (platformContext (super_refresh responses this)).
Proof.
  intros Hconn Hfilters. unfold refresh. rewrite Hconn, Hfilters. cbn [negb].
  split; [reflexivity|]. split; [|split; reflexivity].
  unfold refreshUpdates.
  set (status := lookup EndpointPath_AIR_DEVICES_HOME responses).
  set (control := lookup EndpointPath_DEVICES_CONTROL responses).
  cbn [indoorAirQuality controlInfo].
  assert (Hb : exists z, getLightbulbBrightnessPercentage
                 {| deviceInfo := deviceInfo (platformContext (super_refresh responses this));
                    filterInfos := infos;
                    indoorAirQuality := getIndoorAirQuality status;
                    controlInfo := getControlInfo control |}
               = Some (Num z)).
  { unfold getLightbulbBrightnessPercentage. cbn [controlInfo].
    unfold getControlInfo. destruct (negb (truthy (getOpt control "controlStatus")));
      cbn [lightbulbInfo brightness].
    - eexists. reflexivity.
    - destruct (parseNullableInt_integer
                  (get (getOpt control "controlStatus") Field_LIGHT_BRIGHTNESS)) as [z ->].
      eexists. reflexivity. }
  destruct Hb as [z ->].
  rewrite (setOptionalCharacteristic_number Brightness Lightbulb (Num z)) by discriminate.
  unfold getIndoorAirQuality.
  destruct (negb (truthy (getOpt status "IAQ")));
    cbn [pm10Density pm25Density vocDensity humidity temperature];
    rewrite !setOptionalCharacteristic_number
      by (try discriminate; apply parseNullableFloat_number);
    reflexivity.
Qed.

End Polled.

(** ** Driving mode *)

Section Driving.
Context {RT : Runtime} {EN : Enumerations}.

(** X10. A control response that is null or undefined, or carries no
    [controlStatus], makes the device read as switched off everywhere: the
    Active, On and Brightness getters, the current state and the air
    quality give their off values, the driving strategy reads AUTO and the
    rotation speed 0; and with such a context the target-state handler
    sends nothing whatever it is asked, switching off power or light is
    suppressed as a repetition, and so is any rotation speed written while
    characteristics are being refreshed. *)
Theorem missing_control_status_reads_off (response : JsValue)
    (ctx : MarvelAirPurifierInterface) :
  truthy (getOpt response "controlStatus") = false ->
  controlInfo ctx = getControlInfo response ->
  activeGet ctx = Active_INACTIVE /\
  lightbulbOnGet ctx = false /\
  lightbulbBrightnessGet ctx = ofZ 0 /\
  getCurrentAirPurifierState ctx = CurrentAirPurifierState_INACTIVE /\
  getPurifierDrivingStrategy ctx = TargetAirPurifierState_AUTO /\
  getRotationSpeed ctx = ofZ 0 /\
  getCurrentAirQuality ctx = AirQuality_UNKNOWN /\
  (forall v, targetAirPurifierStateSet ctx v = done ctx []) /\
  activeSet ctx (JBool false) = done ctx [] /\
  lightbulbOnSet ctx (JBool false) = done ctx [] /\
  (forall v, rotationSpeedSet true ctx v = done ctx []).
Proof.
  intros Hstatus Hctx.
  unfold getControlInfo in Hctx. rewrite Hstatus in Hctx. cbn [negb] in Hctx.
  unfold activeGet, lightbulbOnGet, lightbulbBrightnessGet, getCurrentAirPurifierState,
    getPurifierDrivingStrategy, getRotationSpeed, getCurrentAirQuality,
    targetAirPurifierStateSet, activeSet, lightbulbOnSet, rotationSpeedSet.
  rewrite Hctx. cbn [on mode fanSpeed lightbulbInfo light_on negb orb andb strictEqString truthy Bool.eqb].
  rewrite !String.eqb_refl.
  repeat split; reflexivity.
Qed.

(** X11. The TargetAirPurifierState SET handler, for every context and
    value: it makes at most one vendor call, of a single command; it
    reports either success or INVALID ROTATION SPEED, the latter only when
    the current rotation speed has no command; when it sends nothing the
    context is untouched; with the device off or the fan shut down it does
    nothing at all; and it never touches the stored power or light state
    and schedules no characteristic update. *)
Theorem targetAirPurifierStateSet_outcomes (ctx : MarvelAirPurifierInterface) (v : JsValue) :
  let o := targetAirPurifierStateSet ctx v in
  (sent o = [] \/ exists c, sent o = [[c]]) /\
  (callback o = None \/
   callback o = Some "INVALID ROTATION SPEED" /\
   createCommandFromRotationSpeed (getRotationSpeed ctx) = None) /\
  (sent o = [] -> context o = ctx) /\
  (on (controlInfo ctx) = false \/
   strictEqString (fanSpeed (controlInfo ctx)) FanSpeed_SHUTDOWN = true -> o = done ctx []) /\
  on (controlInfo (context o)) = on (controlInfo ctx) /\
  lightbulbInfo (controlInfo (context o)) = lightbulbInfo (controlInfo ctx) /\
  deferred o = [].
Proof.
  unfold targetAirPurifierStateSet, driveAutomatically, driveManually, executeRotationCommand.
  destruct (on (controlInfo ctx)) eqn:Hon; cbn [negb orb].
  2: { repeat split; auto. }
  destruct (strictEqString (fanSpeed (controlInfo ctx)) FanSpeed_SHUTDOWN) eqn:Hfan.
  { repeat split; auto. }
  assert (Hno : true = false \/ false = true -> forall o : Outcome, o = done ctx [])
    by (intros [H|H]; discriminate).
  assert (Hone : forall c : PayloadCommand, [[c]] = [] \/ exists c', [[c]] = [[c']])
    by (intros c; right; exists c; reflexivity).
  destruct (Bool.eqb _ _).
  { repeat split; auto. }
  match goal with |- context [if ?b then _ else _] => destruct b end.
  - cbn. rewrite Hon. repeat split; eauto; try discriminate;
      first [apply Hone | intros H; apply Hno, H].
  - destruct (createCommandFromRotationSpeed (getRotationSpeed ctx)) as [command|] eqn:Hc.
    + cbn [negb].
      destruct (key command =? Field_MODE)%string;
        [|destruct (key command =? Field_FAN_SPEED)%string];
        cbn; rewrite ?Hon; repeat split; eauto; try discriminate;
        first [apply Hone | intros H; apply Hno, H].
    + cbn. rewrite Hon. repeat split; auto; intros H; apply Hno, H.
Qed.

(** X12. Asking a running purifier in a manual mode for AUTO sends the
    single command mode = auto-driving and stores that mode, so that the
    driving strategy then reads AUTO and asking for AUTO again sends
    nothing. *)
Theorem switch_to_auto_is_idempotent (ctx : MarvelAirPurifierInterface) :
  on (controlInfo ctx) = true ->
  strictEqString (fanSpeed (controlInfo ctx)) FanSpeed_SHUTDOWN = false ->
  strictEqString (mode (controlInfo ctx)) Mode_AUTO_DRIVING = false ->
  let o := targetAirPurifierStateSet ctx (JNumber TargetAirPurifierState_AUTO) in
  sent o = [[ {| key := Field_MODE; value := Mode_AUTO_DRIVING |} ]] /\
  callback o = None /\
  getPurifierDrivingStrategy (context o) = TargetAirPurifierState_AUTO /\
  targetAirPurifierStateSet (context o) (JNumber TargetAirPurifierState_AUTO)
  = done (context o) [].
Proof.
  intros Hon Hfan Hmode.
  unfold targetAirPurifierStateSet at 1. rewrite Hon, Hfan, Hmode.
  cbn [negb orb]. change (eqb TargetAirPurifierState_AUTO TargetAirPurifierState_AUTO) with true.
  cbn [Bool.eqb]. unfold driveAutomatically. cbn zeta. cbn [done sent callback context].
  split; [reflexivity|]. split; [reflexivity|]. split.
  - unfold getPurifierDrivingStrategy. cbn. rewrite String.eqb_refl. reflexivity.
  - unfold targetAirPurifierStateSet. cbn. rewrite Hon, Hfan, String.eqb_refl. reflexivity.
Qed.

(** X13. Asking a running purifier in auto-driving mode for MANUAL while
    its fan speed is at level 2, 3 or 4 sends one fan-speed command and
    stores that fan speed, but not a mode: the stored mode is still
    auto-driving and the driving strategy still reads AUTO (until a poll
    replaces the context). The two field keys are assumed distinct. *)
Theorem switch_to_manual_at_fan_level (ctx : MarvelAirPurifierInterface) (l : Z) :
  Field_MODE <> Field_FAN_SPEED ->
  on (controlInfo ctx) = true ->
  strictEqString (mode (controlInfo ctx)) Mode_AUTO_DRIVING = true ->
  getRotationSpeed ctx = ofZ l -> 2 <= l <= 4 ->
  let o := targetAirPurifierStateSet ctx (JNumber TargetAirPurifierState_MANUAL) in
  (exists speed, sent o = [[ {| key := Field_FAN_SPEED; value := speed |} ]] /\
                 fanSpeed (controlInfo (context o)) = JString speed) /\
  callback o = None /\
  mode (controlInfo (context o)) = mode (controlInfo ctx) /\
  getPurifierDrivingStrategy (context o) = TargetAirPurifierState_AUTO.
Proof.
  intros Hkeys Hon Hmode Hl Hrange.
  assert (Hfan : strictEqString (fanSpeed (controlInfo ctx)) FanSpeed_SHUTDOWN = false).
  { destruct (strictEqString (fanSpeed (controlInfo ctx)) FanSpeed_SHUTDOWN) eqn:E; [|reflexivity].
    unfold getRotationSpeed in Hl. rewrite E in Hl. injection Hl as Hl. lia. }
  assert (Hneq : (Field_FAN_SPEED =? Field_MODE)%string = false).
  { apply String.eqb_neq. intros H. apply Hkeys. symmetry. exact H. }
  unfold targetAirPurifierStateSet. rewrite Hon, Hfan, Hmode. cbn [negb orb].
  change (eqb TargetAirPurifierState_MANUAL TargetAirPurifierState_AUTO) with false.
  cbn [Bool.eqb]. unfold driveManually. rewrite Hl.
  unfold createCommandFromRotationSpeed. rewrite !eqb_ofZ.
  assert (Hcases : l = 2 \/ l = 3 \/ l = 4) by lia.
  destruct Hcases as [-> | [-> | ->]]; cbn [Z.eqb Pos.eqb];
    unfold executeRotationCommand; cbn [key value]; rewrite Hneq, String.eqb_refl;
    cbn [negb done sent callback context];
    (split; [eexists; split; reflexivity|]); (split; [reflexivity|]); (split; [reflexivity|]);
    unfold getPurifierDrivingStrategy; cbn [set_fanSpeed with_controlInfo controlInfo mode];
    rewrite Hmode; reflexivity.
Qed.

End Driving.

Lemma refresh_null_filter_entry_witness :
  refresh (RT := Fixture.runtime) (EN := Fixture.enumerations)
    Fixture.connectivityFromControl Fixture.pollWithNullFilter Fixture.accessory
  = (Fixture.connectivityFromControl Fixture.pollWithNullFilter Fixture.accessory,
     [], Throw TypeError).
Proof.
  apply (refresh_null_filter_entry (RT := Fixture.runtime) (EN := Fixture.enumerations)
           Fixture.connectivityFromControl Fixture.pollWithNullFilter Fixture.accessory
           [JObject [("filterName", JString "Max2"); ("filterPer", JString "80")]; JNull]);
    reflexivity.
Defined.

Lemma connected_refresh_pushes_all_witness :
  snd (refresh (RT := Fixture.runtime) (EN := Fixture.enumerations)
         Fixture.connectivityFromControl (Fixture.pollResult true) Fixture.accessory)
  = Normal tt.
Proof.
  pose proof (connected_refresh_pushes_all (RT := Fixture.runtime) (EN := Fixture.enumerations)
                Fixture.connectivityFromControl (Fixture.pollResult true) Fixture.accessory
                [ {| filterName := JString "Max2"; filterCode := JString "3111735";
                     filterPercentage := ofZ 80 |} ]
                eq_refl eq_refl) as H.
  destruct (refresh (RT := Fixture.runtime) (EN := Fixture.enumerations)
              Fixture.connectivityFromControl (Fixture.pollResult true) Fixture.accessory)
    as [[after updates] completion].
  exact (proj1 H).
Defined.

Lemma missing_control_status_reads_off_witness :
  activeGet (with_controlInfo Fixture.onManual
               (getControlInfo (RT := Fixture.runtime) (EN := Fixture.enumerations)
                  Fixture.controlWithoutStatus))
  = Active_INACTIVE.
Proof.
  exact (proj1 (missing_control_status_reads_off (RT := Fixture.runtime)
                  (EN := Fixture.enumerations) Fixture.controlWithoutStatus
                  (with_controlInfo Fixture.onManual
                     (getControlInfo (RT := Fixture.runtime) (EN := Fixture.enumerations)
                        Fixture.controlWithoutStatus))
                  eq_refl eq_refl)).
Defined.

Lemma switch_to_auto_is_idempotent_witness :
  sent (targetAirPurifierStateSet (EN := Fixture.enumerations)
          Fixture.onManual (JNumber TargetAirPurifierState_AUTO))
  = [[ {| key := "0002"; value := "1" |} ]].
Proof.
  exact (proj1 (switch_to_auto_is_idempotent (EN := Fixture.enumerations) Fixture.onManual eq_refl eq_refl eq_refl)).
Defined.

Lemma switch_to_manual_at_fan_level_witness :
  getPurifierDrivingStrategy (EN := Fixture.enumerations)
    (context (targetAirPurifierStateSet (EN := Fixture.enumerations)
                Fixture.onAuto (JNumber TargetAirPurifierState_MANUAL)))
  = TargetAirPurifierState_AUTO.
Proof.
  apply (switch_to_manual_at_fan_level (EN := Fixture.enumerations)
           Fixture.onAuto 2);
    [discriminate | reflexivity | reflexivity | reflexivity | lia].
Defined.

(** ** Splitting text *)

Lemma append_empty (s : string) : (s ++ "")%string = s.
Proof. induction s as [|c s IH]; simpl; [reflexivity|rewrite IH; reflexivity]. Qed.

Lemma append_associative (a b c : string) : ((a ++ b) ++ c)%string = (a ++ b ++ c)%string.
Proof. induction a as [|x a IH]; simpl; [reflexivity|rewrite IH; reflexivity]. Qed.

Lemma prefix_one (c x : ascii) (r : string) :
  prefix (String c "") (String x r) = (x =? c)%char.
Proof.
  simpl. destruct (ascii_dec c x) as [->|Hne].
  - rewrite Ascii.eqb_refl. destruct r; reflexivity.
  - symmetry. apply Ascii.eqb_neq. intros H. apply Hne. symmetry. exact H.
Qed.

Lemma split_aux_free (c : ascii) (s cur : string) :
  Auxiliary.free c s = true -> split_aux (String c "") s 0 cur = [(cur ++ s)%string].
Proof.
  revert cur. induction s as [|x s IH]; intros cur H.
  - simpl. rewrite append_empty. reflexivity.
  - cbn [Auxiliary.free] in H. apply andb_true_iff in H. destruct H as [Hx Hs].
    cbn [split_aux]. rewrite prefix_one.
    apply negb_true_iff in Hx. rewrite Hx.
    rewrite (IH _ Hs), append_associative. reflexivity.
Qed.

Lemma split_aux_at (c : ascii) (a b cur : string) :
  Auxiliary.free c a = true ->
  split_aux (String c "") (a ++ String c b) 0 cur
  = (cur ++ a)%string :: split_aux (String c "") b 0 "".
Proof.
  revert cur. induction a as [|x a IH]; intros cur H.
  - cbn [append split_aux]. rewrite prefix_one, Ascii.eqb_refl, append_empty. reflexivity.
  - cbn [Auxiliary.free] in H. apply andb_true_iff in H. destruct H as [Hx Ha].
    cbn [append split_aux]. rewrite prefix_one.
    apply negb_true_iff in Hx. rewrite Hx.
    rewrite (IH _ Ha), append_associative. reflexivity.
Qed.

Lemma split_free (c : ascii) (s : string) :
  Auxiliary.free c s = true -> split (String c "") s = [s].
Proof. intros H. unfold split. rewrite split_aux_free by exact H. reflexivity. Qed.

Lemma split_at (c : ascii) (a b : string) :
  Auxiliary.free c a = true ->
  split (String c "") (a ++ String c b) = a :: split (String c "") b.
Proof. intros H. unfold split. rewrite split_aux_at by exact H. reflexivity. Qed.

(** ** The gateway *)

Section Gateway.
Context {RT : Runtime} {EN : Enumerations}.

Variable vendor : Request -> option JsValue.
Variable now : Z.

Lemma gateway_fuel (fuel : nat) (urlKey_ : string) (httpMethod_ : HttpMethod)
    (body_ : JsValue) (accessToken_ : option AccessToken) :
  executeIoCarePayload vendor now (S (S fuel)) urlKey_ httpMethod_ body_ accessToken_
  = executeIoCarePayload vendor now 2 urlKey_ httpMethod_ body_ accessToken_.
Proof.
  cbn [executeIoCarePayload]. rewrite !String.eqb_refl, !andb_false_r. reflexivity.
Qed.

Lemma gateway_requests (urlKey_ : string) (httpMethod_ : HttpMethod)
    (body_ : JsValue) (accessToken_ : option AccessToken) :
  exists x,
    executeIoCarePayload vendor now 2 urlKey_ httpMethod_ body_ accessToken_ = Some x /\
    ((requests x = [] /\ exists e, result x = Throw e) \/
     (exists t, requests x = [requestOf urlKey_ httpMethod_ body_ t]) \/
     (exists t b, requests x = [requestOf IoCareEndpoint_REFRESH_TOKEN POST b t] /\
                  exists e, result x = Throw e) \/
     (exists t b t', requests x = [requestOf IoCareEndpoint_REFRESH_TOKEN POST b t;
                                   requestOf urlKey_ httpMethod_ body_ t'])).
Proof.
  cbn [executeIoCarePayload]. rewrite !String.eqb_refl, !andb_false_r.
  set (tok := match accessToken_ with
              | Some t => t
              | None => {| accessToken := JString ""; refreshToken := JString "" |}
              end).
  unfold send.
  destruct (truthy (accessToken tok) && negb (urlKey_ =? IoCareEndpoint_REFRESH_TOKEN)%string).
  - destruct (expiryOf (accessToken tok)) as [expire|e].
    + destruct (lt (ToNumber expire) (Num (inject_Z now / 1000))).
      * destruct (vendor (requestOf IoCareEndpoint_REFRESH_TOKEN POST
                            (JObject [("refreshToken", refreshToken tok)]) tok)) as [reply|];
          cbn [result requests token bindC].
        -- destruct (getProp reply "data") as [pair|e]; cbn [bindC].
           ++ destruct (getProp pair "accessToken") as [newAccess|e].
              ** destruct (getProp pair "refreshToken") as [newRefresh|e].
                 --- destruct (vendor _); eexists; (split; [reflexivity|]);
                       right; right; right; cbn [requests app]; do 3 eexists; reflexivity.
                 --- eexists; (split; [reflexivity|]).
                     right; right; left; cbn [requests result];
                     do 2 eexists; split; [reflexivity | eexists; reflexivity].
              ** eexists; (split; [reflexivity|]).
                 right; right; left; cbn [requests result];
                     do 2 eexists; split; [reflexivity | eexists; reflexivity].
           ++ eexists; (split; [reflexivity|]).
              right; right; left; cbn [requests result];
                     do 2 eexists; split; [reflexivity | eexists; reflexivity].
        -- eexists; (split; [reflexivity|]).
           right; right; left; cbn [requests result];
                     do 2 eexists; split; [reflexivity | eexists; reflexivity].
      * destruct (vendor _); eexists; (split; [reflexivity|]);
          right; left; cbn [requests app]; eexists; reflexivity.
    + eexists; (split; [reflexivity|]). left. cbn [requests result]. split; [reflexivity | eexists; reflexivity].
  - destruct (vendor _); eexists; (split; [reflexivity|]);
      right; left; cbn [requests app]; eexists; reflexivity.
Qed.

End Gateway.

Section GatewayUse.
Context {RT : Runtime} {EN : Enumerations}.

Variable vendor : Request -> option JsValue.
Variable now : Z.

(** X14. Every call of the gateway, with or without a token and for every
    endpoint, completes within one level of self-call and makes at most
    two requests: at most one of them is not the token refresh, each is
    either the refresh or the request that was asked for, and a call that
    makes no request at all has thrown. *)
Theorem gateway_makes_at_most_two_requests (fuel : nat) (urlKey_ : string)
    (httpMethod_ : HttpMethod) (body_ : JsValue) (accessToken_ : option AccessToken) :
  exists x,
    executeIoCarePayload vendor now (S (S fuel)) urlKey_ httpMethod_ body_ accessToken_
    = Some x /\
    (length (requests x) <= 2)%nat /\
    (length (filter (fun r => negb (isRefreshCall r)) (requests x)) <= 1)%nat /\
    (forall r, In r (requests x) ->
       isRefreshCall r = true \/ exists t, r = requestOf urlKey_ httpMethod_ body_ t) /\
    (requests x = [] -> exists e, result x = Throw e).
Proof.
  rewrite gateway_fuel.
  destruct (gateway_requests vendor now urlKey_ httpMethod_ body_ accessToken_)
    as [x [Hx Hshape]].
  exists x. split; [exact Hx|].
  destruct Hshape as [[Hr He] | [[t Hr] | [(t & b & Hr & He) | (t & b & t' & Hr)]]];
    rewrite Hr; cbn [length filter]; rewrite ?refresh_is_refresh; cbn [negb length].
  - repeat split; try lia; [intros r []|]. intros _. exact He.
  - repeat split; try lia.
    + destruct (negb _); cbn [length]; lia.
    + intros r [<-|[]]. right. exists t. reflexivity.
    + discriminate.
  - repeat split; try lia.
    + intros r [<-|[]]. left. apply refresh_is_refresh.
    + discriminate.
  - repeat split; try lia.
    + destruct (negb _); cbn [length]; lia.
    + intros r [<-|[<-|[]]]; [left; apply refresh_is_refresh|right; exists t'; reflexivity].
    + discriminate.
Qed.

(** X15. A call that carries an access token whose expiry cannot be read
    throws before any request is made, and [executeSetPayloads] turns that
    into an undefined result: the commands are dropped without a request
    and without an error. A token without a dot, or one that is not text,
    is such a token. *)
Theorem unreadable_token_sends_nothing (fuel : nat) (urlKey_ : string)
    (httpMethod_ : HttpMethod) (body_ : JsValue) (tok : AccessToken) (e : JsError)
    (deviceInfo : Device) (inputs : list PayloadCommand) :
  truthy (accessToken tok) = true ->
  expiryOf (accessToken tok) = Throw e ->
  (urlKey_ <> IoCareEndpoint_REFRESH_TOKEN ->
   executeIoCarePayload vendor now (S fuel) urlKey_ httpMethod_ body_ (Some tok)
   = Some {| result := Throw e; requests := []; token := Some tok |}) /\
  (IoCareEndpoint_CONTROL_DEVICE <> IoCareEndpoint_REFRESH_TOKEN ->
   executeSetPayloads vendor now (S fuel) deviceInfo inputs (Some tok)
   = Some {| result := Normal JUndefined; requests := []; token := Some tok |}) /\
  (forall t, Auxiliary.free "." t = true -> expiryOf (JString t) = Throw TypeError) /\
  (forall v, (forall t, v <> JString t) -> expiryOf v = Throw TypeError).
Proof.
  intros Htruthy Hexp.
  assert (Hcall : forall k m b, k <> IoCareEndpoint_REFRESH_TOKEN ->
            executeIoCarePayload vendor now (S fuel) k m b (Some tok)
            = Some {| result := Throw e; requests := []; token := Some tok |}).
  { intros k m b Hk. cbn [executeIoCarePayload]. rewrite Htruthy, Hexp.
    apply String.eqb_neq in Hk. rewrite Hk. reflexivity. }
  split; [apply Hcall|]. split; [|split].
  - intros Hk. unfold executeSetPayloads, executeIoCarePostPayload.
    rewrite (Hcall _ _ _ Hk). reflexivity.
  - intros t Ht. unfold expiryOf. rewrite (split_free "." t Ht). reflexivity.
  - intros v Hv. destruct v; try reflexivity. exfalso. apply (Hv s). reflexivity.
Qed.

(** X16. [executeSetPayloads] never throws: whatever the token, the
    vendor and the commands, it completes (within one level of self-call)
    with a value, makes at most two requests, and every request it makes
    other than a token refresh carries the device's barcode and type and
    the whole batch, one entry per command in the order given. *)
Theorem executeSetPayloads_never_throws (fuel : nat) (deviceInfo : Device)
    (inputs : list PayloadCommand) (accessToken_ : option AccessToken) :
  exists x v,
    executeSetPayloads vendor now (S (S fuel)) deviceInfo inputs accessToken_ = Some x /\
    result x = Normal v /\
    (length (requests x) <= 2)%nat /\
    forall r, In r (requests x) -> isRefreshCall r = false ->
      body r = JObject [("devId", barcode deviceInfo);
                        ("funcList",
                         JArray (map (fun c => JObject [("funcId", JString (key c));
                                                        ("cmdVal", JString (value c))])
                                     inputs));
                        ("dvcTypeCd", dvcTypeCd deviceInfo);
                        ("isMultiControl", JBool false)].
Proof.
  unfold executeSetPayloads, executeIoCarePostPayload. rewrite gateway_fuel.
  match goal with
  | |- context [executeIoCarePayload vendor now 2 ?k ?m ?b ?a] =>
      destruct (gateway_requests vendor now k m b a) as [x [Hx Hshape]]
  end.
  rewrite Hx.
  eexists. exists (match result x with Normal v => v | Throw _ => JUndefined end).
  split; [reflexivity|]. cbn [result requests].
  split; [destruct (result x); reflexivity|].
  destruct Hshape as [[Hr He] | [[t Hr] | [(t & b & Hr & He) | (t & b & t' & Hr)]]];
    rewrite Hr; cbn [length]; (split; [lia|]).
  - intros r [].
  - intros r [<-|[]] _. reflexivity.
  - intros r [<-|[]] H. rewrite refresh_is_refresh in H. discriminate.
  - intros r [<-|[<-|[]]] H; [rewrite refresh_is_refresh in H; discriminate|reflexivity].
Qed.

(** X17. [getAccessTokens] makes exactly one request, a POST of the
    authorization code and redirect URL without an Authorization header.
    When the vendor gives no response, or one that is null or undefined or
    has no [data], the call throws a TypeError; otherwise it returns the
    two members of [data] as they are, undefined included. *)
Theorem getAccessTokens_exchange (fuel : nat) (endpoint redirectUrl : string)
    (authenticationCode : JsValue) :
  let r := requestOf endpoint POST
             (JObject [("authCode", authenticationCode); ("redirectUrl", JString redirectUrl)])
             {| accessToken := JString ""; refreshToken := JString "" |} in
  authorization r = None /\
  exists completion,
    getAccessTokens vendor now (S fuel) endpoint redirectUrl authenticationCode
    = Some (completion, [r]) /\
    (vendor r = None -> completion = Throw TypeError) /\
    (forall reply, vendor r = Some reply ->
       completion =
       if Auxiliary.isNullish reply || Auxiliary.isNullish (get reply "data")
       then Throw TypeError
       else Normal {| accessToken := get (get reply "data") "accessToken";
                      refreshToken := get (get reply "data") "refreshToken" |}).
Proof.
  intros r. split; [reflexivity|].
  unfold getAccessTokens, executeIoCarePostPayload.
  cbn [executeIoCarePayload truthy String.eqb negb andb]. unfold send. fold r.
  destruct (vendor r) as [reply|]; cbn [result requests app].
  - eexists. split; [reflexivity|]. split; [discriminate|].
    intros reply' [= <-].
    cbn [result].
    destruct reply; cbn [getProp bindC Auxiliary.isNullish orb]; try reflexivity;
      match goal with
      | |- context [get ?v "data"] => destruct (get v "data"); reflexivity
      end.
  - eexists. split; [reflexivity|]. split; [reflexivity|discriminate].
Qed.

End GatewayUse.

Lemma unreadable_token_sends_nothing_witness :
  executeIoCarePayload (RT := Fixture.runtime) (EN := Fixture.enumerations)
    Fixture.vendor 0 1
    (IoCareEndpoint_CONTROL_DEVICE (Enumerations := Fixture.enumerations)) POST JNull
    (Some {| accessToken := JString "opaque"; refreshToken := JString "r" |})
  = Some {| result := Throw TypeError; requests := [];
            token := Some {| accessToken := JString "opaque"; refreshToken := JString "r" |} |}.
Proof.
  apply (proj1 (unreadable_token_sends_nothing (RT := Fixture.runtime)
                  (EN := Fixture.enumerations) Fixture.vendor 0 0%nat
                  (IoCareEndpoint_CONTROL_DEVICE (Enumerations := Fixture.enumerations))
                  POST JNull {| accessToken := JString "opaque"; refreshToken := JString "r" |}
                  TypeError Fixture.device [] eq_refl eq_refl)).
  discriminate.
Defined.

(** ** The final redirect *)

Lemma free_append (c : ascii) (a b : string) :
  Auxiliary.free c (a ++ b) = Auxiliary.free c a && Auxiliary.free c b.
Proof.
  induction a as [|x a IH]; [reflexivity|].
  cbn [append Auxiliary.free]. rewrite IH, andb_assoc. reflexivity.
Qed.

Lemma plain_free (s : string) :
  Auxiliary.plain s = true ->
  Auxiliary.free "?" s = true /\ Auxiliary.free "&" s = true /\ Auxiliary.free "=" s = true.
Proof.
  unfold Auxiliary.plain. intros H.
  apply andb_true_iff in H. destruct H as [H H3].
  apply andb_true_iff in H. destruct H as [H1 H2]. auto.
Qed.

Lemma pair_free (c : ascii) (k v : string) :
  c <> "="%char -> Auxiliary.free c k = true -> Auxiliary.free c v = true ->
  Auxiliary.free c (k ++ "=" ++ v) = true.
Proof.
  intros Hc Hk Hv. rewrite free_append, Hk. cbn [append Auxiliary.free]. rewrite Hv.
  apply Ascii.eqb_neq in Hc. rewrite Ascii.eqb_sym, Hc. reflexivity.
Qed.

Lemma queryString_free (pairs : list (string * string)) :
  Forall (fun kv => Auxiliary.plain (fst kv) = true /\ Auxiliary.plain (snd kv) = true) pairs ->
  Auxiliary.free "?" (Auxiliary.queryString pairs) = true.
Proof.
  induction 1 as [|[k v] rest [Hk Hv] _ IH]; [reflexivity|].
  apply plain_free in Hk. apply plain_free in Hv. cbn [fst snd] in *.
  destruct Hk as (Hk & _ & _). destruct Hv as (Hv & _ & _).
  cbn [Auxiliary.queryString]. destruct rest as [|kv rest].
  - apply pair_free; [discriminate|assumption..].
  - rewrite free_append, Hk. cbn [append Auxiliary.free]. rewrite free_append, Hv.
    cbn [append Auxiliary.free]. rewrite IH. reflexivity.
Qed.

Lemma queryString_pieces (pairs : list (string * string)) :
  pairs <> [] ->
  Forall (fun kv => Auxiliary.plain (fst kv) = true /\ Auxiliary.plain (snd kv) = true) pairs ->
  split "&" (Auxiliary.queryString pairs)
  = map (fun kv => (fst kv ++ "=" ++ snd kv)%string) pairs.
Proof.
  intros Hne H. induction H as [|[k v] rest [Hk Hv] _ IH]; [contradiction|].
  apply plain_free in Hk. apply plain_free in Hv. cbn [fst snd] in *.
  destruct Hk as (_ & Hk & _). destruct Hv as (_ & Hv & _).
  assert (Hkv : Auxiliary.free "&" (k ++ "=" ++ v) = true)
    by (apply pair_free; [discriminate|assumption..]).
  cbn [Auxiliary.queryString map fst snd]. destruct rest as [|kv rest].
  - apply split_free, Hkv.
  - change (k ++ "=" ++ v ++ "&" ++ Auxiliary.queryString (kv :: rest))%string
      with (k ++ String "=" (v ++ String "&" (Auxiliary.queryString (kv :: rest))))%string.
    replace (k ++ String "=" (v ++ String "&" (Auxiliary.queryString (kv :: rest))))%string
      with ((k ++ "=" ++ v) ++ String "&" (Auxiliary.queryString (kv :: rest)))%string
      by (rewrite append_associative; reflexivity).
    rewrite (split_at "&" _ _ Hkv), IH by discriminate. reflexivity.
Qed.

Section Redirect.
Context {EN : Enumerations}.

Lemma collect_pair (dicts : list (string * JsValue)) (k v : string) :
  Auxiliary.free "=" k = true -> Auxiliary.free "=" v = true ->
  collect dicts (k ++ "=" ++ v) = (k, JString v) :: dicts.
Proof.
  intros Hk Hv. unfold collect.
  change (k ++ "=" ++ v)%string with (k ++ String "=" v)%string.
  rewrite (split_at "=" k v Hk), (split_free "=" v Hv). reflexivity.
Qed.

Lemma lookup_collected (key : string) (pairs : list (string * string)) :
  Forall (fun kv => Auxiliary.plain (fst kv) = true /\ Auxiliary.plain (snd kv) = true) pairs ->
  forall acc,
    lookup key (fold_left collect (map (fun kv => (fst kv ++ "=" ++ snd kv)%string) pairs) acc)
    = match Auxiliary.lastValue key pairs with
      | JUndefined => lookup key acc
      | found => found
      end.
Proof.
  induction 1 as [|[k v] rest [Hk Hv] _ IH]; intros acc; [reflexivity|].
  apply plain_free in Hk. apply plain_free in Hv. cbn [fst snd] in *.
  destruct Hk as (_ & _ & Hk). destruct Hv as (_ & _ & Hv).
  cbn [map fold_left fst snd]. rewrite (collect_pair acc k v Hk Hv), IH.
  cbn [Auxiliary.lastValue lookup].
  destruct (Auxiliary.lastValue key rest); try reflexivity.
  destruct (k =? key)%string; reflexivity.
Qed.

(** X18. Reading the authorization code off the final redirect. A path
    without a question mark makes the negotiation throw a TypeError. For a
    path followed by a query of [key=value] pairs joined by ampersands
    (keys and values free of the three separators), the result is the
    value of the last pair whose key is [code], and undefined when there is
    none: a later [code] overrides an earlier one, the other parameters
    and the path do not matter. *)
Theorem redirect_code_is_last_code_parameter :
  (forall path, Auxiliary.free "?" path = true -> codeOfRedirect path = Throw TypeError) /\
  (forall path pairs,
     Auxiliary.free "?" path = true ->
     Forall (fun kv => Auxiliary.plain (fst kv) = true /\ Auxiliary.plain (snd kv) = true)
            pairs ->
     codeOfRedirect (path ++ "?" ++ Auxiliary.queryString pairs)
     = Normal (Auxiliary.lastValue "code" pairs)).
Proof.
  split.
  - intros path H. unfold codeOfRedirect. rewrite (split_free "?" path H). reflexivity.
  - intros path pairs Hpath Hpairs. unfold codeOfRedirect.
    change (path ++ "?" ++ Auxiliary.queryString pairs)%string
      with (path ++ String "?" (Auxiliary.queryString pairs))%string.
    rewrite (split_at "?" _ _ Hpath), (split_free "?" _ (queryString_free pairs Hpairs)).
    destruct pairs as [|kv rest]; [reflexivity|].
    rewrite queryString_pieces by (discriminate || exact Hpairs).
    rewrite (lookup_collected "code" (kv :: rest) Hpairs).
    destruct (Auxiliary.lastValue "code" (kv :: rest)); reflexivity.
Qed.

End Redirect.

Lemma redirect_code_is_last_code_parameter_witness :
  codeOfRedirect "/redirect_bridge.html?code=abc&state=x&code=xyz" = Normal (JString "xyz").
Proof.
  exact (proj2 redirect_code_is_last_code_parameter "/redirect_bridge.html"
           [("code", "abc"); ("state", "x"); ("code", "xyz")] eq_refl
           ltac:(repeat constructor)).
Defined.

(** ** The POSTs of a negotiation *)

Section Posts.
Context {EN : Enumerations}.

(** X19. Whatever the vendor answers, a negotiation posts the form it was
    given exactly once, first: every later POST is the skip-password-change
    form under the cookies of the original session, so the credentials are
    never sent again. It makes at most one POST more than there are
    responses, and it is still waiting for a response exactly when it has
    made that many. *)
Theorem authenticate_posts_credentials_once (responses : list AxiosResponse)
    (request : AuthForm) (session_ : Session) :
  exists later,
    fst (authenticate request session_ responses) = postOf request session_ :: later /\
    Forall (fun p => post_form p = PasswordUpdateRequest /\
                     post_cookie p = cookies session_) later /\
    (length later <= length responses)%nat /\
    (snd (authenticate request session_ responses) = Awaiting <->
     length later = length responses).
Proof.
  revert request session_.
  induction responses as [|response rest IH]; intros request session_.
  - exists []. cbn. repeat split; auto.
  - cbn [authenticate].
    destruct (negb (includes "redirect_bridge.html" (request_path response))).
    + destruct (parseSessionCode response) as [fresh|e].
      * destruct (IH PasswordUpdateRequest {| session := fresh; cookies := cookies session_ |})
          as (later & Hposts & Hforms & Hlen & Hwait).
        destruct (authenticate PasswordUpdateRequest
                    {| session := fresh; cookies := cookies session_ |} rest)
          as [posts outcome].
        cbn [fst snd] in *. subst posts.
        exists (postOf PasswordUpdateRequest {| session := fresh; cookies := cookies session_ |}
                :: later).
        split; [reflexivity|]. split; [|split].
        -- constructor; [split; reflexivity|exact Hforms].
        -- cbn [length]. lia.
        -- cbn [length]. rewrite Hwait. lia.
      * exists []. cbn. repeat split; auto; try lia; discriminate.
    + destruct (codeOfRedirect (request_path response)) as [c|e];
        exists []; cbn; repeat split; auto; try lia; discriminate.
Qed.

End Posts.

(** ** The session code of a login page *)

Lemma prefix_append (p s : string) : prefix p (p ++ s) = true.
Proof.
  induction p as [|c p IH]; [destruct s; reflexivity|].
  cbn [append prefix]. destruct (ascii_dec c c); [exact IH|contradiction].
Qed.

Lemma drop_append (p s : string) : drop (String.length p) (p ++ s) = s.
Proof. induction p as [|c p IH]; [destruct s; reflexivity|exact IH]. Qed.

Lemma lineRest_append (a b : string) :
  Auxiliary.oneLine a = true -> lineRest (a ++ b) = (a ++ lineRest b)%string.
Proof.
  induction a as [|c a IH]; intros H; [reflexivity|].
  cbn [Auxiliary.oneLine] in H. apply andb_true_iff in H. destruct H as [Hc Ha].
  apply negb_true_iff in Hc. cbn [append lineRest]. rewrite Hc, (IH Ha). reflexivity.
Qed.

Lemma includes_tail (needle : string) (c : ascii) (s : string) :
  includes needle (String c s) = false ->
  prefix needle (String c s) = false /\ includes needle s = false.
Proof.
  cbn [includes]. intros H. apply orb_false_iff in H. exact H.
Qed.

Lemma beforeLast_absent (s : string) :
  includes closing s = false -> beforeLast closing s = None.
Proof.
  induction s as [|c s IH]; intros H.
  - reflexivity.
  - apply includes_tail in H. destruct H as [Hhere Hrest].
    cbn [beforeLast]. rewrite (IH Hrest), Hhere. reflexivity.
Qed.

Lemma sessionCodeIn_absent (s : string) :
  includes closing s = false -> sessionCodeIn s = None.
Proof.
  induction s as [|c s IH]; intros H; [reflexivity|].
  pose proof H as H'. apply includes_tail in H'. destruct H' as [_ Hrest].
  cbn [sessionCodeIn]. rewrite (IH Hrest).
  destruct (prefix "?session_code=" (String c s)) eqn:Hp; [|reflexivity].
  apply beforeLast_absent.
  apply prefix_split in Hp. destruct Hp as [r Hr]. rewrite Hr.
  change (includes closing r = false).
  rewrite Hr in H. clear - H.
  repeat (apply includes_tail in H; destruct H as [_ H]). exact H.
Qed.

Lemma beforeLast_found (c r : string) :
  includes closing r = false -> beforeLast closing (c ++ closing ++ r) = Some c.
Proof.
  intros Hr. induction c as [|x c IH].
  - change ("" ++ closing ++ r)%string
      with (String (ascii_of_nat 34) (String " " r)).
    cbn [beforeLast]. rewrite (beforeLast_absent r Hr).
    destruct r; reflexivity.
  - change (String x c ++ closing ++ r)%string with (String x (c ++ closing ++ r)).
    cbn [beforeLast]. rewrite IH. reflexivity.
Qed.

Lemma prefix_other_head (x y : ascii) (p s : string) :
  (x =? y)%char = false -> prefix (String y p) (String x s) = false.
Proof.
  intros H. cbn [prefix]. destruct (ascii_dec y x) as [->|]; [|reflexivity].
  rewrite Ascii.eqb_refl in H. discriminate.
Qed.

Lemma sessionCodeIn_no_query (a r : string) :
  Auxiliary.free "?" a = true -> includes closing r = false ->
  sessionCodeIn (a ++ closing ++ r) = None.
Proof.
  intros Ha Hr. induction a as [|x a IH].
  - change ("" ++ closing ++ r)%string
      with (String (ascii_of_nat 34) (String " " r)).
    cbn [sessionCodeIn]. rewrite (sessionCodeIn_absent r Hr). reflexivity.
  - cbn [Auxiliary.free] in Ha. apply andb_true_iff in Ha. destruct Ha as [Hx Ha].
    apply negb_true_iff in Hx.
    change (String x a ++ closing ++ r)%string with (String x (a ++ closing ++ r)).
    cbn [sessionCodeIn]. rewrite (IH Ha).
    rewrite (prefix_other_head x "?" _ _ Hx). reflexivity.
Qed.

Lemma sessionCodeIn_found (host c r : string) :
  Auxiliary.free "?" c = true -> includes closing r = false ->
  sessionCodeIn (host ++ "?session_code=" ++ c ++ closing ++ r) = Some c.
Proof.
  intros Hc Hr. induction host as [|x host IH].
  - change ("" ++ "?session_code=" ++ c ++ closing ++ r)%string
      with (String "?" (("session_code=" ++ c) ++ closing ++ r)).
    cbn [sessionCodeIn].
    rewrite sessionCodeIn_no_query
      by (try exact Hr; rewrite free_append, Hc; reflexivity).
    change (prefix "?session_code=" (String "?" (("session_code=" ++ c) ++ closing ++ r)))
      with (prefix "" (c ++ closing ++ r)).
    change (drop 14 (String "?" (("session_code=" ++ c) ++ closing ++ r)))
      with (c ++ closing ++ r)%string.
    rewrite (beforeLast_found c r Hr). destruct (c ++ closing ++ r)%string; reflexivity.
  - change (String x host ++ "?session_code=" ++ c ++ closing ++ r)%string
      with (String x (host ++ "?session_code=" ++ c ++ closing ++ r)).
    cbn [sessionCodeIn]. rewrite IH. reflexivity.
Qed.

Lemma oneLine_append (a b : string) :
  Auxiliary.oneLine (a ++ b) = Auxiliary.oneLine a && Auxiliary.oneLine b.
Proof.
  induction a as [|x a IH]; [reflexivity|].
  cbn [append Auxiliary.oneLine]. rewrite IH, andb_assoc. reflexivity.
Qed.

Lemma matchSessionCode_here (s g : string) :
  prefix opening s = true ->
  sessionCodeIn (lineRest (drop (String.length opening) s)) = Some g ->
  matchSessionCode s = Some g.
Proof.
  intros Hp Hg. destruct s as [|x s]; [discriminate Hp|].
  cbn [matchSessionCode]. rewrite Hp, Hg. reflexivity.
Qed.

Lemma matchSessionCode_skips (before after : string) :
  Auxiliary.startsWithin opening before after = false ->
  matchSessionCode (before ++ after) = matchSessionCode after.
Proof.
  induction before as [|x before IH]; intros H; [reflexivity|].
  cbn [Auxiliary.startsWithin] in H. apply orb_false_iff in H. destruct H as [Hhere Hrest].
  change (String x before ++ after)%string with (String x (before ++ after)) in *.
  cbn [matchSessionCode]. rewrite Hhere. apply IH, Hrest.
Qed.

Lemma matchSessionCode_absent (html : string) :
  Auxiliary.startsWithin opening html "" = false -> matchSessionCode html = None.
Proof.
  intros H. rewrite <- (append_empty html). rewrite matchSessionCode_skips by exact H.
  reflexivity.
Qed.

Lemma replaceAll_aux_plain (pat by_ : string) (c : ascii) (s : string) :
  Auxiliary.free c s = true -> replaceAll_aux (String c pat) by_ s 0 = s.
Proof.
  induction s as [|x s IH]; intros H; [reflexivity|].
  cbn [Auxiliary.free] in H. apply andb_true_iff in H. destruct H as [Hx Hs].
  apply negb_true_iff in Hx.
  cbn [replaceAll_aux]. rewrite (prefix_other_head x c _ _ Hx), (IH Hs). reflexivity.
Qed.

Section LoginPage.
Context {EN : Enumerations}.

(** X20. The session code of a login page. When the page has the shape
    [before], [action=]-quote-[https://], [host], [?session_code=], [code],
    quote-space, [rest], where no earlier [action] attribute of that form
    starts within [before], host and code hold no line terminator, the code
    holds no question mark and no quote-space follows on the rest of the
    line, [parseSessionCode] returns the code with every [&amp;] turned
    into [&] (the code itself when it holds no ampersand). A page without
    any such [action] attribute makes it throw a TypeError. *)
Theorem session_code_of_login_page (path before host c rest : string) :
  let form := (opening ++ host ++ "?session_code=" ++ c ++ closing ++ rest)%string in
  Auxiliary.startsWithin opening before form = false ->
  Auxiliary.oneLine host = true ->
  Auxiliary.oneLine c = true ->
  Auxiliary.free "?" c = true ->
  includes closing (lineRest rest) = false ->
  parseSessionCode {| request_path := path; data := before ++ form |}
  = Normal (replaceAll "&amp;" "&" c) /\
  (Auxiliary.free "&" c = true ->
   parseSessionCode {| request_path := path; data := before ++ form |} = Normal c) /\
  (forall html, Auxiliary.startsWithin opening html "" = false ->
                parseSessionCode {| request_path := path; data := html |} = Throw TypeError).
Proof.
  intros form Hfirst Hhost Hline Hc Hrest.
  assert (Hmatch : matchSessionCode (before ++ form) = Some c).
  { rewrite (matchSessionCode_skips before form Hfirst).
    apply matchSessionCode_here; unfold form.
    - apply prefix_append.
    - rewrite drop_append.
      replace (host ++ "?session_code=" ++ c ++ closing ++ rest)%string
        with ((host ++ "?session_code=" ++ c ++ closing) ++ rest)%string.
      + rewrite lineRest_append.
        * replace ((host ++ "?session_code=" ++ c ++ closing) ++ lineRest rest)%string
            with (host ++ "?session_code=" ++ c ++ closing ++ lineRest rest)%string.
          -- apply sessionCodeIn_found; assumption.
          -- rewrite !append_associative. reflexivity.
        * rewrite oneLine_append, Hhost. cbn [append Auxiliary.oneLine].
          rewrite oneLine_append, Hline. reflexivity.
      + rewrite !append_associative. reflexivity. }
  unfold parseSessionCode. cbn [data]. rewrite Hmatch.
  split; [reflexivity|]. split.
  - intros Hamp. unfold replaceAll. rewrite (replaceAll_aux_plain "amp;" "&" "&" c Hamp).
    reflexivity.
  - intros html Hnone. rewrite (matchSessionCode_absent html Hnone). reflexivity.
Qed.

(** X21. A response that is not the final redirect and whose page holds
    no [action] attribute of that form ends the negotiation at once: the
    promise rejects with a TypeError after the one POST, whatever the
    vendor would have answered next. *)
Theorem authenticate_rejects_page_without_form (request : AuthForm) (session_ : Session)
    (response : AxiosResponse) (later : list AxiosResponse) :
  includes "redirect_bridge.html" (request_path response) = false ->
  Auxiliary.startsWithin opening (data response) "" = false ->
  authenticate request session_ (response :: later)
  = ([postOf request session_], Rejected TypeError).
Proof.
  intros Hpath Hpage. cbn [authenticate]. rewrite Hpath. cbn [negb].
  unfold parseSessionCode. rewrite (matchSessionCode_absent _ Hpage). reflexivity.
Qed.

End LoginPage.

Lemma session_code_of_login_page_witness :
  parseSessionCode (Fixture.forcePasswordChange "S1") = Normal "S1".
Proof.
  exact (proj1 (proj2 (session_code_of_login_page
                         "/auth/realms/cw-account/login-actions/authenticate"
                         "<form id=kc-form " "id.example/auth/authenticate" "S1" "method=post>"
                         eq_refl eq_refl eq_refl eq_refl eq_refl)) eq_refl).
Defined.

Lemma authenticate_rejects_page_without_form_witness :
  authenticate (EN := Fixture.enumerations) (LogInRequest "user" "secret") Fixture.session0
    [ {| request_path := "/auth/error"; data := "<html>Invalid username or password</html>" |} ]
  = ([postOf (EN := Fixture.enumerations) (LogInRequest "user" "secret") Fixture.session0],
     Rejected TypeError).
Proof.
  apply (authenticate_rejects_page_without_form (EN := Fixture.enumerations));
    reflexivity.
Defined.

(** ** The platform *)

Section Platform.
Import CowayPlatform.

Lemma allConfigured_Forall (config : list (string * JsValue)) :
  allConfigured config = true <-> Forall (fun kv => truthy (snd kv) = true) config.
Proof.
  induction config as [|[k v] config IH]; cbn [allConfigured].
  - split; [constructor|reflexivity].
  - destruct (truthy v) eqn:E; cbn [negb].
    + rewrite IH. split; [intros H; constructor; [exact E|exact H]|intros H; inversion H; assumption].
    + split; [discriminate|]. intros H. inversion H as [|? ? Hv _]. cbn in Hv. congruence.
Qed.

(** X22. [parseCowayConfig] accepts a configuration only as a whole: it
    returns the configuration itself when every value in it is truthy, and
    undefined as soon as one key, whichever it is, holds a falsy value
    (false, 0, the empty string, null, undefined or NaN). *)
Theorem parseCowayConfig_all_or_nothing (config : list (string * JsValue)) :
  (Forall (fun kv => truthy (snd kv) = true) config -> parseCowayConfig config = Some config) /\
  (forall k v, In (k, v) config -> truthy v = false -> parseCowayConfig config = None) /\
  (forall parsed, parseCowayConfig config = Some parsed -> parsed = config).
Proof.
  unfold parseCowayConfig. split; [|split].
  - intros H. apply allConfigured_Forall in H. rewrite H. reflexivity.
  - intros k v Hin Hv. destruct (allConfigured config) eqn:E; [|reflexivity].
    apply allConfigured_Forall in E. rewrite Forall_forall in E.
    specialize (E (k, v) Hin). cbn in E. congruence.
  - intros parsed. destruct (allConfigured config); [intros [= <-]; reflexivity|discriminate].
Qed.

Lemma updatedBy_refl (infos : list JsValue) (devices : list Device) :
  Forall2 (Auxiliary.updatedBy infos) devices devices.
Proof. induction devices; constructor; [split; auto|assumption]. Qed.

Lemma markDevices_updatedBy (info : JsValue) (infos : list JsValue) (devices : list Device) :
  Forall2 (Auxiliary.updatedBy (info :: infos)) devices
          (markDevices (get info "devId") (get info "netStatus") devices).
Proof.
  induction devices as [|e devices IH]; cbn [markDevices map]; constructor; [|exact IH].
  unfold Auxiliary.updatedBy.
  destruct (strictEquals (barcode e) (get info "devId")) eqn:E; cbn [barcode netStatus].
  - split; [reflexivity|]. right. exists info. split; [left; reflexivity|]. auto.
  - auto.
Qed.

Lemma updatedBy_then (info : JsValue) (infos : list JsValue) (first second third : list Device) :
  Forall2 (Auxiliary.updatedBy (info :: infos)) first second ->
  Forall2 (Auxiliary.updatedBy infos) second third ->
  Forall2 (Auxiliary.updatedBy (info :: infos)) first third.
Proof.
  intros H1. revert third.
  induction H1 as [|a b first second [Hb Hn] _ IH]; intros third H2;
    inversion H2 as [|? c ? third' [Hb' Hn'] Hrest]; subst; constructor.
  - split; [congruence|].
    destruct Hn' as [Hn'|(i & Hi & Heq & Hst)].
    + destruct Hn as [Hn|(i & Hi & Heq & Hst)].
      * left. congruence.
      * right. exists i. split; [exact Hi|]. split; [exact Heq|congruence].
    + right. exists i. split; [right; exact Hi|]. split; [rewrite <- Hb; exact Heq|exact Hst].
  - apply IH, Hrest.
Qed.

Lemma mergeInfos_updatedBy (infos : list JsValue) :
  forall devices, Forall2 (Auxiliary.updatedBy infos) devices (mergeInfos infos devices).
Proof.
  induction infos as [|info infos IH]; intros devices; [apply updatedBy_refl|].
  pose proof (updatedBy_then info infos _ _ _
                (markDevices_updatedBy info infos devices)
                (IH (markDevices (get info "devId") (get info "netStatus") devices))) as H.
  destruct info; cbn [mergeInfos]; try exact H; apply updatedBy_refl.
Qed.

(** X23. Whatever the connections call returns, merging it into the
    devices keeps the list as it is (same length, same order, same
    barcodes); the only thing that can change is a device's [netStatus],
    and only into the [netStatus] of an element of [data] whose [devId] is
    strictly equal to that device's barcode. A response that is null or
    undefined, or whose [data] is falsy, not iterable or empty, changes
    nothing. *)
Theorem connections_only_set_netStatus (response : JsValue) (devices : list Device) :
  Forall2 (Auxiliary.updatedBy (Auxiliary.elementsOf (getOpt response "data")))
          devices (mergeConnections response devices) /\
  (Auxiliary.elementsOf (getOpt response "data") = [] ->
   mergeConnections response devices = devices).
Proof.
  unfold mergeConnections. split.
  - destruct (negb (truthy (getOpt response "data"))); [apply updatedBy_refl|].
    destruct (getOpt response "data"); cbn [Auxiliary.elementsOf];
      first [apply mergeInfos_updatedBy | apply updatedBy_refl].
  - intros H. destruct (negb (truthy (getOpt response "data"))); [reflexivity|].
    destruct (getOpt response "data"); cbn [Auxiliary.elementsOf] in H;
      try reflexivity; rewrite H; reflexivity.
Qed.

Lemma indexOfEntry_first (x : Entry) (kept rest : list Entry) :
  Forall (fun c => identity c <> identity x) kept ->
  indexOfEntry x (kept ++ x :: rest) = Z.of_nat (length kept).
Proof.
  induction 1 as [|c kept Hc _ IH]; cbn [app indexOfEntry length].
  - rewrite Nat.eqb_refl. reflexivity.
  - apply Nat.eqb_neq in Hc. rewrite Hc, IH.
    destruct (Z.ltb_spec (Z.of_nat (length kept)) 0); lia.
Qed.

Lemma spliceOne_middle (x : Entry) (kept rest : list Entry) :
  spliceOne (Z.of_nat (length kept)) (kept ++ x :: rest) = (kept ++ rest)%list.
Proof.
  unfold spliceOne. rewrite length_app. cbn [length].
  destruct (Z.ltb_spec (Z.of_nat (length kept)) 0); [lia|].
  rewrite Z.min_l by lia. rewrite Nat2Z.id.
  rewrite firstn_app, firstn_all, Nat.sub_diag, firstn_O, app_nil_r.
  replace (S (length kept)) with (length kept + 1)%nat by lia.
  rewrite skipn_app, skipn_all2 by lia.
  replace (length kept + 1 - length kept)%nat with 1%nat by lia.
  reflexivity.
Qed.

Lemma removal_loop (rest : list Entry) :
  forall kept,
    Forall (fun c => configured c = true) kept ->
    (forall a b, In a (kept ++ rest) -> In b (kept ++ rest) ->
                 identity a = identity b -> configured a = configured b) ->
    fold_left (fun acc accessory => spliceOne (indexOfEntry accessory acc) acc)
              (filter (fun a => negb (configured a)) rest) (kept ++ rest)%list
    = (kept ++ filter configured rest)%list.
Proof.
  induction rest as [|x rest IH]; intros kept Hkept Hsame; [reflexivity|].
  cbn [filter]. destruct (configured x) eqn:Hx; cbn [negb].
  - replace (kept ++ x :: rest)%list with ((kept ++ [x]) ++ rest)%list
      by (rewrite <- app_assoc; reflexivity).
    replace (kept ++ x :: filter configured rest)%list
      with ((kept ++ [x]) ++ filter configured rest)%list
      by (rewrite <- app_assoc; reflexivity).
    apply IH.
    + apply Forall_app. split; [exact Hkept|]. constructor; [exact Hx|constructor].
    + rewrite <- app_assoc. exact Hsame.
  - cbn [fold_left]. rewrite indexOfEntry_first, spliceOne_middle.
    + apply IH; [exact Hkept|].
      intros a b Ha Hb. apply Hsame; apply in_app_iff; apply in_app_iff in Ha, Hb;
        cbn [In]; tauto.
    + rewrite Forall_forall in Hkept |- *. intros c Hc Hid.
      assert (Hcx : configured c = configured x).
      { apply Hsame; [apply in_app_iff; left; exact Hc
                     |apply in_app_iff; right; left; reflexivity|exact Hid]. }
      rewrite (Hkept c Hc), Hx in Hcx. discriminate.
Qed.

(** X24. The removal loop at the end of [configureCowayDevices]: as long
    as one accessory object has one [configured] flag (entries with the
    same identity agree on it), removing each unconfigured accessory with
    [splice(indexOf(accessory), 1)] leaves exactly the configured
    accessories, in their order, and the ones handed over for
    unregistering are exactly the others. *)
Theorem unconfigured_accessories_are_removed (accessories : list Entry) :
  (forall a b, In a accessories -> In b accessories ->
               identity a = identity b -> configured a = configured b) ->
  removeUnconfigured accessories
  = (filter configured accessories, filter (fun a => negb (configured a)) accessories).
Proof.
  intros Hsame. unfold removeUnconfigured. f_equal.
  exact (removal_loop accessories [] (Forall_nil _) Hsame).
Qed.

Section Cycle.

Variable retrieveDeviceState : Accessory -> string -> JsValue.
Variable refresh : Accessory -> AccessoryResponses -> Completion unit.

Lemma refreshLoop_stops (accessories : list Accessory) :
  forall responses,
    exists completed tail,
      refreshLoop refresh accessories responses = (completed ++ tail)%list /\
      Forall (fun call => refresh (fst call) (snd call) = Normal tt) completed /\
      map fst (completed ++ tail) = firstn (length (completed ++ tail)) accessories /\
      ((tail = [] /\ length completed = length accessories) \/
       exists call e, tail = [call] /\ refresh (fst call) (snd call) = Throw e).
Proof.
  induction accessories as [|a accessories IH]; intros responses.
  - exists [], []. repeat split; auto.
  - cbn [refreshLoop splice0].
    destruct (refresh a (zipEndpointResponses (getEndpoints a)
                           (firstn (length (getEndpoints a)) responses))) as [[]|e] eqn:E.
    + destruct (IH (skipn (length (getEndpoints a)) responses))
        as (completed & tail & Hcalls & Hdone & Hprefix & Hend).
      exists ((a, zipEndpointResponses (getEndpoints a)
                    (firstn (length (getEndpoints a)) responses)) :: completed), tail.
      rewrite Hcalls. split; [reflexivity|]. split; [constructor; [exact E|exact Hdone]|].
      split.
      * cbn [app map fst length firstn]. rewrite Hprefix. reflexivity.
      * destruct Hend as [[-> Hlen]|Hthrow]; [left|right; exact Hthrow].
        split; [reflexivity|]. cbn [length]. rewrite Hlen. reflexivity.
    + exists [], [(a, zipEndpointResponses (getEndpoints a)
                        (firstn (length (getEndpoints a)) responses))].
      split; [reflexivity|]. split; [constructor|]. split; [reflexivity|].
      right. eexists. exists e. split; [reflexivity|exact E].
Qed.

Lemma queues_length (accessories : list Accessory) :
  length (queues accessories) = offsetOf accessories (length accessories).
Proof.
  unfold offsetOf. rewrite firstn_all.
  induction accessories as [|a accessories IH]; [reflexivity|].
  cbn [queues flat_map map list_sum]. rewrite length_app, length_map.
  unfold queues in IH. rewrite IH. reflexivity.
Qed.

(** X25. With every device-state request resolved, a poll cycle has asked
    for every endpoint of every accessory before it refreshes any of them,
    and then refreshes the accessories in order
    until one refresh throws: the accessories refreshed are a prefix of the
    list, every refresh but the last completed, and either all accessories
    were refreshed or the last refresh threw and the accessories after it
    were not refreshed in this cycle, although their responses had been
    fetched. *)
Theorem poll_stops_at_first_failure (accessories : list Accessory) :
  length (awaitAll retrieveDeviceState (queues accessories))
  = offsetOf accessories (length accessories) /\
  exists completed tail,
    refreshDevicesParallel retrieveDeviceState refresh accessories = (completed ++ tail)%list /\
    Forall (fun call => refresh (fst call) (snd call) = Normal tt) completed /\
    map fst (completed ++ tail) = firstn (length (completed ++ tail)) accessories /\
    ((tail = [] /\ length completed = length accessories) \/
     exists call e, tail = [call] /\ refresh (fst call) (snd call) = Throw e).
Proof.
  split.
  - unfold awaitAll. rewrite length_map. apply queues_length.
  - apply refreshLoop_stops.
Qed.

End Cycle.

End Platform.

Lemma parseCowayConfig_all_or_nothing_witness :
  CowayPlatform.parseCowayConfig Fixture.configWithFalse = None.
Proof.
  apply (proj1 (proj2 (parseCowayConfig_all_or_nothing Fixture.configWithFalse))
           "debug" (JBool false)); [|reflexivity].
  right. right. right. left. reflexivity.
Defined.

Lemma unconfigured_accessories_are_removed_witness :
  CowayPlatform.removeUnconfigured Fixture.registered
  = ([ {| CowayPlatform.identity := 1; CowayPlatform.configured := true |};
       {| CowayPlatform.identity := 3; CowayPlatform.configured := true |} ],
     [ {| CowayPlatform.identity := 2; CowayPlatform.configured := false |} ]).
Proof.
  apply (unconfigured_accessories_are_removed Fixture.registered).
  intros a b [<-|[<-|[<-|[]]]] [<-|[<-|[<-|[]]]]; cbn; intros H;
    first [reflexivity | discriminate H].
Defined.

Lemma connections_only_set_netStatus_witness :
  CowayPlatform.mergeConnections (JObject [("data", JObject [])]) Fixture.twoDevices
  = Fixture.twoDevices.
Proof.
  exact (proj2 (connections_only_set_netStatus (JObject [("data", JObject [])])
                  Fixture.twoDevices) eq_refl).
Defined.

(** The vendor names the second of two devices: its status is set, the
    first is left as it was. *)
Example connections_mark_one_device :
  map CowayPlatform.netStatus (CowayPlatform.mergeConnections Fixture.connections Fixture.twoDevices)
  = [JUndefined; JBool true].
Proof. reflexivity. Qed.

(** ** What the handlers leave alone *)

Section Frame.
Context {RT : Runtime} {EN : Enumerations}.

Lemma brightness_range (p : Q) :
  (0 <= p)%Q -> (p <= 100)%Q ->
  exists b, 0 <= b <= 3 /\ brightnessOfPercentage (Num p) = ofZ b.
Proof.
  intros H0 H100. exists (Qfloor (p / (100 # 3) + (1 # 2))). split; [|reflexivity].
  assert (Hx : (0 <= p / (100 # 3) + (1 # 2))%Q /\ (p / (100 # 3) + (1 # 2) <= 7 # 2)%Q).
  { unfold Qdiv. change (/ (100 # 3))%Q with (3 # 100)%Q. split; lra. }
  destruct Hx as [Hlo Hhi].
  apply Qfloor_resp_le in Hlo. apply Qfloor_resp_le in Hhi.
  change (Qfloor 0) with 0 in Hlo. change (Qfloor (7 # 2)) with 3 in Hhi. lia.
Qed.

(** X26. For a percentage between 0 and 100 the Brightness handler works
    on a level between 0 and 3 and never reports an error. It sends
    nothing (the level is the stored one), or light = off alone (level 0,
    which also stores the light as off), or one batch that ends with the
    brightness command carrying the level as a decimal numeral, preceded
    by power = on exactly when the device is off. *)
Theorem brightness_handler_levels (ctx : MarvelAirPurifierInterface) (p : Q) :
  (0 <= p)%Q -> (p <= 100)%Q ->
  exists b,
    0 <= b <= 3 /\
    brightnessOfPercentage (Num p) = ofZ b /\
    let o := lightbulbBrightnessSet ctx (Num p) in
    callback o = None /\
    deferred o = [] /\
    ((sent o = [] /\ context o = ctx) \/
     (b = 0 /\
      sent o = [[ {| key := Field_LIGHT; value := Light_OFF |} ]] /\
      light_on (lightbulbInfo (controlInfo (context o))) = false /\
      brightness (lightbulbInfo (controlInfo (context o))) = Some (ofZ 0)) \/
     (1 <= b /\
      brightness (lightbulbInfo (controlInfo (context o))) = Some (ofZ b) /\
      light_on (lightbulbInfo (controlInfo (context o)))
      = light_on (lightbulbInfo (controlInfo ctx)) /\
      sent o = [ ((if on (controlInfo ctx) then []
                   else [ {| key := Field_POWER; value := Power_ON |} ])
                  ++ [ {| key := Field_LIGHT_BRIGHTNESS; value := string_of_Z b |} ])%list ])).
Proof.
  intros H0 H100. destruct (brightness_range p H0 H100) as (b & Hb & Hlevel).
  exists b. split; [exact Hb|]. split; [exact Hlevel|].
  unfold lightbulbBrightnessSet. rewrite Hlevel.
  destruct (brightnessIs ctx (ofZ b)).
  { cbn. auto. }
  rewrite eqb_ofZ. destruct (Z.eqb_spec b 0) as [->|Hnz].
  { cbn. split; [reflexivity|]. split; [reflexivity|]. right. left. auto. }
  assert (Hfix : toFixed0 (ofZ b) = string_of_Z b).
  { assert (E : b = 1 \/ b = 2 \/ b = 3) by lia.
    destruct E as [-> | [-> | ->]]; reflexivity. }
  rewrite Hfix.
  cbn [done callback deferred sent context].
  split; [reflexivity|]. split; [reflexivity|]. right. right.
  split; [lia|]. split; [reflexivity|]. split; [reflexivity|].
  cbn [set_brightness with_lightbulbInfo with_controlInfo controlInfo on].
  destruct (on (controlInfo ctx)); reflexivity.
Qed.

(** X27. No characteristic handler touches what a poll has read: after
    any of the five SET handlers the device info, the filter infos, the
    indoor air quality and the stored air-quality grade are what they
    were. Each handler itself awaits at most one vendor call, and a call
    carries one or two commands. *)
Theorem handlers_keep_the_readings (refreshing : bool) (ctx : MarvelAirPurifierInterface)
    (v : JsValue) (n : number) :
  let kept (o : Outcome) :=
    deviceInfo (context o) = deviceInfo ctx /\
    filterInfos (context o) = filterInfos ctx /\
    indoorAirQuality (context o) = indoorAirQuality ctx /\
    airQuality (controlInfo (context o)) = airQuality (controlInfo ctx) /\
    (length (sent o) <= 1)%nat /\
    Forall (fun batch => (1 <= length batch <= 2)%nat) (sent o) in
  kept (activeSet ctx v) /\
  kept (lightbulbOnSet ctx v) /\
  kept (lightbulbBrightnessSet ctx n) /\
  kept (rotationSpeedSet refreshing ctx n) /\
  kept (targetAirPurifierStateSet ctx v).
Proof.
  intros kept. unfold kept.
  unfold activeSet, lightbulbOnSet, lightbulbBrightnessSet, rotationSpeedSet,
    targetAirPurifierStateSet, driveAutomatically, driveManually, executeRotationCommand.
  repeat match goal with
         | |- context [if ?b then _ else _] => destruct b
         | |- context [match ?x with Some _ => _ | None => _ end] => destruct x
         end;
    cbn; repeat split; try lia; repeat constructor; cbn; lia.
Qed.

(** X28. A status response without indoor-air data reads as clean air:
    when the response is null or undefined or has no [IAQ], or when both
    dust fields of [IAQ] are missing, null or empty, the densities are
    stored as 0 and a running device reports EXCELLENT, not UNKNOWN. *)
Theorem missing_readings_read_as_excellent (statusInfo : JsValue)
    (ctx : MarvelAirPurifierInterface) :
  truthy (getOpt statusInfo "IAQ") = false \/
  (Auxiliary.isNullish (get (getOpt statusInfo "IAQ") "dustpm10")
   || strictEqString (get (getOpt statusInfo "IAQ") "dustpm10") "" = true /\
   Auxiliary.isNullish (get (getOpt statusInfo "IAQ") "dustpm25")
   || strictEqString (get (getOpt statusInfo "IAQ") "dustpm25") "" = true) ->
  indoorAirQuality ctx = getIndoorAirQuality statusInfo ->
  on (controlInfo ctx) = true ->
  pm10Density (indoorAirQuality ctx) = Some (ofZ 0) /\
  pm25Density (indoorAirQuality ctx) = Some (ofZ 0) /\
  getCurrentAirQuality ctx = AirQuality_EXCELLENT.
Proof.
  intros Hmissing Hctx Hon.
  assert (Hblank : forall v, Auxiliary.isNullish v || strictEqString v "" = true ->
                             parseNullableFloat v = ofZ 0).
  { intros v H. destruct v as [| | | |s| |]; try discriminate H; try reflexivity.
    cbn in H. apply String.eqb_eq in H. subst s. reflexivity. }
  assert (Hzero : pm10Density (indoorAirQuality ctx) = Some (ofZ 0) /\
                  pm25Density (indoorAirQuality ctx) = Some (ofZ 0)).
  { rewrite Hctx. unfold getIndoorAirQuality.
    destruct (negb (truthy (getOpt statusInfo "IAQ"))) eqn:E; [split; reflexivity|].
    destruct Hmissing as [H|[H10 H25]].
    - rewrite H in E. discriminate E.
    - cbn [pm10Density pm25Density]. rewrite (Hblank _ H10), (Hblank _ H25).
      split; reflexivity. }
  destruct Hzero as [H10 H25]. split; [exact H10|]. split; [exact H25|].
  unfold getCurrentAirQuality. rewrite Hon, H10, H25. reflexivity.
Qed.

End Frame.

Lemma brightness_handler_levels_witness :
  exists b, 0 <= b <= 3 /\ brightnessOfPercentage (Num 50) = ofZ b.
Proof.
  destruct (brightness_handler_levels (EN := Fixture.enumerations) Fixture.offManual 50
              ltac:(discriminate) ltac:(discriminate)) as (b & Hb & Hlevel & _).
  exists b. split; assumption.
Defined.

Lemma missing_readings_read_as_excellent_witness :
  getCurrentAirQuality
    {| deviceInfo := Fixture.device; filterInfos := [];
       indoorAirQuality := getIndoorAirQuality (RT := Fixture.runtime) JNull;
       controlInfo := controlInfo Fixture.onManual |}
  = AirQuality_EXCELLENT.
Proof.
  apply (missing_readings_read_as_excellent (RT := Fixture.runtime) JNull
           {| deviceInfo := Fixture.device; filterInfos := [];
              indoorAirQuality := getIndoorAirQuality (RT := Fixture.runtime) JNull;
              controlInfo := controlInfo Fixture.onManual |});
    [left; reflexivity | reflexivity | reflexivity].
Defined.

(** ** The object the air-quality service captures *)

Section Captured.
Context {RT : Runtime} {EN : Enumerations}.

Variable super_refresh : MarvelAirPurifier.AccessoryResponses -> MarvelAirPurifier.Accessory
                         -> MarvelAirPurifier.Accessory.

Lemma assign_keeps (s : Store) (value : IndoorAirQuality) (a : nat) :
  (a < next s)%nat -> object (assign s value) a = object s a.
Proof.
  intros H. cbn [assign object].
  destruct (Nat.eqb_spec a (next s)) as [E|_]; [lia|reflexivity].
Qed.

Lemma refreshStore_keeps (responses : MarvelAirPurifier.AccessoryResponses)
    (this : MarvelAirPurifier.Accessory) (s : Store) (a : nat) :
  (a < next s)%nat ->
  object (refreshStore super_refresh responses this s) a = object s a /\
  (a < next (refreshStore super_refresh responses this s))%nat.
Proof.
  intros H. unfold refreshStore.
  destruct (negb (isConnected (super_refresh responses this))); [auto|].
  destruct (getFilterInfos _); [|auto].
  split; [apply assign_keeps, H|cbn [assign next]; lia].
Qed.

Lemma polls_keep (polls : list MarvelAirPurifier.AccessoryResponses) :
  forall (this : MarvelAirPurifier.Accessory) (s : Store) (a : nat),
    (a < next s)%nat ->
    object (snd (fold_left (poll super_refresh) polls (this, s))) a = object s a.
Proof.
  induction polls as [|responses polls IH]; intros this s a H; [reflexivity|].
  cbn [fold_left poll].
  destruct (refreshStore_keeps responses this s a H) as [Hkept Hnext].
  rewrite IH by exact Hnext. exact Hkept.
Qed.

Lemma poll_mirrors (responses : MarvelAirPurifier.AccessoryResponses)
    (this : MarvelAirPurifier.Accessory) (s : Store) :
  platformContext (super_refresh responses this) = platformContext this ->
  object s (current s) = indoorAirQuality (platformContext this) ->
  object (refreshStore super_refresh responses this s)
         (current (refreshStore super_refresh responses this s))
  = indoorAirQuality (platformContext (fst (fst (refresh super_refresh responses this)))).
Proof.
  intros Hframe Hmirror. unfold refreshStore, refresh.
  destruct (negb (isConnected (super_refresh responses this)));
    [cbn [fst]; rewrite Hframe; exact Hmirror|].
  destruct (getFilterInfos _); cbn [fst]; [|rewrite Hframe; exact Hmirror].
  cbn [assign object current platformContext indoorAirQuality].
  rewrite Nat.eqb_refl. reflexivity.
Qed.

Lemma polls_mirror (polls : list MarvelAirPurifier.AccessoryResponses) :
  (forall responses this, platformContext (super_refresh responses this) = platformContext this) ->
  forall (this : MarvelAirPurifier.Accessory) (s : Store),
    object s (current s) = indoorAirQuality (platformContext this) ->
    let after := fold_left (poll super_refresh) polls (this, s) in
    object (snd after) (current (snd after))
    = indoorAirQuality (platformContext (fst after)).
Proof.
  intros Hframe. induction polls as [|responses polls IH]; intros this s H; [exact H|].
  cbn [fold_left poll]. apply IH. apply poll_mirrors; [apply Hframe|exact H].
Qed.

(** X29. The density handlers of the air-quality service answer from the
    indoor-air-quality object they captured when the service was
    registered, and [refresh] stores a new object instead of writing into
    that one. So, with a base-class refresh that leaves the context alone,
    after any sequence of polls the PM10, PM2.5 and VOC GET handlers still
    return the readings of registration time, whereas the humidity and
    temperature GET handlers return those of the current context. *)
Theorem density_handlers_answer_from_registration
    (polls : list MarvelAirPurifier.AccessoryResponses)
    (this : MarvelAirPurifier.Accessory) (s : Store) :
  (forall responses a, platformContext (super_refresh responses a) = platformContext a) ->
  (current s < next s)%nat ->
  object s (current s) = indoorAirQuality (platformContext this) ->
  let service := registerAirQualityService s in
  let after := fold_left (poll super_refresh) polls (this, s) in
  pm10DensityGet service (snd after) = pm10Density (indoorAirQuality (platformContext this)) /\
  pm25DensityGet service (snd after) = pm25Density (indoorAirQuality (platformContext this)) /\
  vocDensityGet service (snd after) = vocDensity (indoorAirQuality (platformContext this)) /\
  humidityGet (snd after) = humidity (indoorAirQuality (platformContext (fst after))) /\
  temperatureGet (snd after) = temperature (indoorAirQuality (platformContext (fst after))).
Proof.
  intros Hframe Hvalid Hmirror service after.
  unfold pm10DensityGet, pm25DensityGet, vocDensityGet, humidityGet, temperatureGet.
  unfold service, after. cbn [registerAirQualityService airQuality_].
  rewrite (polls_keep polls this s (current s) Hvalid), Hmirror.
  rewrite (polls_mirror polls Hframe this s Hmirror).
  repeat split; reflexivity.
Qed.

End Captured.

Lemma density_handlers_answer_from_registration_witness :
  let service :=
    registerAirQualityService Fixture.storeAtRegistration in
  let after :=
    fold_left (poll (RT := Fixture.runtime) (EN := Fixture.enumerations)
                 Fixture.connectivityFromControl)
      [Fixture.pollResult true] (Fixture.accessory, Fixture.storeAtRegistration) in
  pm10DensityGet service (snd after) = Some (ofZ 12).
Proof.
  exact (proj1 (density_handlers_answer_from_registration
                  (RT := Fixture.runtime) (EN := Fixture.enumerations)
                  Fixture.connectivityFromControl [Fixture.pollResult true]
                  Fixture.accessory Fixture.storeAtRegistration
                  (fun _ _ => eq_refl) (le_n 1) eq_refl)).
Defined.

(** After one connected poll that reports a PM10 density of 95, the
    context holds 95 and the refresh has pushed 95, but the PM10 GET
    handler still answers 12, the reading at registration. *)
Example density_is_stale_after_a_poll :
  let service := registerAirQualityService Fixture.storeAtRegistration in
  let after :=
    fold_left (poll (RT := Fixture.runtime) (EN := Fixture.enumerations)
                 Fixture.connectivityFromControl)
      [Fixture.pollResult true] (Fixture.accessory, Fixture.storeAtRegistration) in
  pm10DensityGet service (snd after) = Some (ofZ 12) /\
  pm10Density (indoorAirQuality (platformContext (fst after))) = Some (ofZ 95) /\
  humidityGet (snd after) = Some (ofZ 0).
Proof. repeat split; reflexivity. Qed.
